(** * Seat inventory, booking lifecycle and promo codes of the ticketing backend

    A shallow embedding of [app/models/booking.py], [app/models/trip.py],
    [bookings.py], [app/routes/admin_bookings.py], [admin_trips.py] and the
    payment bridge of [app/routes/payments.py].

    Tables are lists of rows in primary-key order, a request handler is a
    function from the committed database to a response and the database it
    commits.  Python floats are IEEE 754 binary64 values, modelled by the
    Standard Library's [spec_float] at precision 53. *)

From Stdlib Require Import ZArith List Bool String Ascii Lia DecimalString.
From Stdlib Require Import SpecFloat.
Import ListNotations.
Open Scope string_scope.
Open Scope Z_scope.

(** ** Python floats *)

Module PyFloat.

Definition prec : Z := 53.
Definition emax : Z := 1024.

Definition float := spec_float.

Definition fadd : float -> float -> float := SFadd prec emax.
Definition fsub : float -> float -> float := SFsub prec emax.
Definition fmul : float -> float -> float := SFmul prec emax.
Definition fdiv : float -> float -> float := SFdiv prec emax.
Definition fltb : float -> float -> bool := SFltb.
Definition fleb : float -> float -> bool := SFleb.

(** The binary64 value nearest to the integer [n]: Python's [float(n)]. *)
Definition of_Z (n : Z) : float := binary_normalize prec emax n 0 false.

(** The binary64 value nearest to [(-1)^s * num / den], ties to even: what
    [float(Decimal(...))] and the string-to-float conversion return for a
    decimal with numerator [num] and denominator [den]. *)
Definition of_ratio (s : bool) (num den : positive) : float :=
  SFdiv prec emax (S754_finite s num 0) (S754_finite false den 0).

(** A decimal given by its integer numerator over [den], as a float. *)
Definition of_decimal (n : Z) (den : positive) : float :=
  match n with
  | Z0 => S754_zero false
  | Zpos p => of_ratio false p den
  | Zneg p => of_ratio true p den
  end.

(** [n / d] rounded to the nearest integer, ties to the even one
    ([d] positive). *)
Definition div_half_even (n d : Z) : Z :=
  let q := n / d in
  let r := n mod d in
  if 2 * r <? d then q
  else if d <? 2 * r then q + 1
  else if Z.even q then q else q + 1.

(** [n / d] rounded to the nearest integer, ties upwards: the half-up rule. *)
Definition div_half_up (n d : Z) : Z := (2 * n + d) / (2 * d).

(** The exact value [m * 2^e] in hundredths, as a fraction [num / den]. *)
Definition hundredths_num (m : positive) (e : Z) : Z :=
  if 0 <=? e then Zpos m * 100 * 2 ^ e else Zpos m * 100.
Definition hundredths_den (e : Z) : Z :=
  if 0 <=? e then 1 else 2 ^ (- e).

(** The number of hundredths Python's [round(x, 2)] selects for the finite
    non-zero float [m * 2^e]: the exact binary value is rounded to the
    nearest hundredth, ties to even. *)
Definition round_cents (m : positive) (e : Z) : Z :=
  div_half_even (hundredths_num m e) (hundredths_den e).

(** The number of hundredths the half-up rule selects for the same value. *)
Definition half_up_cents (m : positive) (e : Z) : Z :=
  div_half_up (hundredths_num m e) (hundredths_den e).

(** Python's [round(x, 2)] on a float: the decimal selected by
    [round_cents], converted back to the nearest float.  Zeros, infinities
    and NaN round to themselves. *)
Definition round2 (x : float) : float :=
  match x with
  | S754_finite s m e =>
      match round_cents m e with
      | Zpos n => of_ratio s n 100
      | _ => S754_zero s
      end
  | _ => x
  end.

(** The same with the half-up rule, as the specification words it. *)
Definition round2_half_up (x : float) : float :=
  match x with
  | S754_finite s m e =>
      match (if s then - div_half_up (- hundredths_num m e) (hundredths_den e)
             else half_up_cents m e) with
      | Zpos n => of_ratio false n 100
      | Zneg n => of_ratio true n 100
      | Z0 => S754_zero s
      end
  | _ => x
  end.

(** Python's [min(a, b)]: [b] when [b < a], otherwise [a]. *)
Definition fmin (a b : float) : float := if fltb b a then b else a.

(** Python's [sum] over floats: additions from the integer [0], left to
    right, as the built-in adds before Python 3.12 and as a [+=] loop adds;
    from 3.12 on the built-in compensates the rounding errors, which can
    show with three floats or more. *)
Definition fsum (l : list float) : float :=
  fold_left fadd l (S754_zero false).

(** Exact comparison of a float with a decimal of [c] hundredths, as Python
    compares a [float] with a [Decimal]: [x < c / 100]. *)
Definition lt_decimal (x : float) (c : Z) : bool :=
  match x with
  | S754_zero _ => 0 <? c
  | S754_infinity s => s
  | S754_nan => false
  | S754_finite s m e =>
      let n := if s then - hundredths_num m e else hundredths_num m e in
      n <? c * hundredths_den e
  end.

End PyFloat.

Import PyFloat.


(** ** Strings *)

Definition is_upper (c : ascii) : bool :=
  (65 <=? nat_of_ascii c)%nat && (nat_of_ascii c <=? 90)%nat.
Definition is_lower (c : ascii) : bool :=
  (97 <=? nat_of_ascii c)%nat && (nat_of_ascii c <=? 122)%nat.
Definition is_digit (c : ascii) : bool :=
  (48 <=? nat_of_ascii c)%nat && (nat_of_ascii c <=? 57)%nat.
Definition is_alpha (c : ascii) : bool := is_upper c || is_lower c.

(** The characters [str.strip()] removes (the ASCII ones). *)
Definition is_space (c : ascii) : bool :=
  let n := nat_of_ascii c in
  ((9 <=? n)%nat && (n <=? 13)%nat) || ((28 <=? n)%nat && (n <=? 32)%nat).

Definition lower_char (c : ascii) : ascii :=
  if is_upper c then ascii_of_nat (nat_of_ascii c + 32) else c.
Definition upper_char (c : ascii) : ascii :=
  if is_lower c then ascii_of_nat (nat_of_ascii c - 32) else c.

Fixpoint smap (f : ascii -> ascii) (s : string) : string :=
  match s with
  | EmptyString => EmptyString
  | String c s' => String (f c) (smap f s')
  end.

Definition lower : string -> string := smap lower_char.
Definition upper : string -> string := smap upper_char.

Fixpoint lstrip (s : string) : string :=
  match s with
  | String c s' => if is_space c then lstrip s' else s
  | EmptyString => EmptyString
  end.

Fixpoint rstrip (s : string) : string :=
  match s with
  | EmptyString => EmptyString
  | String c s' =>
      match rstrip s' with
      | EmptyString => if is_space c then EmptyString else String c EmptyString
      | r => String c r
      end
  end.

Definition strip (s : string) : string := rstrip (lstrip s).

Fixpoint sforall (p : ascii -> bool) (s : string) : bool :=
  match s with
  | EmptyString => true
  | String c s' => p c && sforall p s'
  end.

Fixpoint sfilter (p : ascii -> bool) (s : string) : string :=
  match s with
  | EmptyString => EmptyString
  | String c s' => if p c then String c (sfilter p s') else sfilter p s'
  end.

Definition is_empty (s : string) : bool :=
  match s with EmptyString => true | _ => false end.

Definition len (s : string) : Z := Z.of_nat (String.length s).

Definition str_of_Z (n : Z) : string := NilZero.string_of_int (Z.to_int n).

(** [', '.join(l)] *)
Fixpoint join (sep : string) (l : list string) : string :=
  match l with
  | [] => ""
  | [x] => x
  | x :: l' => x ++ sep ++ join sep l'
  end.

(** The text before the first occurrence of [c], and the text after it. *)
Fixpoint split_first (c : ascii) (s : string) : option (string * string) :=
  match s with
  | EmptyString => None
  | String a s' =>
      if Ascii.eqb a c then Some (EmptyString, s')
      else match split_first c s' with
           | Some (l, r) => Some (String a l, r)
           | None => None
           end
  end.

(** The text before the last occurrence of [c], and the text after it. *)
Fixpoint split_last (c : ascii) (s : string) : option (string * string) :=
  match s with
  | EmptyString => None
  | String a s' =>
      match split_last c s' with
      | Some (l, r) => Some (String a l, r)
      | None => if Ascii.eqb a c then Some (EmptyString, s') else None
      end
  end.

(** [repr(float(d))] for a non-negative decimal [d] of [c] hundredths below
    1e16: the shortest decimal that reads back. *)
Definition repr_decimal2 (c : Z) : string :=
  let i := str_of_Z (c / 100) in
  let f := c mod 100 in
  if f mod 10 =? 0 then i ++ "." ++ str_of_Z (f / 10)
  else i ++ "." ++ str_of_Z (f / 10) ++ str_of_Z (f mod 10).

(** ** app/utils/validators.py *)

Definition email_local_char (c : ascii) : bool :=
  is_alpha c || is_digit c ||
  existsb (Ascii.eqb c) ["."; "_"; "%"; "+"; "-"]%char.
Definition email_domain_char (c : ascii) : bool :=
  is_alpha c || is_digit c || existsb (Ascii.eqb c) ["."; "-"]%char.

(** [re.match] of
    [^[a-zA-Z0-9._%+-]+@[a-zA-Z0-9.-]+\.[a-zA-Z]{2,}$]: neither class holds
    [@], so the local part ends at the first [@]; the last label holds no
    dot, so it starts after the last dot.  For input without a final
    newline, as the handlers pass it after [strip]. *)
Definition validate_email (email : string) : bool :=
  match split_first "@" email with
  | None => false
  | Some (local, rest) =>
      negb (is_empty local) && sforall email_local_char local &&
      match split_last "." rest with
      | None => false
      | Some (domain, tld) =>
          negb (is_empty domain) && sforall email_domain_char domain &&
          (2 <=? len tld) && sforall is_alpha tld
      end
  end.

Definition phone_format_char (c : ascii) : bool :=
  is_space c || existsb (Ascii.eqb c) ["-"; "("; ")"; "+"]%char.

Definition validate_phone_number (phone : string) : bool * string :=
  let digits_only := sfilter (fun c => negb (phone_format_char c)) phone in
  if (len digits_only <? 10) || (15 <? len digits_only) then
    (false, "Phone number must be between 10 and 15 digits")
  else if negb (sforall is_digit digits_only) then
    (false, "Phone number can only contain digits and formatting characters (+, -, spaces, parentheses)")
  else (true, "Phone number is valid").

Fixpoint has_duplicates (l : list Z) : bool :=
  match l with
  | [] => false
  | x :: l' => existsb (Z.eqb x) l' || has_duplicates l'
  end.

Definition validate_seat_selection (seat_ids : list Z) : bool * string :=
  match seat_ids with
  | [] => (false, "At least one seat must be selected")
  | _ =>
      if has_duplicates seat_ids then
        (false, "Duplicate seat IDs are not allowed")
      else (true, "Seat selection is valid")
  end.

(** ** app/models: enumerations and rows *)

Module TripStatus.
Inductive t := SCHEDULED | BOARDING | IN_TRANSIT | COMPLETED | CANCELLED.
Definition value (x : t) : string :=
  match x with
  | SCHEDULED => "scheduled" | BOARDING => "boarding"
  | IN_TRANSIT => "in_transit" | COMPLETED => "completed"
  | CANCELLED => "cancelled"
  end.
Definition eqb (x y : t) : bool :=
  match x, y with
  | SCHEDULED, SCHEDULED | BOARDING, BOARDING | IN_TRANSIT, IN_TRANSIT
  | COMPLETED, COMPLETED | CANCELLED, CANCELLED => true
  | _, _ => false
  end.
End TripStatus.

Module SeatClass.
Inductive t := ECONOMY | BUSINESS | FIRST_CLASS.
Definition of_value (v : string) : option t :=
  if String.eqb v "economy" then Some ECONOMY
  else if String.eqb v "business" then Some BUSINESS
  else if String.eqb v "first_class" then Some FIRST_CLASS
  else None.
End SeatClass.

Module SeatStatus.
Inductive t := AVAILABLE | BOOKED | BLOCKED.
Definition value (x : t) : string :=
  match x with
  | AVAILABLE => "available" | BOOKED => "booked" | BLOCKED => "blocked"
  end.
Definition of_value (v : string) : option t :=
  if String.eqb v "available" then Some AVAILABLE
  else if String.eqb v "booked" then Some BOOKED
  else if String.eqb v "blocked" then Some BLOCKED
  else None.
Definition eqb (x y : t) : bool :=
  match x, y with
  | AVAILABLE, AVAILABLE | BOOKED, BOOKED | BLOCKED, BLOCKED => true
  | _, _ => false
  end.
End SeatStatus.

Module BookingStatus.
Inductive t := PENDING | CONFIRMED | CANCELLED | COMPLETED.
Definition value (x : t) : string :=
  match x with
  | PENDING => "pending" | CONFIRMED => "confirmed"
  | CANCELLED => "cancelled" | COMPLETED => "completed"
  end.
Definition of_value (v : string) : option t :=
  if String.eqb v "pending" then Some PENDING
  else if String.eqb v "confirmed" then Some CONFIRMED
  else if String.eqb v "cancelled" then Some CANCELLED
  else if String.eqb v "completed" then Some COMPLETED
  else None.
Definition eqb (x y : t) : bool :=
  match x, y with
  | PENDING, PENDING | CONFIRMED, CONFIRMED | CANCELLED, CANCELLED
  | COMPLETED, COMPLETED => true
  | _, _ => false
  end.
End BookingStatus.

Module PaymentStatus.
Inductive t := UNPAID | PAID | REFUNDED | FAILED.
Definition value (x : t) : string :=
  match x with
  | UNPAID => "unpaid" | PAID => "paid" | REFUNDED => "refunded"
  | FAILED => "failed"
  end.
Definition of_value (v : string) : option t :=
  if String.eqb v "unpaid" then Some UNPAID
  else if String.eqb v "paid" then Some PAID
  else if String.eqb v "refunded" then Some REFUNDED
  else if String.eqb v "failed" then Some FAILED
  else None.
Definition eqb (x y : t) : bool :=
  match x, y with
  | UNPAID, UNPAID | PAID, PAID | REFUNDED, REFUNDED | FAILED, FAILED => true
  | _, _ => false
  end.
End PaymentStatus.

Module UserRole.
Inductive t := CUSTOMER | ADMIN.
Definition eqb (x y : t) : bool :=
  match x, y with
  | CUSTOMER, CUSTOMER | ADMIN, ADMIN => true
  | _, _ => false
  end.
End UserRole.

(** A [Numeric(_, 2)] column: the decimal [c / 100] is held as the integer
    [c]. *)
Definition Decimal2 := Z.

(** A [DateTime] column, and the clock: an instant on the integer line. *)
Definition DateTime := Z.

Module User.
Record t := make
  { id : Z; role : UserRole.t; is_active : bool }.
End User.

Module Trip.
Record t := make
  { id : Z;
    departure_time : DateTime;
    base_fare : Decimal2;
    total_seats : Z;
    available_seats : Z;
    status : TripStatus.t }.
Definition with_available_seats (n : Z) (x : t) : t :=
  make (id x) (departure_time x) (base_fare x) (total_seats x) n (status x).
End Trip.

Module Seat.
Record t := make
  { id : Z;
    seat_number : string;
    seat_class : SeatClass.t;
    status : SeatStatus.t;
    price_multiplier : Decimal2;
    trip_id : Z;
    booking_id : option Z }.
Definition with_status (st : SeatStatus.t) (x : t) : t :=
  make (id x) (seat_number x) (seat_class x) st (price_multiplier x)
       (trip_id x) (booking_id x).
Definition with_booking_id (b : option Z) (x : t) : t :=
  make (id x) (seat_number x) (seat_class x) (status x) (price_multiplier x)
       (trip_id x) b.
Definition with_seat_class (c : SeatClass.t) (x : t) : t :=
  make (id x) (seat_number x) c (status x) (price_multiplier x)
       (trip_id x) (booking_id x).

(** [calculate_price]: [float(self.trip.base_fare * self.price_multiplier)],
    a product of two decimals with two places each. *)
Definition calculate_price (trip : Trip.t) (self : t) : float :=
  of_decimal (Trip.base_fare trip * price_multiplier self) 10000.
End Seat.

Module Booking.
Record t := make
  { id : Z;
    user_id : Z;
    trip_id : Z;
    promo_code_id : option Z;
    subtotal : float;
    discount_amount : float;
    total_amount : float;
    booking_status : BookingStatus.t;
    payment_status : PaymentStatus.t;
    num_seats : Z }.
Definition with_booking_status (st : BookingStatus.t) (x : t) : t :=
  make (id x) (user_id x) (trip_id x) (promo_code_id x) (subtotal x)
       (discount_amount x) (total_amount x) st (payment_status x)
       (num_seats x).
Definition with_payment_status (st : PaymentStatus.t) (x : t) : t :=
  make (id x) (user_id x) (trip_id x) (promo_code_id x) (subtotal x)
       (discount_amount x) (total_amount x) (booking_status x) st
       (num_seats x).
End Booking.

(** Truth value of an optional decimal or integer column: [None] and zero
    are false. *)
Definition truthy (x : option Z) : bool :=
  match x with
  | Some v => negb (v =? 0)
  | None => false
  end.

Module PromoCode.
Record t := make
  { id : Z;
    code : string;
    discount_percentage : Decimal2;
    max_discount_amount : option Decimal2;
    min_purchase_amount : option Decimal2;
    usage_limit : option Z;
    used_count : Z;
    usage_per_user : option Z;
    valid_from : DateTime;
    valid_until : DateTime;
    is_active : bool }.
Definition with_used_count (n : Z) (x : t) : t :=
  make (id x) (code x) (discount_percentage x) (max_discount_amount x)
       (min_purchase_amount x) (usage_limit x) n (usage_per_user x)
       (valid_from x) (valid_until x) (is_active x).

Definition is_valid (self : t) (now : DateTime) : bool * string :=
  if negb (is_active self) then (false, "Promo code is inactive")
  else if now <? valid_from self then (false, "Promo code is not yet valid")
  else if valid_until self <? now then (false, "Promo code has expired")
  else match usage_limit self with
       | Some limit =>
           if limit <=? used_count self
           then (false, "Promo code usage limit reached")
           else (true, "Promo code is valid")
       | None => (true, "Promo code is valid")
       end.

(** [check_user_eligibility]; [user_bookings] is the table of bookings the
    query counts over. *)
Definition check_user_eligibility (self : t) (user_bookings : list Booking.t)
    (user_id : Z) : bool * string :=
  match usage_per_user self with
  | None => (true, "User is eligible")
  | Some per_user =>
      let user_usage :=
        Z.of_nat (List.length (filter
          (fun b => (Booking.user_id b =? user_id) &&
                    match Booking.promo_code_id b with
                    | Some p => p =? id self
                    | None => false
                    end) user_bookings)) in
      if per_user <=? user_usage then
        (false, "You have already used this promo code " ++
                str_of_Z user_usage ++ " time(s)")
      else (true, "User is eligible")
  end.

Definition calculate_discount (self : t) (amount : float) : float :=
  if match min_purchase_amount self with
     | Some m => negb (m =? 0) && fltb amount (of_decimal m 100)
     | None => false
     end
  then S754_zero false
  else
    let discount :=
      fmul amount (fdiv (of_decimal (discount_percentage self) 100)
                        (of_Z 100)) in
    let discount :=
      match max_discount_amount self with
      | Some m => if negb (m =? 0) then fmin discount (of_decimal m 100)
                  else discount
      | None => discount
      end in
    round2 discount.
End PromoCode.

Module TransactionStatus.
(** Modelled from the spec: [app/models/payment.py] is not among the
    sources; the members are the ones [app/routes/payments.py] names. *)
Inductive t := INITIATED | PROCESSING | SUCCESS | FAILED | CANCELLED | REFUNDED.
(** Modelled from the spec: [status.value], the lower-case names that
    [tests/test_payments.py] reads back ('initiated', 'success', 'failed',
    'refunded'). *)
Definition value (s : t) : string :=
  match s with
  | INITIATED => "initiated"
  | PROCESSING => "processing"
  | SUCCESS => "success"
  | FAILED => "failed"
  | CANCELLED => "cancelled"
  | REFUNDED => "refunded"
  end.
End TransactionStatus.

Module Payment.
(** Modelled from the spec: [app/models/payment.py] is not among the
    sources; one attempt to settle a booking's total, with the columns
    [app/routes/payments.py] reads and writes. *)
Record t := make
  { id : Z;
    booking_id : Z;
    user_id : Z;
    amount : float;
    status : TransactionStatus.t }.
Definition with_status (st : TransactionStatus.t) (x : t) : t :=
  make (id x) (booking_id x) (user_id x) (amount x) st.
End Payment.

(** ** The database *)

Record DB := mkDB
  { users : list User.t;
    trips : list Trip.t;
    seats : list Seat.t;
    bookings : list Booking.t;
    promo_codes : list PromoCode.t;
    payments : list Payment.t;
    next_booking_id : Z;
    next_payment_id : Z }.

Definition with_trips (f : list Trip.t -> list Trip.t) (db : DB) : DB :=
  mkDB (users db) (f (trips db)) (seats db) (bookings db) (promo_codes db)
       (payments db) (next_booking_id db) (next_payment_id db).
Definition with_seats (f : list Seat.t -> list Seat.t) (db : DB) : DB :=
  mkDB (users db) (trips db) (f (seats db)) (bookings db) (promo_codes db)
       (payments db) (next_booking_id db) (next_payment_id db).
Definition with_bookings (f : list Booking.t -> list Booking.t) (db : DB) : DB :=
  mkDB (users db) (trips db) (seats db) (f (bookings db)) (promo_codes db)
       (payments db) (next_booking_id db) (next_payment_id db).
Definition with_promo_codes (f : list PromoCode.t -> list PromoCode.t)
    (db : DB) : DB :=
  mkDB (users db) (trips db) (seats db) (bookings db) (f (promo_codes db))
       (payments db) (next_booking_id db) (next_payment_id db).
Definition with_payments (f : list Payment.t -> list Payment.t) (db : DB) : DB :=
  mkDB (users db) (trips db) (seats db) (bookings db) (promo_codes db)
       (f (payments db)) (next_booking_id db) (next_payment_id db).
Definition with_next_booking_id (n : Z) (db : DB) : DB :=
  mkDB (users db) (trips db) (seats db) (bookings db) (promo_codes db)
       (payments db) n (next_payment_id db).
Definition with_next_payment_id (n : Z) (db : DB) : DB :=
  mkDB (users db) (trips db) (seats db) (bookings db) (promo_codes db)
       (payments db) (next_booking_id db) n.

(** [Model.query.get(id)] *)
Definition get_user (db : DB) (id : Z) : option User.t :=
  find (fun u => User.id u =? id) (users db).
Definition get_trip (db : DB) (id : Z) : option Trip.t :=
  find (fun t => Trip.id t =? id) (trips db).
Definition get_booking (db : DB) (id : Z) : option Booking.t :=
  find (fun b => Booking.id b =? id) (bookings db).
Definition get_promo_code (db : DB) (id : Z) : option PromoCode.t :=
  find (fun p => PromoCode.id p =? id) (promo_codes db).
Definition get_payment (db : DB) (id : Z) : option Payment.t :=
  find (fun p => Payment.id p =? id) (payments db).

(** [PromoCode.query.filter_by(code=...).first()] *)
Definition promo_by_code (db : DB) (c : string) : option PromoCode.t :=
  find (fun p => String.eqb (PromoCode.code p) c) (promo_codes db).

(** The foreign key [Seat.booking_id] pointing at booking [b]. *)
Definition held_by (b : Z) (s : Seat.t) : bool :=
  match Seat.booking_id s with
  | Some i => i =? b
  | None => false
  end.

(** The relationship [booking.seats]. *)
Definition booking_seats (db : DB) (b : Z) : list Seat.t :=
  filter (held_by b) (seats db).

(** Writing attributes of the rows a loop or a relationship reaches. *)
Definition update_where {A} (sel : A -> bool) (f : A -> A) (l : list A)
    : list A :=
  map (fun x => if sel x then f x else x) l.

(** [len(l)] *)
Definition zlength {A} (l : list A) : Z := Z.of_nat (List.length l).

(** ** Requests

    A handler runs in a session: it reads and writes the working copy and
    only [commit] makes the writes durable.  A [return] before the commit,
    or an exception (the handlers catch it, roll back and answer 500),
    leaves the committed database as it was. *)

(** What the properties read of an answer: the status code, the message
    (or the error) and the booking returned.  Other fields of the JSON body,
    such as [old_status] and [new_status] of the admin's status update, are
    not kept. *)
Inductive Response :=
| Reply (code : Z) (message : string) (booking : option Booking.t)
| Error (code : Z) (error : string).

Record Session := mkSession { committed : DB; working : DB }.

Definition M (A : Type) : Type := Session -> (Response + A) * Session.

Definition ret {A} (a : A) : M A := fun s => (inr a, s).
Definition bind {A B} (m : M A) (k : A -> M B) : M B :=
  fun s => match m s with
           | (inl r, s') => (inl r, s')
           | (inr a, s') => k a s'
           end.
(** [return jsonify(...), code] *)
Definition reply {A} (r : Response) : M A := fun s => (inl r, s).
Definition query : M DB := fun s => (inr (working s), s).
Definition write (f : DB -> DB) : M unit :=
  fun s => (inr tt, mkSession (committed s) (f (working s))).
Definition commit : M unit :=
  fun s => (inr tt, mkSession (working s) (working s)).

Notation "x <- m ;; k" := (bind m (fun x => k))
  (at level 61, m at next level, right associativity).
Notation "m ;; k" := (bind m (fun _ => k))
  (at level 61, right associativity).

(** [if not c: return jsonify({'error': e}), code] *)
Definition require (c : bool) (code : Z) (e : string) : M unit :=
  if c then ret tt else reply (Error code e).

(** [x = ...; if not x: return jsonify({'error': e}), code] *)
Definition found {A} (x : option A) (code : Z) (e : string) : M A :=
  match x with
  | Some a => ret a
  | None => reply (Error code e)
  end.

(** Serving a request on the committed database [db]. *)
Definition serve (h : M Response) (db : DB) : Response * DB :=
  match h (mkSession db db) with
  | (inl r, s) => (r, committed s)
  | (inr r, s) => (r, committed s)
  end.

(** *** bookings.py *)

Module Bookings.

Record BookingData := mkBookingData
  { trip_id : Z;
    seat_ids : list Z;
    passenger_name : string;
    passenger_email : string;
    passenger_phone : string;
    promo_code : string }.

(** [validate_required_fields] on the five required keys: a key is missing
    when its value is false (zero, the empty list, the empty string). *)
Definition validate_required_fields (data : BookingData) : bool * string :=
  let missing_fields :=
    ((if trip_id data =? 0 then ["trip_id"] else []) ++
     (match seat_ids data with [] => ["seat_ids"] | _ => [] end) ++
     (if is_empty (passenger_name data) then ["passenger_name"] else []) ++
     (if is_empty (passenger_email data) then ["passenger_email"] else []) ++
     (if is_empty (passenger_phone data) then ["passenger_phone"] else []))%list
  in
  match missing_fields with
  | [] => (true, "All required fields present")
  | _ => (false, "Missing required fields: " ++ join ", " missing_fields)
  end.

Definition is_available (s : Seat.t) : bool :=
  SeatStatus.eqb (Seat.status s) SeatStatus.AVAILABLE.

(** The rows [Seat.query.filter(Seat.id.in_(seat_ids),
    Seat.trip_id == trip_id)] selects. *)
Definition selected (seat_ids : list Z) (trip_id : Z) (s : Seat.t) : bool :=
  existsb (Z.eqb (Seat.id s)) seat_ids && (Seat.trip_id s =? trip_id).

Definition create_booking (now : DateTime) (current_user_id : Z)
    (data : BookingData) : M Response :=
  db <- query ;;
  require (match get_user db current_user_id with
           | Some user => User.is_active user
           | None => false
           end) 403 "User account not found or inactive" ;;
  require (fst (validate_required_fields data))
          400 (snd (validate_required_fields data)) ;;
  let trip_id := trip_id data in
  let seat_ids := seat_ids data in
  let passenger_name := strip (passenger_name data) in
  let passenger_email := strip (lower (passenger_email data)) in
  let passenger_phone := strip (passenger_phone data) in
  let promo_code_str := upper (strip (promo_code data)) in
  require (fst (validate_seat_selection seat_ids))
          400 (snd (validate_seat_selection seat_ids)) ;;
  require (validate_email passenger_email)
          400 "Invalid passenger email format" ;;
  require (fst (validate_phone_number passenger_phone))
          400 (snd (validate_phone_number passenger_phone)) ;;
  require (negb ((len passenger_name <? 2) || (200 <? len passenger_name)))
          400 "Passenger name must be between 2 and 200 characters" ;;
  trip <- found (get_trip db trip_id) 404 "Trip not found" ;;
  require (TripStatus.eqb (Trip.status trip) TripStatus.SCHEDULED)
          400 ("Trip is not available for booking. Status: " ++
               TripStatus.value (Trip.status trip)) ;;
  require (negb (Trip.departure_time trip <? now))
          400 "Cannot book trips in the past" ;;
  let seats_ := filter (selected seat_ids trip_id) (seats db) in
  require (zlength seats_ =? zlength seat_ids)
          404 "One or more seats not found or invalid" ;;
  let unavailable_seats := filter (fun s => negb (is_available s)) seats_ in
  require (match unavailable_seats with [] => true | _ => false end)
          409 "Some seats are not available" ;;
  require (negb (Trip.available_seats trip <? zlength seat_ids))
          409 "Not enough seats available on this trip" ;;
  let subtotal := round2 (fsum (map (Seat.calculate_price trip) seats_)) in
  priced <-
    (if is_empty promo_code_str then ret (S754_zero false, None)
     else
       promo <- found (promo_by_code db promo_code_str)
                      400 "Invalid promo code" ;;
       require (fst (PromoCode.is_valid promo now))
               400 (snd (PromoCode.is_valid promo now)) ;;
       require (fst (PromoCode.check_user_eligibility promo (bookings db)
                       current_user_id))
               400 (snd (PromoCode.check_user_eligibility promo (bookings db)
                       current_user_id)) ;;
       require (negb (match PromoCode.min_purchase_amount promo with
                      | Some m => negb (m =? 0) && lt_decimal subtotal m
                      | None => false
                      end))
               400 ("Minimum purchase amount of " ++
                    repr_decimal2 (match PromoCode.min_purchase_amount promo
                                   with Some m => m | None => 0 end) ++
                    " required for this promo code") ;;
       ret (PromoCode.calculate_discount promo subtotal, Some promo)) ;;
  let discount_amount := fst priced in
  let promo_code := snd priced in
  let total_amount := round2 (fsub subtotal discount_amount) in
  let booking :=
    Booking.make (next_booking_id db) current_user_id trip_id
      (match promo_code with Some p => Some (PromoCode.id p) | None => None end)
      subtotal discount_amount total_amount
      BookingStatus.CONFIRMED PaymentStatus.UNPAID (zlength seat_ids) in
  write (fun w => with_next_booking_id (next_booking_id w + 1)
                    (with_bookings (fun l => (l ++ [booking])%list) w)) ;;
  write (with_seats (update_where (selected seat_ids trip_id)
           (fun seat => Seat.with_booking_id (Some (Booking.id booking))
                          (Seat.with_status SeatStatus.BOOKED seat)))) ;;
  write (with_trips (update_where (fun t => Trip.id t =? Trip.id trip)
           (fun t => Trip.with_available_seats
                       (Trip.available_seats t - zlength seat_ids) t))) ;;
  match promo_code with
  | Some p =>
      write (with_promo_codes (update_where
               (fun q => PromoCode.id q =? PromoCode.id p)
               (fun q => PromoCode.with_used_count
                           (PromoCode.used_count q + 1) q)))
  | None => ret tt
  end ;;
  commit ;;
  ret (Reply 201 "Booking created successfully" (Some booking)).

Definition is_cancelled (b : Booking.t) : bool :=
  BookingStatus.eqb (Booking.booking_status b) BookingStatus.CANCELLED.

(** [seat.status = SeatStatus.AVAILABLE; seat.booking_id = None] *)
Definition release (seat : Seat.t) : Seat.t :=
  Seat.with_booking_id None (Seat.with_status SeatStatus.AVAILABLE seat).

Definition cancel_booking (now : DateTime) (current_user_id booking_id : Z)
    : M Response :=
  db <- query ;;
  booking <- found (get_booking db booking_id) 404 "Booking not found" ;;
  require (Booking.user_id booking =? current_user_id)
          403 "Unauthorized access to this booking" ;;
  require (negb (is_cancelled booking)) 400 "Booking is already cancelled" ;;
  require (negb (BookingStatus.eqb (Booking.booking_status booking)
                   BookingStatus.COMPLETED))
          400 "Cannot cancel a completed booking" ;;
  (* [booking.trip] is [None] when the row is gone: the attribute access
     raises and the handler answers 500 *)
  trip <- found (get_trip db (Booking.trip_id booking))
                500 "Failed to cancel booking" ;;
  require (negb (Trip.departure_time trip <? now))
          400 "Cannot cancel booking for a trip that has already departed" ;;
  write (with_bookings (update_where
           (fun b => Booking.id b =? Booking.id booking)
           (Booking.with_booking_status BookingStatus.CANCELLED))) ;;
  write (with_seats (update_where (held_by (Booking.id booking)) release)) ;;
  write (with_trips (update_where (fun t => Trip.id t =? Trip.id trip)
           (fun t => Trip.with_available_seats
                       (Trip.available_seats t + Booking.num_seats booking)
                       t))) ;;
  (if PaymentStatus.eqb (Booking.payment_status booking) PaymentStatus.PAID
   then write (with_bookings (update_where
                 (fun b => Booking.id b =? Booking.id booking)
                 (Booking.with_payment_status PaymentStatus.REFUNDED)))
   else ret tt) ;;
  (if truthy (Booking.promo_code_id booking) then
     match Booking.promo_code_id booking with
     | Some pid =>
         match get_promo_code db pid with
         | Some promo =>
             write (with_promo_codes (update_where
                      (fun q => PromoCode.id q =? PromoCode.id promo)
                      (fun q => PromoCode.with_used_count
                                  (Z.max 0 (PromoCode.used_count q - 1)) q)))
         | None => ret tt
         end
     | None => ret tt
     end
   else ret tt) ;;
  commit ;;
  db' <- query ;;
  ret (Reply 200 "Booking cancelled successfully" (get_booking db' booking_id)).

(** A text between double quotes. *)
Definition quoted (s : string) : string :=
  String (ascii_of_nat 34) s ++ String (ascii_of_nat 34) "".

(** [update_payment_status] for a body that is not empty (an empty body is
    answered 400 "No data provided"); [payment_status] is
    [data.get('payment_status', '')]. *)
Definition update_payment_status (current_user_id booking_id : Z)
    (payment_status : string) : M Response :=
  db <- query ;;
  let payment_status_str := lower payment_status in
  require (negb (is_empty payment_status_str))
          400 "payment_status is required" ;;
  require (String.eqb payment_status_str "paid" ||
           String.eqb payment_status_str "failed")
          400 ("payment_status must be either " ++ quoted "paid" ++ " or " ++
               quoted "failed") ;;
  booking <- found (get_booking db booking_id) 404 "Booking not found" ;;
  require (Booking.user_id booking =? current_user_id)
          403 "Unauthorized access to this booking" ;;
  require (negb (is_cancelled booking))
          400 "Cannot update payment for a cancelled booking" ;;
  write (with_bookings (update_where
           (fun b => Booking.id b =? Booking.id booking)
           (Booking.with_payment_status
              (if String.eqb payment_status_str "paid"
               then PaymentStatus.PAID else PaymentStatus.FAILED)))) ;;
  commit ;;
  db' <- query ;;
  ret (Reply 200 "Payment status updated successfully"
             (get_booking db' booking_id)).

End Bookings.

(** *** app/utils/decorators.py *)

Definition admin_required (current_user_id : Z) (fn : M Response)
    : M Response :=
  db <- query ;;
  user <- found (get_user db current_user_id) 404 "User not found" ;;
  require (User.is_active user) 403 "User account is inactive" ;;
  require (UserRole.eqb (User.role user) UserRole.ADMIN)
          403 "Insufficient permissions" ;;
  fn.

(** *** app/routes/admin_bookings.py

    The handlers as the [admin_required] gate calls them; [data] is the
    value under the request body's key, [None] when the body or the key is
    missing. *)

Module AdminBookings.

Import Bookings.

(** [seat.status = SeatStatus.BOOKED; seat.booking_id = booking.id] *)
Definition rebook (b : Z) (seat : Seat.t) : Seat.t :=
  Seat.with_booking_id (Some b) (Seat.with_status SeatStatus.BOOKED seat).

Definition update_booking_status (booking_id : Z) (data : option string)
    : M Response :=
  db <- query ;;
  booking <- found (get_booking db booking_id) 404 "Booking not found" ;;
  raw <- found data 400 "booking_status is required" ;;
  new_status <- found (BookingStatus.of_value (lower raw))
                      400 "Invalid booking status" ;;
  let old_status := Booking.booking_status booking in
  (if BookingStatus.eqb new_status BookingStatus.CANCELLED &&
      negb (BookingStatus.eqb old_status BookingStatus.CANCELLED)
   then
     write (with_seats (update_where (held_by (Booking.id booking)) release)) ;;
     trip <- found (get_trip db (Booking.trip_id booking))
                   500 "Failed to update booking status" ;;
     write (with_trips (update_where (fun t => Trip.id t =? Trip.id trip)
              (fun t => Trip.with_available_seats
                          (Trip.available_seats t + Booking.num_seats booking)
                          t))) ;;
     (if PaymentStatus.eqb (Booking.payment_status booking) PaymentStatus.PAID
      then write (with_bookings (update_where
                    (fun b => Booking.id b =? Booking.id booking)
                    (Booking.with_payment_status PaymentStatus.REFUNDED)))
      else ret tt)
   else if BookingStatus.eqb old_status BookingStatus.CANCELLED &&
           negb (BookingStatus.eqb new_status BookingStatus.CANCELLED)
   then
     let seat_ids := map Seat.id (booking_seats db (Booking.id booking)) in
     let available_seats :=
       zlength (filter (fun s => existsb (Z.eqb (Seat.id s)) seat_ids &&
                                 is_available s) (seats db)) in
     require (available_seats =? zlength seat_ids)
             409 "Some seats are no longer available" ;;
     write (with_seats (update_where (held_by (Booking.id booking))
              (rebook (Booking.id booking)))) ;;
     trip <- found (get_trip db (Booking.trip_id booking))
                   500 "Failed to update booking status" ;;
     write (with_trips (update_where (fun t => Trip.id t =? Trip.id trip)
              (fun t => Trip.with_available_seats
                          (Trip.available_seats t - Booking.num_seats booking)
                          t)))
   else ret tt) ;;
  write (with_bookings (update_where
           (fun b => Booking.id b =? Booking.id booking)
           (Booking.with_booking_status new_status))) ;;
  commit ;;
  db' <- query ;;
  ret (Reply 200 "Booking status updated successfully"
             (get_booking db' booking_id)).

Definition update_payment_status (booking_id : Z) (data : option string)
    : M Response :=
  db <- query ;;
  booking <- found (get_booking db booking_id) 404 "Booking not found" ;;
  raw <- found data 400 "payment_status is required" ;;
  new_status <- found (PaymentStatus.of_value (lower raw))
                      400 "Invalid payment status" ;;
  write (with_bookings (update_where
           (fun b => Booking.id b =? Booking.id booking)
           (Booking.with_payment_status new_status))) ;;
  commit ;;
  db' <- query ;;
  ret (Reply 200 "Payment status updated successfully"
             (get_booking db' booking_id)).

Definition delete_booking (booking_id : Z) : M Response :=
  db <- query ;;
  booking <- found (get_booking db booking_id) 404 "Booking not found" ;;
  (if negb (is_cancelled booking) then
     write (with_seats (update_where (held_by (Booking.id booking)) release)) ;;
     trip <- found (get_trip db (Booking.trip_id booking))
                   500 "Failed to delete booking" ;;
     write (with_trips (update_where (fun t => Trip.id t =? Trip.id trip)
              (fun t => Trip.with_available_seats
                          (Trip.available_seats t + Booking.num_seats booking)
                          t)))
   else ret tt) ;;
  write (with_bookings
           (filter (fun b => negb (Booking.id b =? Booking.id booking)))) ;;
  commit ;;
  ret (Reply 200 "Booking deleted successfully" None).

End AdminBookings.

(** *** admin_trips.py *)

Module AdminTrips.

(** The body of a seat update with its [seat_class] and [status] keys
    ([None]: key absent). *)
Record SeatData := mkSeatData
  { seat_class : option string; status : option string }.

Definition update_seat (trip_id seat_id : Z) (data : SeatData) : M Response :=
  db <- query ;;
  seat <- found (find (fun s => (Seat.id s =? seat_id) &&
                                (Seat.trip_id s =? trip_id)) (seats db))
                404 "Seat not found" ;;
  let this := fun s => (Seat.id s =? seat_id) && (Seat.trip_id s =? trip_id) in
  match seat_class data with
  | Some v =>
      c <- found (SeatClass.of_value (lower v)) 400 "Invalid seat class" ;;
      write (with_seats (update_where this (Seat.with_seat_class c)))
  | None => ret tt
  end ;;
  match status data with
  | Some v =>
      new_status <- found (SeatStatus.of_value (lower v))
                          400 "Invalid seat status" ;;
      require (negb (SeatStatus.eqb (Seat.status seat) SeatStatus.BOOKED &&
                     truthy (Seat.booking_id seat)))
              400 "Cannot change status of booked seat. Cancel booking first." ;;
      write (with_seats (update_where this (Seat.with_status new_status)))
  | None => ret tt
  end ;;
  require (match seat_class data, status data with
           | None, None => false
           | _, _ => true
           end) 400 "No valid fields provided for update" ;;
  commit ;;
  ret (Reply 200 "Seat updated successfully" None).

End AdminTrips.

(** *** app/routes/payments.py: the bridge to the mocked gateway *)

Module Payments.

Import Bookings.

(** [initiate_payment] for a body whose [payment_method] and
    [payment_details] are well formed. *)
Definition initiate_payment (current_user_id booking_id : Z) : M Response :=
  db <- query ;;
  booking <- found (get_booking db booking_id) 404 "Booking not found" ;;
  require (Booking.user_id booking =? current_user_id)
          403 "Unauthorized access to this booking" ;;
  require (negb (PaymentStatus.eqb (Booking.payment_status booking)
                   PaymentStatus.PAID))
          400 "Booking is already paid" ;;
  require (negb (is_cancelled booking))
          400 "Cannot pay for a cancelled booking" ;;
  let payment :=
    Payment.make (next_payment_id db) booking_id current_user_id
                 (Booking.total_amount booking) TransactionStatus.INITIATED in
  write (fun w => with_next_payment_id (next_payment_id w + 1)
                    (with_payments (fun l => (l ++ [payment])%list) w)) ;;
  commit ;;
  ret (Reply 201 "Payment initiated successfully (DEMO)" (Some booking)).

(** [process_payment]; [success] is what [simulate_payment_processing]
    answers. *)
Definition process_payment (current_user_id payment_id : Z) (success : bool)
    : M Response :=
  db <- query ;;
  payment <- found (get_payment db payment_id) 404 "Payment not found" ;;
  require (Payment.user_id payment =? current_user_id)
          403 "Unauthorized access to this payment" ;;
  require (match Payment.status payment with
           | TransactionStatus.SUCCESS | TransactionStatus.FAILED
           | TransactionStatus.CANCELLED => false
           | _ => true
           end)
          400 ("Payment already " ++
               TransactionStatus.value (Payment.status payment)) ;;
  let this := fun p => Payment.id p =? Payment.id payment in
  write (with_payments (update_where this
           (Payment.with_status TransactionStatus.PROCESSING))) ;;
  commit ;;
  if success then
    write (with_payments (update_where this
             (Payment.with_status TransactionStatus.SUCCESS))) ;;
    booking <- found (get_booking db (Payment.booking_id payment))
                     500 "Failed to process payment" ;;
    write (with_bookings (update_where
             (fun b => Booking.id b =? Booking.id booking)
             (Booking.with_payment_status PaymentStatus.PAID))) ;;
    commit ;;
    db' <- query ;;
    ret (Reply 200 "✅ Payment processed successfully (DEMO)"
               (get_booking db' (Payment.booking_id payment)))
  else
    write (with_payments (update_where this
             (Payment.with_status TransactionStatus.FAILED))) ;;
    commit ;;
    ret (Reply 400 "❌ Payment failed (DEMO)" None).

End Payments.

(** ** Further helpers and handlers

    The functions around the booking lifecycle that read the same tables:
    the user name check of [app/utils/validators.py], the masking helpers
    and the refund of [app/routes/payments.py], the fare quote and the promo
    listing of [app/routes/trips.py], the promo switch and delete of
    [app/routes/admin_promos.py] and the counts of the booking report of
    [app/routes/admin_bookings.py]. *)

(** *** app/utils/validators.py: [validate_username] *)

Definition is_word (c : ascii) : bool :=
  is_alpha c || is_digit c || Ascii.eqb c "_".

(** What may follow the first character in a match of [^[a-zA-Z0-9_]+$]:
    word characters up to the end of the string, where [$] also matches just
    before a newline that ends the string. *)
Fixpoint word_line_tail (s : string) : bool :=
  match s with
  | EmptyString => true
  | String c s' =>
      (is_word c && word_line_tail s') || (Ascii.eqb c "010" && is_empty s')
  end.

(** [re.match(r'^[a-zA-Z0-9_]+$', s) is not None] *)
Definition match_word_line (s : string) : bool :=
  match s with
  | EmptyString => false
  | String c s' => is_word c && word_line_tail s'
  end.

Definition validate_username (username : string) : bool * string :=
  if (len username <? 3) || (80 <? len username) then
    (false, "Username must be between 3 and 80 characters")
  else if negb (match_word_line username) then
    (false, "Username can only contain letters, numbers, and underscores")
  else (true, "Username is valid").

(** *** app/routes/payments.py: masking and refund *)

Module PaymentRoutes.

Import Bookings.

(** [s.replace(' ', '')] *)
Definition remove_spaces (s : string) : string :=
  sfilter (fun c => negb (Ascii.eqb c " ")) s.

(** [s[-4:]]: the last four characters, the whole string when it is
    shorter. *)
Definition last4 (s : string) : string :=
  substring (String.length s - 4) 4 s.

(** [mask_card_number] on a string; [None] is Python's [None]. *)
Definition mask_card_number (card_number : string) : option string :=
  if is_empty card_number then None
  else
    let card_str := remove_spaces card_number in
    if len card_str <? 4 then Some "****"
    else Some ("****-****-****-" ++ last4 card_str).

(** [mask_account_number] on a string. *)
Definition mask_account_number (account_number : string) : option string :=
  if is_empty account_number then None
  else
    let acc_str := remove_spaces account_number in
    if len acc_str <? 4 then Some "****"
    else Some ("****" ++ last4 acc_str).

(** [request_refund]; [refund_amount] is the number under the body's key
    [refund_amount], [None] when the body or the key is missing. *)
Definition request_refund (current_user_id payment_id : Z)
    (refund_amount : option float) : M Response :=
  db <- query ;;
  payment <- found (get_payment db payment_id) 404 "Payment not found" ;;
  require (Payment.user_id payment =? current_user_id)
          403 "Unauthorized access to this payment" ;;
  require (match Payment.status payment with
           | TransactionStatus.SUCCESS => true
           | _ => false
           end) 400 "Only successful payments can be refunded" ;;
  require (match Payment.status payment with
           | TransactionStatus.REFUNDED => false
           | _ => true
           end) 400 "Payment already refunded" ;;
  let refund_amount :=
    match refund_amount with
    | Some a => a
    | None => Payment.amount payment
    end in
  require (negb (fleb refund_amount (S754_zero false) ||
                 fltb (Payment.amount payment) refund_amount))
          400 "Invalid refund amount" ;;
  write (with_payments (update_where
           (fun p => Payment.id p =? Payment.id payment)
           (Payment.with_status TransactionStatus.REFUNDED))) ;;
  (* [payment.booking] is [None] when the row is gone: the attribute
     assignment raises and the handler answers 500 *)
  booking <- found (get_booking db (Payment.booking_id payment))
                   500 "Failed to process refund" ;;
  write (with_bookings (update_where
           (fun b => Booking.id b =? Booking.id booking)
           (Booking.with_payment_status PaymentStatus.REFUNDED))) ;;
  commit ;;
  db' <- query ;;
  ret (Reply 200 "✅ Refund processed successfully (DEMO)"
             (get_booking db' (Payment.booking_id payment))).

End PaymentRoutes.

(** *** app/routes/trips.py: the fare quote and the promo listing *)

Module Trips.

Import Bookings.

(** The body of a fare request: [trip_id] ([0] when missing), [seat_ids]
    (empty when missing) and [promo_code], a string (empty when missing).  A
    body whose [promo_code] is [null] is not of this form: [calculate_fare]
    answers 500 on it. *)
Record FareData := mkFareData
  { trip_id : Z; seat_ids : list Z; promo_code : string }.

(** What the quote answers: the amounts and the promo code applied, or an
    error. *)
Inductive FareResponse :=
| Fare (num_seats : Z) (subtotal discount_amount total_amount : float)
       (promo : option PromoCode.t)
| FareError (code : Z) (error : string).

(** [calculate_fare] for a body that is not empty. *)
Definition calculate_fare (db : DB) (now : DateTime) (data : FareData)
    : FareResponse :=
  let promo_code_str := upper (strip (promo_code data)) in
  if trip_id data =? 0 then FareError 400 "trip_id is required"
  else
    match seat_ids data with
    | [] => FareError 400 "seat_ids must be a non-empty list"
    | _ =>
        match get_trip db (trip_id data) with
        | None => FareError 404 "Trip not found"
        | Some trip =>
            let seats_ :=
              filter (selected (seat_ids data) (trip_id data)) (seats db) in
            if negb (zlength seats_ =? zlength (seat_ids data)) then
              FareError 404 "One or more seats not found or invalid"
            else
              match filter (fun s => negb (is_available s)) seats_ with
              | _ :: _ => FareError 409 "Some seats are not available"
              | [] =>
                  let subtotal :=
                    round2 (fsum (map (Seat.calculate_price trip) seats_)) in
                  if is_empty promo_code_str then
                    Fare (zlength seats_) subtotal (S754_zero false)
                         (round2 (fsub subtotal (S754_zero false))) None
                  else
                    match promo_by_code db promo_code_str with
                    | None => FareError 400 "Invalid promo code"
                    | Some promo =>
                        if negb (fst (PromoCode.is_valid promo now)) then
                          FareError 400 (snd (PromoCode.is_valid promo now))
                        else if
                          match PromoCode.min_purchase_amount promo with
                          | Some m => negb (m =? 0) && lt_decimal subtotal m
                          | None => false
                          end
                        then
                          FareError 400
                            ("Minimum purchase amount of " ++
                             repr_decimal2
                               (match PromoCode.min_purchase_amount promo
                                with Some m => m | None => 0 end) ++
                             " required for this promo code")
                        else
                          let discount_amount :=
                            PromoCode.calculate_discount promo subtotal in
                          Fare (zlength seats_) subtotal discount_amount
                               (round2 (fsub subtotal discount_amount))
                               (Some promo)
                    end
              end
        end
    end.

(** The rows [get_active_promo_codes] lists: the query on activity and
    dates, then the loop that drops the codes whose uses are exhausted. *)
Definition get_active_promo_codes (db : DB) (now : DateTime)
    : list PromoCode.t :=
  let promo_codes :=
    filter (fun p => PromoCode.is_active p &&
                     (PromoCode.valid_from p <=? now) &&
                     (now <=? PromoCode.valid_until p)) (promo_codes db) in
  filter (fun code => match PromoCode.usage_limit code with
                      | None => true
                      | Some limit => PromoCode.used_count code <? limit
                      end) promo_codes.

(** What the seat listing answers. *)
Inductive SeatsResponse :=
| Seats (available_seats : list Seat.t)
| SeatsError (code : Z) (error : string).

Definition same_class (a b : SeatClass.t) : bool :=
  match a, b with
  | SeatClass.ECONOMY, SeatClass.ECONOMY
  | SeatClass.BUSINESS, SeatClass.BUSINESS
  | SeatClass.FIRST_CLASS, SeatClass.FIRST_CLASS => true
  | _, _ => false
  end.

(** [get_available_seats]; [seat_class] is the query parameter, empty when
    it is missing. *)
Definition get_available_seats (db : DB) (trip_id : Z) (seat_class : string)
    : SeatsResponse :=
  match get_trip db trip_id with
  | None => SeatsError 404 "Trip not found"
  | Some trip =>
      let query :=
        filter (fun s => (Seat.trip_id s =? trip_id) && is_available s)
               (seats db) in
      let seat_class := lower seat_class in
      if is_empty seat_class then Seats query
      else
        match SeatClass.of_value seat_class with
        | Some seat_class_enum =>
            Seats (filter (fun s => same_class (Seat.seat_class s)
                                               seat_class_enum) query)
        | None => SeatsError 400 "Invalid seat class"
        end
  end.

End Trips.

(** *** app/routes/admin_promos.py: the switch and the delete *)

Module AdminPromos.

Definition with_is_active (a : bool) (x : PromoCode.t) : PromoCode.t :=
  PromoCode.make (PromoCode.id x) (PromoCode.code x)
    (PromoCode.discount_percentage x) (PromoCode.max_discount_amount x)
    (PromoCode.min_purchase_amount x) (PromoCode.usage_limit x)
    (PromoCode.used_count x) (PromoCode.usage_per_user x)
    (PromoCode.valid_from x) (PromoCode.valid_until x) a.

Definition toggle_promo_code (promo_id : Z) : M Response :=
  db <- query ;;
  promo_code <- found (get_promo_code db promo_id)
                      404 "Promo code not found" ;;
  let is_active := negb (PromoCode.is_active promo_code) in
  write (with_promo_codes (update_where
           (fun q => PromoCode.id q =? PromoCode.id promo_code)
           (with_is_active is_active))) ;;
  commit ;;
  ret (Reply 200 ("Promo code " ++
                  (if is_active then "activated" else "deactivated") ++
                  " successfully") None).

(** The bookings [Booking.query.filter_by(promo_code_id=promo_id)]
    counts. *)
Definition uses_promo (promo_id : Z) (b : Booking.t) : bool :=
  match Booking.promo_code_id b with
  | Some p => p =? promo_id
  | None => false
  end.

Definition delete_promo_code (promo_id : Z) : M Response :=
  db <- query ;;
  promo_code <- found (get_promo_code db promo_id)
                      404 "Promo code not found" ;;
  let usage_count := zlength (filter (uses_promo promo_id) (bookings db)) in
  require (negb (0 <? usage_count))
          409 ("Cannot delete promo code that has been used (" ++
               str_of_Z usage_count ++
               " bookings). Consider deactivating instead.") ;;
  write (with_promo_codes
           (filter (fun q => negb (PromoCode.id q =? PromoCode.id promo_code)))) ;;
  commit ;;
  ret (Reply 200 "Promo code deleted successfully" None).

Definition with_usage_limit (l : option Z) (x : PromoCode.t) : PromoCode.t :=
  PromoCode.make (PromoCode.id x) (PromoCode.code x)
    (PromoCode.discount_percentage x) (PromoCode.max_discount_amount x)
    (PromoCode.min_purchase_amount x) l
    (PromoCode.used_count x) (PromoCode.usage_per_user x)
    (PromoCode.valid_from x) (PromoCode.valid_until x)
    (PromoCode.is_active x).

Definition with_usage_per_user (k : option Z) (x : PromoCode.t)
    : PromoCode.t :=
  PromoCode.make (PromoCode.id x) (PromoCode.code x)
    (PromoCode.discount_percentage x) (PromoCode.max_discount_amount x)
    (PromoCode.min_purchase_amount x) (PromoCode.usage_limit x)
    (PromoCode.used_count x) k
    (PromoCode.valid_from x) (PromoCode.valid_until x)
    (PromoCode.is_active x).

(** The body of a promo update that holds no other keys than
    [usage_limit], [usage_per_user] and [is_active]: [None] when the key is
    absent, [Some None] when its value is [null]. *)
Record PromoUpdate := mkPromoUpdate
  { usage_limit : option (option Z);
    usage_per_user : option (option Z);
    is_active : option bool }.

(** [update_promo_code] on such a body. *)
Definition update_promo_code (promo_id : Z) (data : PromoUpdate)
    : M Response :=
  db <- query ;;
  promo_code <- found (get_promo_code db promo_id)
                      404 "Promo code not found" ;;
  require (match usage_limit data, usage_per_user data, is_active data with
           | None, None, None => false
           | _, _, _ => true
           end) 400 "No data provided" ;;
  let this := fun q => PromoCode.id q =? PromoCode.id promo_code in
  match usage_limit data with
  | Some None => write (with_promo_codes (update_where this
                          (with_usage_limit None)))
  | Some (Some limit) =>
      require (negb (limit <=? 0)) 400 "Usage limit must be positive" ;;
      require (negb (limit <? PromoCode.used_count promo_code))
              400 ("Usage limit cannot be less than current usage (" ++
                   str_of_Z (PromoCode.used_count promo_code) ++ ")") ;;
      write (with_promo_codes (update_where this
               (with_usage_limit (Some limit))))
  | None => ret tt
  end ;;
  match usage_per_user data with
  | Some None => write (with_promo_codes (update_where this
                          (with_usage_per_user None)))
  | Some (Some per_user) =>
      require (negb (per_user <=? 0)) 400 "Usage per user must be positive" ;;
      write (with_promo_codes (update_where this
               (with_usage_per_user (Some per_user))))
  | None => ret tt
  end ;;
  match is_active data with
  | Some a => write (with_promo_codes (update_where this (with_is_active a)))
  | None => ret tt
  end ;;
  commit ;;
  ret (Reply 200 "Promo code updated successfully" None).

End AdminPromos.

(** *** app/routes/admin_bookings.py: the counts of the report *)

Module BookingReport.

(** [for status in BookingStatus], in declaration order. *)
Definition booking_statuses : list BookingStatus.t :=
  [BookingStatus.PENDING; BookingStatus.CONFIRMED; BookingStatus.CANCELLED;
   BookingStatus.COMPLETED].

Definition payment_statuses : list PaymentStatus.t :=
  [PaymentStatus.UNPAID; PaymentStatus.PAID; PaymentStatus.REFUNDED;
   PaymentStatus.FAILED].

(** [query.count()]; [query] is the bookings the date filters leave. *)
Definition total_bookings (query : list Booking.t) : Z := zlength query.

(** [bookings_by_status]: one count per status value. *)
Definition bookings_by_status (query : list Booking.t) : list (string * Z) :=
  map (fun status =>
         (BookingStatus.value status,
          zlength (filter (fun b => BookingStatus.eqb
                                      (Booking.booking_status b) status)
                          query)))
      booking_statuses.

(** [bookings_by_payment]: one count per payment status value. *)
Definition bookings_by_payment (query : list Booking.t) : list (string * Z) :=
  map (fun status =>
         (PaymentStatus.value status,
          zlength (filter (fun b => PaymentStatus.eqb
                                      (Booking.payment_status b) status)
                          query)))
      payment_statuses.

(** [bookings_with_promo]: the rows whose [promo_code_id] is not null. *)
Definition bookings_with_promo (query : list Booking.t) : Z :=
  zlength (filter (fun b => match Booking.promo_code_id b with
                            | Some _ => true
                            | None => false
                            end) query).

End BookingReport.

(** ** Properties of the committed database *)

Definition is_booked (s : Seat.t) : bool :=
  SeatStatus.eqb (Seat.status s) SeatStatus.BOOKED.

(** The number of seats of trip [trip] whose state is [booked]. *)
Definition booked_count (db : DB) (trip : Z) : Z :=
  zlength (filter (fun s => (Seat.trip_id s =? trip) && is_booked s)
                  (seats db)).

(** The counter of a trip agrees with its seats:
    [available_seats = total_seats - booked] and
    [0 <= available_seats <= total_seats]. *)
Definition counter_ok (db : DB) (t : Trip.t) : bool :=
  (Trip.available_seats t =? Trip.total_seats t - booked_count db (Trip.id t))
  && (0 <=? Trip.available_seats t)
  && (Trip.available_seats t <=? Trip.total_seats t).

Definition counters_ok (db : DB) : bool := forallb (counter_ok db) (trips db).

(** *** What a create request is validated against *)

Import Bookings.

Definition request_well_formed (db : DB) (current_user_id : Z)
    (data : BookingData) : bool :=
  match get_user db current_user_id with
  | Some user => User.is_active user
  | None => false
  end &&
  fst (validate_required_fields data) &&
  fst (validate_seat_selection (seat_ids data)) &&
  validate_email (strip (lower (passenger_email data))) &&
  fst (validate_phone_number (strip (passenger_phone data))) &&
  negb ((len (strip (passenger_name data)) <? 2) ||
        (200 <? len (strip (passenger_name data)))).

(** The trip is scheduled and has not departed. *)
Definition trip_bookable (trip : Trip.t) (now : DateTime) : bool :=
  TripStatus.eqb (Trip.status trip) TripStatus.SCHEDULED &&
  negb (Trip.departure_time trip <? now).

(** The seat rows of the request, in table order. *)
Definition requested_seats (db : DB) (data : BookingData) : list Seat.t :=
  filter (selected (seat_ids data) (trip_id data)) (seats db).

(** Every requested seat is a seat of the trip, all are available and the
    counter covers them. *)
Definition seats_reservable (db : DB) (trip : Trip.t) (data : BookingData)
    : bool :=
  (zlength (requested_seats db data) =? zlength (seat_ids data)) &&
  forallb is_available (requested_seats db data) &&
  negb (Trip.available_seats trip <? zlength (seat_ids data)).

Definition quoted_subtotal (db : DB) (trip : Trip.t) (data : BookingData)
    : float :=
  round2 (fsum (map (Seat.calculate_price trip) (requested_seats db data))).

Definition minimum_met (promo : PromoCode.t) (subtotal : float) : bool :=
  negb (match PromoCode.min_purchase_amount promo with
        | Some m => negb (m =? 0) && lt_decimal subtotal m
        | None => false
        end).

(** The promo code of the request, normalised as the handler does. *)
Definition promo_code_str (data : BookingData) : string :=
  upper (strip (promo_code data)).

(** The promo checks, when a code is supplied: the code exists, is valid
    now, the user is eligible and the subtotal reaches the minimum. *)
Definition promo_checks (db : DB) (now : DateTime) (current_user_id : Z)
    (trip : Trip.t) (data : BookingData) : bool :=
  if is_empty (promo_code_str data) then true
  else match promo_by_code db (promo_code_str data) with
       | None => false
       | Some promo =>
           fst (PromoCode.is_valid promo now) &&
           fst (PromoCode.check_user_eligibility promo (bookings db)
                  current_user_id) &&
           minimum_met promo (quoted_subtotal db trip data)
       end.

Definition passes_validations (db : DB) (now : DateTime) (current_user_id : Z)
    (data : BookingData) : bool :=
  request_well_formed db current_user_id data &&
  match get_trip db (trip_id data) with
  | None => false
  | Some trip =>
      trip_bookable trip now && seats_reservable db trip data &&
      promo_checks db now current_user_id trip data
  end.

(** The promo code a request applies, if any. *)
Definition applied_promo (db : DB) (data : BookingData) : option PromoCode.t :=
  if is_empty (promo_code_str data) then None
  else promo_by_code db (promo_code_str data).

(** The booking row a successful create inserts. *)
Definition new_booking (db : DB) (current_user_id : Z) (trip : Trip.t)
    (data : BookingData) : Booking.t :=
  let subtotal := quoted_subtotal db trip data in
  let discount_amount :=
    match applied_promo db data with
    | Some promo => PromoCode.calculate_discount promo subtotal
    | None => S754_zero false
    end in
  Booking.make (next_booking_id db) current_user_id (trip_id data)
    (match applied_promo db data with
     | Some p => Some (PromoCode.id p)
     | None => None
     end)
    subtotal discount_amount (round2 (fsub subtotal discount_amount))
    BookingStatus.CONFIRMED PaymentStatus.UNPAID (zlength (seat_ids data)).

(** The database a successful create commits. *)
Definition after_create (db : DB) (current_user_id : Z) (trip : Trip.t)
    (data : BookingData) : DB :=
  let booking := new_booking db current_user_id trip data in
  let db1 :=
    with_next_booking_id (next_booking_id db + 1)
      (with_bookings (fun l => (l ++ [booking])%list) db) in
  let db2 :=
    with_seats (update_where (selected (seat_ids data) (trip_id data))
      (fun seat => Seat.with_booking_id (Some (Booking.id booking))
                     (Seat.with_status SeatStatus.BOOKED seat))) db1 in
  let db3 :=
    with_trips (update_where (fun t => Trip.id t =? Trip.id trip)
      (fun t => Trip.with_available_seats
                  (Trip.available_seats t - zlength (seat_ids data)) t)) db2 in
  match applied_promo db data with
  | Some p =>
      with_promo_codes (update_where
        (fun q => PromoCode.id q =? PromoCode.id p)
        (fun q => PromoCode.with_used_count (PromoCode.used_count q + 1) q))
        db3
  | None => db3
  end.

(** *** Sample data *)

Definition sample_seat (i : Z) : Seat.t :=
  Seat.make i (str_of_Z i) SeatClass.ECONOMY SeatStatus.AVAILABLE 100 1 None.

(** The promo code of the scenario: 10%, minimum purchase 50, at most 20
    off. *)
Definition SAVE10 : PromoCode.t :=
  PromoCode.make 1 "SAVE10" 1000 (Some 2000) (Some 5000) (Some 100) 0
                 (Some 1) 0 10000 true.

(** One trip of ten free seats at fare 50.00, a customer and an admin. *)
Definition sample_db : DB :=
  mkDB [User.make 1 UserRole.CUSTOMER true; User.make 2 UserRole.ADMIN true]
       [Trip.make 1 1000 5000 10 10 TripStatus.SCHEDULED]
       (map sample_seat [1; 2; 3; 4; 5; 6; 7; 8; 9; 10])
       [] [SAVE10] [] 1 1.

Definition sample_request (ids : list Z) (code : string) : BookingData :=
  mkBookingData 1 ids "John Doe" "john@test.com" "+1234567890" code.

(** A trip at fare 10.01 with one seat at multiplier 1.50. *)
Definition fare_db : DB :=
  mkDB [User.make 1 UserRole.CUSTOMER true]
       [Trip.make 1 1000 1001 1 1 TripStatus.SCHEDULED]
       [Seat.make 1 "1" SeatClass.BUSINESS SeatStatus.AVAILABLE 150 1 None]
       [] [] [] 1 1.

(** The booking a reply carries. *)
Definition booking_of (r : Response) : option Booking.t :=
  match r with
  | Reply _ _ b => b
  | Error _ _ => None
  end.

(** *** The discount as the specification words it *)

(** [0] if [min_purchase_amount] is set and the amount is below it;
    otherwise [amount * (discount_percentage / 100)], capped at
    [max_discount_amount] if set, rounded to two decimals half-up. *)
Definition calculateDiscount_spec (promo : PromoCode.t) (amount : float)
    : float :=
  if match PromoCode.min_purchase_amount promo with
     | Some m => fltb amount (of_decimal m 100)
     | None => false
     end
  then S754_zero false
  else
    let discount :=
      fmul amount (fdiv (of_decimal (PromoCode.discount_percentage promo) 100)
                        (of_Z 100)) in
    let discount :=
      match PromoCode.max_discount_amount promo with
      | Some m => fmin discount (of_decimal m 100)
      | None => discount
      end in
    round2_half_up discount.

(** A code of 10% without minimum and without cap. *)
Definition TEN_PERCENT : PromoCode.t :=
  PromoCode.make 2 "TEN" 1000 None None None 0 None 0 10000 true.

(** The product the specification rounds: [amount * (discount_percentage /
    100)], capped at [max_discount_amount] if that is set. *)
Definition capped_discount (promo : PromoCode.t) (amount : float) : float :=
  let discount :=
    fmul amount (fdiv (of_decimal (PromoCode.discount_percentage promo) 100)
                      (of_Z 100)) in
  match PromoCode.max_discount_amount promo with
  | Some m => fmin discount (of_decimal m 100)
  | None => discount
  end.

(** [min_purchase_amount] is set and the amount is below it. *)
Definition below_minimum (promo : PromoCode.t) (amount : float) : bool :=
  match PromoCode.min_purchase_amount promo with
  | Some m => fltb amount (of_decimal m 100)
  | None => false
  end.

(** The discount as the specification words it, with the rounding of
    Python's [round] in the place of half-up. *)
Definition calculateDiscount_amended (promo : PromoCode.t) (amount : float)
    : float :=
  if below_minimum promo amount then S754_zero false
  else round2 (capped_discount promo amount).

(** A code of 10% whose cap is stored as 0.00. *)
Definition ZERO_CAP : PromoCode.t :=
  PromoCode.make 3 "ZEROCAP" 1000 (Some 0) None None 0 None 0 10000 true.

(** The exact value [m * 2^e] lies half-way between two hundredths. *)
Definition is_tie (m : positive) (e : Z) : bool :=
  2 * (hundredths_num m e mod hundredths_den e) =? hundredths_den e.

(** *** Cancelling *)

(** The booking exists, is the caller's, is neither cancelled nor
    completed, and its trip has not departed. *)
Definition can_cancel (db : DB) (now : DateTime) (current_user_id : Z)
    (booking_id : Z) : bool :=
  match get_booking db booking_id with
  | None => false
  | Some booking =>
      (Booking.user_id booking =? current_user_id) &&
      negb (is_cancelled booking) &&
      negb (BookingStatus.eqb (Booking.booking_status booking)
              BookingStatus.COMPLETED) &&
      match get_trip db (Booking.trip_id booking) with
      | None => false
      | Some trip => negb (Trip.departure_time trip <? now)
      end
  end.

Definition this_booking (booking : Booking.t) (b : Booking.t) : bool :=
  Booking.id b =? Booking.id booking.

(** The database a successful cancel commits. *)
Definition after_cancel (db : DB) (booking : Booking.t) (trip : Trip.t) : DB :=
  let db1 :=
    with_bookings (update_where (this_booking booking)
      (Booking.with_booking_status BookingStatus.CANCELLED)) db in
  let db2 :=
    with_seats (update_where (held_by (Booking.id booking)) release) db1 in
  let db3 :=
    with_trips (update_where (fun t => Trip.id t =? Trip.id trip)
      (fun t => Trip.with_available_seats
                  (Trip.available_seats t + Booking.num_seats booking) t))
      db2 in
  let db4 :=
    if PaymentStatus.eqb (Booking.payment_status booking) PaymentStatus.PAID
    then with_bookings (update_where (this_booking booking)
           (Booking.with_payment_status PaymentStatus.REFUNDED)) db3
    else db3 in
  match Booking.promo_code_id booking with
  | Some pid =>
      if negb (pid =? 0) then
        match get_promo_code db pid with
        | Some promo =>
            with_promo_codes (update_where
              (fun q => PromoCode.id q =? PromoCode.id promo)
              (fun q => PromoCode.with_used_count
                          (Z.max 0 (PromoCode.used_count q - 1)) q)) db4
        | None => db4
        end
      else db4
  | None => db4
  end.

(** The row of a cancelled booking: cancelled, and refunded if it was
    paid. *)
Definition cancelled_row (b : Booking.t) (x : Booking.t) : Booking.t :=
  if this_booking b x then
    let x' := Booking.with_booking_status BookingStatus.CANCELLED x in
    if PaymentStatus.eqb (Booking.payment_status b) PaymentStatus.PAID
    then Booking.with_payment_status PaymentStatus.REFUNDED x' else x'
  else x.

(** Booking ids come from a sequence that starts above zero: the ids in
    the table are positive and below the next one. *)
Definition booking_ids_fresh (db : DB) : bool :=
  (0 <? next_booking_id db) &&
  forallb (fun b => (0 <? Booking.id b) &&
                    (Booking.id b <? next_booking_id db)) (bookings db).

(** *** The seat back-reference *)

(** A booking status other than [cancelled]. *)
Definition live (st : BookingStatus.t) : bool :=
  match st with
  | BookingStatus.PENDING | BookingStatus.CONFIRMED
  | BookingStatus.COMPLETED => true
  | BookingStatus.CANCELLED => false
  end.

(** The back-reference of a seat is set exactly when the seat is booked,
    and then the booking it names exists and is live. *)
Definition seat_ok (db : DB) (s : Seat.t) : bool :=
  match Seat.booking_id s with
  | None => negb (is_booked s)
  | Some b =>
      is_booked s &&
      match get_booking db b with
      | Some booking => live (Booking.booking_status booking)
      | None => false
      end
  end.

Definition seats_ok (db : DB) : bool := forallb (seat_ok db) (seats db).

(** Seat ids are a primary key. *)
Definition seat_ids_unique (db : DB) : bool :=
  negb (has_duplicates (map Seat.id (seats db))).

(** The status a seat update asks for, if it asks for one that exists. *)
Definition requested_status (data : AdminTrips.SeatData)
    : option SeatStatus.t :=
  match AdminTrips.status data with
  | Some v => SeatStatus.of_value (lower v)
  | None => None
  end.

(** A seat update that does not ask for [booked]. *)
Definition keeps_unbooked (data : AdminTrips.SeatData) : bool :=
  match requested_status data with
  | Some SeatStatus.BOOKED => false
  | _ => true
  end.

Definition this_seat (trip_id seat_id : Z) (s : Seat.t) : bool :=
  (Seat.id s =? seat_id) && (Seat.trip_id s =? trip_id).

(** The database a successful seat update commits. *)
Definition after_update_seat (db : DB) (trip_id seat_id : Z)
    (data : AdminTrips.SeatData) : DB :=
  let db1 :=
    match AdminTrips.seat_class data with
    | Some v =>
        match SeatClass.of_value (lower v) with
        | Some c =>
            with_seats (update_where (this_seat trip_id seat_id)
                          (Seat.with_seat_class c)) db
        | None => db
        end
    | None => db
    end in
  match requested_status data with
  | Some st =>
      with_seats (update_where (this_seat trip_id seat_id)
                    (Seat.with_status st)) db1
  | None => db1
  end.

(** *** Scenarios *)

(** The customer books seats 2, 3 and 5 of the sample trip, without a
    code. *)
Definition booked_db : DB :=
  snd (serve (create_booking 10 1 (sample_request [2; 3; 5] "")) sample_db).

(** The customer then cancels booking 1. *)
Definition cancelled_db : DB :=
  snd (serve (cancel_booking 20 1 1) booked_db).

(** An admin then moves booking 1 back to [confirmed]. *)
Definition reactivate : M Response :=
  admin_required 2 (AdminBookings.update_booking_status 1 (Some "confirmed")).

(** After the cancellation the customer books seats 2 and 3 again, as
    booking 2. *)
Definition rebooked_db : DB :=
  snd (serve (create_booking 30 1 (sample_request [2; 3] "")) cancelled_db).

Definition seat_states (db : DB) : list (Z * SeatStatus.t * option Z) :=
  map (fun s => (Seat.id s, Seat.status s, Seat.booking_id s)) (seats db).

Definition statuses (db : DB)
    : list (Z * BookingStatus.t * PaymentStatus.t) :=
  map (fun b => (Booking.id b, Booking.booking_status b,
                 Booking.payment_status b)) (bookings db).

(** The customer starts a payment for booking 1 while it is confirmed, then
    cancels the booking. *)
Definition payment_pending_db : DB :=
  snd (serve (cancel_booking 20 1 1)
         (snd (serve (Payments.initiate_payment 1 1) booked_db))).

(** What a seat update writes into the row it reaches. *)
Definition updated_seat (data : AdminTrips.SeatData) (s : Seat.t) : Seat.t :=
  let s1 :=
    match AdminTrips.seat_class data with
    | Some v =>
        match SeatClass.of_value (lower v) with
        | Some c => Seat.with_seat_class c s
        | None => s
        end
    | None => s
    end in
  match requested_status data with
  | Some st => Seat.with_status st s1
  | None => s1
  end.

(** The three facts every operation on seats is checked against: the
    back-references are right, booking ids are fresh, seat ids are a key. *)
Definition seat_references_ok (db : DB) : bool :=
  seats_ok db && booking_ids_fresh db && seat_ids_unique db.

(** An admin marks the free seat 1 of the sample trip as [booked]. *)
Definition mark_booked : M Response :=
  admin_required 2
    (AdminTrips.update_seat 1 1 (AdminTrips.mkSeatData None (Some "booked"))).

(** *** Sequences of requests *)

(** Serving create requests one after the other; the ids of the bookings
    created, or [None] as soon as one request is refused. *)
Fixpoint create_all (reqs : list (DateTime * Z * BookingData)) (db : DB)
    : option (list Z * DB) :=
  match reqs with
  | [] => Some ([], db)
  | (now, uid, data) :: rest =>
      match serve (create_booking now uid data) db with
      | (Reply _ _ (Some b), db1) =>
          match create_all rest db1 with
          | Some (ids, db2) => Some (Booking.id b :: ids, db2)
          | None => None
          end
      | _ => None
      end
  end.

(** Serving cancel requests [(now, user, booking)] one after the other, or
    [None] as soon as one is refused. *)
Fixpoint cancel_all (reqs : list (DateTime * Z * Z)) (db : DB) : option DB :=
  match reqs with
  | [] => Some db
  | (now, uid, bid) :: rest =>
      match serve (cancel_booking now uid bid) db with
      | (Reply _ _ _, db1) => cancel_all rest db1
      | _ => None
      end
  end.

(** The usage count of the promo code [c]. *)
Definition used_count_of (db : DB) (c : string) : option Z :=
  option_map PromoCode.used_count (promo_by_code db c).

(** The bookings of user [uid] that refer to promo code [pid], whatever
    their status. *)
Definition user_usage (db : DB) (pid uid : Z) : Z :=
  zlength (filter (fun b => (Booking.user_id b =? uid) &&
                            match Booking.promo_code_id b with
                            | Some p => p =? pid
                            | None => false
                            end) (bookings db)).

(** Two customers and a code that each may use twice, at most three times
    in all. *)
Definition TWICE : PromoCode.t :=
  PromoCode.make 1 "TWICE" 1000 None None (Some 3) 0 (Some 2) 0 10000 true.

Definition promo_db : DB :=
  mkDB [User.make 1 UserRole.CUSTOMER true; User.make 3 UserRole.CUSTOMER true]
       [Trip.make 1 1000 5000 10 10 TripStatus.SCHEDULED]
       (map sample_seat [1; 2; 3; 4; 5; 6; 7; 8; 9; 10])
       [] [TWICE] [] 1 1.

(** The request passes every check the handler makes before it asks whether
    the user may still use the promo code [promo]. *)
Definition reaches_eligibility (db : DB) (now : DateTime)
    (current_user_id : Z) (data : BookingData) (promo : PromoCode.t) : bool :=
  request_well_formed db current_user_id data &&
  match get_trip db (trip_id data) with
  | None => false
  | Some trip => trip_bookable trip now && seats_reservable db trip data
  end &&
  negb (is_empty (promo_code_str data)) &&
  fst (PromoCode.is_valid promo now).

(** The first customer has made two bookings with TWICE. *)
Definition twice_booked_db : DB :=
  match create_all [(10, 1, sample_request [1] "twice");
                    (11, 1, sample_request [2] "twice")] promo_db with
  | Some (_, db1) => db1
  | None => promo_db
  end.

(** Serving cancel requests one after the other, refused or not. *)
Definition serve_cancels (cancels : list (DateTime * Z * Z)) (db : DB) : DB :=
  fold_left (fun d r => snd (serve (cancel_booking (fst (fst r))
                                      (snd (fst r)) (snd r)) d))
            cancels db.

(** *** Consistency of the inventory *)

(** A booking that is not cancelled holds exactly [num_seats] seats, all on
    its trip. *)
Definition owns_seats (db : DB) (b : Booking.t) : bool :=
  is_cancelled b ||
  ((zlength (booking_seats db (Booking.id b)) =? Booking.num_seats b) &&
   forallb (fun s => Seat.trip_id s =? Booking.trip_id b)
           (booking_seats db (Booking.id b))).

Definition bookings_ok (db : DB) : bool := forallb (owns_seats db) (bookings db).

(** Booking ids are a primary key. *)
Definition booking_ids_unique (db : DB) : bool :=
  negb (has_duplicates (map Booking.id (bookings db))).

(** Counters, back-references, booking ids and seat ownership agree. *)
Definition trip_ids_unique (db : DB) : bool :=
  negb (has_duplicates (map Trip.id (trips db))).
Definition consistent (db : DB) : bool :=
  counters_ok db && seats_ok db && booking_ids_fresh db &&
  booking_ids_unique db && bookings_ok db && trip_ids_unique db.

(** The booked seats of trip [trip] among the rows [l]. *)
Definition count_booked (l : list Seat.t) (trip : Z) : Z :=
  zlength (filter (fun s => (Seat.trip_id s =? trip) && is_booked s) l).

(** The admin status update asks to move a cancelled booking to another
    status. *)
Definition reactivates (db : DB) (booking_id : Z) (data : option string)
    : bool :=
  match get_booking db booking_id, data with
  | Some b, Some raw =>
      match BookingStatus.of_value (lower raw) with
      | Some new_status =>
          is_cancelled b &&
          negb (BookingStatus.eqb new_status BookingStatus.CANCELLED)
      | None => false
      end
  | _, _ => false
  end.

(** The database an admin status update commits when it is not a
    re-activation: seats released and counter raised when the booking
    becomes cancelled, then the new status. *)
Definition after_status_update (db : DB) (b : Booking.t) (t : Trip.t)
    (new_status : BookingStatus.t) : DB :=
  let db3 :=
    if BookingStatus.eqb new_status BookingStatus.CANCELLED &&
       negb (is_cancelled b)
    then
      let db1 :=
        with_seats (update_where (held_by (Booking.id b)) release) db in
      let db2 :=
        with_trips (update_where (fun x => Trip.id x =? Trip.id t)
          (fun x => Trip.with_available_seats
                      (Trip.available_seats x + Booking.num_seats b) x))
          db1 in
      if PaymentStatus.eqb (Booking.payment_status b) PaymentStatus.PAID
      then with_bookings (update_where (this_booking b)
             (Booking.with_payment_status PaymentStatus.REFUNDED)) db2
      else db2
    else db in
  with_bookings (update_where (this_booking b)
    (Booking.with_booking_status new_status)) db3.

(** The database an admin delete commits. *)
Definition after_delete (db : DB) (b : Booking.t) (t : Trip.t) : DB :=
  let db2 :=
    if negb (is_cancelled b) then
      with_trips (update_where (fun x => Trip.id x =? Trip.id t)
        (fun x => Trip.with_available_seats
                    (Trip.available_seats x + Booking.num_seats b) x))
        (with_seats (update_where (held_by (Booking.id b)) release) db)
    else db in
  with_bookings (filter (fun x => negb (this_booking b x))) db2.

(** *** Sessions *)

(** A computation that never commits. *)
Definition keeps {A} (m : M A) : Prop :=
  forall s res s', m s = (res, s') -> committed s' = committed s.

(** A computation that has committed nothing when it stops early. *)
Definition clean {A} (m : M A) : Prop :=
  forall s r s', m s = (inl r, s') -> committed s' = committed s.

(** The row of a booking after the admin status update. *)
Definition status_row (b : Booking.t) (new_status : BookingStatus.t)
    (x : Booking.t) : Booking.t :=
  if this_booking b x then
    let x' :=
      if BookingStatus.eqb new_status BookingStatus.CANCELLED &&
         negb (is_cancelled b) &&
         PaymentStatus.eqb (Booking.payment_status b) PaymentStatus.PAID
      then Booking.with_payment_status PaymentStatus.REFUNDED x else x in
    Booking.with_booking_status new_status x'
  else x.

(** *** A cancellation by the admin *)

(** The customer books seats 2, 3 and 5 of the sample trip with the code
    SAVE10. *)
Definition promo_booked_db : DB :=
  snd (serve (create_booking 10 1 (sample_request [2; 3; 5] "save10"))
             sample_db).

(** An admin cancels booking 1 through the status update. *)
Definition admin_cancel : M Response :=
  admin_required 2 (AdminBookings.update_booking_status 1 (Some "cancelled")).

(** ** Further properties *)

(** A phone number holds digits and formatting characters only. *)
Definition phone_chars_ok (phone : string) : bool :=
  sforall (fun c => is_digit c || phone_format_char c) phone.

(** The number of digits of a phone number. *)
Definition digit_count (phone : string) : Z := len (sfilter is_digit phone).

(** The string of one newline. *)
Definition newline : string := String "010" EmptyString.

(** *** Sessions, continued *)

(** A computation that keeps a property of the committed and of the working
    database. *)
Definition preserves {A} (P : DB -> Prop) (m : M A) : Prop :=
  forall s res s',
    P (committed s) -> P (working s) -> m s = (res, s') ->
    P (committed s') /\ P (working s').

(** A computation whose early answers are all errors. *)
Definition errs {A} (m : M A) : Prop :=
  forall s r s', m s = (inl r, s') -> exists code e, r = Error code e.

(** The tables the booking handlers of the admin leave alone. *)
Definition same_promos_users_payments (db0 db : DB) : Prop :=
  promo_codes db = promo_codes db0 /\ users db = users db0 /\
  payments db = payments db0.

(** *** Promo codes *)

(** Promo code ids are a primary key. *)
Definition promo_ids_unique (db : DB) : bool :=
  negb (has_duplicates (map PromoCode.id (promo_codes db))).

(** Every promo code a booking refers to exists. *)
Definition promo_ref_ok (db : DB) (b : Booking.t) : bool :=
  match Booking.promo_code_id b with
  | Some p => existsb (fun q => PromoCode.id q =? p) (promo_codes db)
  | None => true
  end.
Definition promo_refs_ok (db : DB) : bool :=
  forallb (promo_ref_ok db) (bookings db).

(** A database with an initiated payment for booking 1. *)
Definition paying_db : DB :=
  snd (serve (Payments.initiate_payment 1 1) booked_db).

(** The payment has gone through. *)
Definition paid_db : DB :=
  snd (serve (Payments.process_payment 1 1 true) paying_db).

(** *** Seats on offer *)

(** The seat checks of [create_booking]: every requested id is a seat of
    the trip, and every such seat is available. *)
Definition seat_checks (db : DB) (trip_id : Z) (seat_ids : list Z) : bool :=
  (zlength (filter (selected seat_ids trip_id) (seats db)) =? zlength seat_ids)
  && forallb is_available (filter (selected seat_ids trip_id) (seats db)).

(** *** The usage limit *)

(** A promo code has been used a non-negative number of times, and not more
    often than its limit allows. *)
Definition promo_limit_ok (p : PromoCode.t) : bool :=
  (0 <=? PromoCode.used_count p) &&
  match PromoCode.usage_limit p with
  | Some limit => PromoCode.used_count p <=? limit
  | None => true
  end.
Definition promo_limits_ok (db : DB) : bool :=
  forallb promo_limit_ok (promo_codes db) && promo_ids_unique db.

(** *** Payments *)

(** The statuses [process_payment] refuses: success, failed and cancelled. *)
Definition processed (st : TransactionStatus.t) : bool :=
  match st with
  | TransactionStatus.SUCCESS | TransactionStatus.FAILED
  | TransactionStatus.CANCELLED => true
  | _ => false
  end.

(** The paid booking's payment has been refunded. *)
Definition refunded_db : DB :=
  snd (serve (PaymentRoutes.request_refund 1 1 None) paid_db).

(** * Verification *)

(** ** Stepping through a handler *)

Lemma bind_inr {A B} (m : M A) (k : A -> M B) s b s' :
  bind m k s = (inr b, s') ->
  exists a s1, m s = (inr a, s1) /\ k a s1 = (inr b, s').
Proof.
  unfold bind. destruct (m s) as [[r | a] s1]; intros H.
  - discriminate.
  - exists a, s1. auto.
Qed.

Lemma bind_inl {A B} (m : M A) (k : A -> M B) s r s' :
  bind m k s = (inl r, s') ->
  m s = (inl r, s') \/ exists a s1, m s = (inr a, s1) /\ k a s1 = (inl r, s').
Proof.
  unfold bind. destruct (m s) as [[r1 | a] s1]; intros H.
  - left. inversion H; subst; reflexivity.
  - right. exists a, s1. auto.
Qed.

Lemma require_inr c code e s u s' :
  require c code e s = (inr u, s') -> c = true /\ s' = s.
Proof. unfold require, ret, reply. destruct c; intros H; inversion H; auto. Qed.

Lemma require_inl c code e s r s' :
  require c code e s = (inl r, s') -> c = false /\ r = Error code e /\ s' = s.
Proof. unfold require, ret, reply. destruct c; intros H; inversion H; auto. Qed.

Lemma found_inr {A} (x : option A) code e s a s' :
  found x code e s = (inr a, s') -> x = Some a /\ s' = s.
Proof. unfold found, ret, reply. destruct x; intros H; inversion H; auto. Qed.

Lemma found_inl {A} (x : option A) code e s r s' :
  found x code e s = (inl r, s') -> x = None /\ r = Error code e /\ s' = s.
Proof. unfold found, ret, reply. destruct x; intros H; inversion H; auto. Qed.

Lemma query_inr s db s' : query s = (inr db, s') -> db = working s /\ s' = s.
Proof. unfold query. intros H; inversion H; auto. Qed.

Lemma write_inr f s u s' :
  write f s = (inr u, s') -> s' = mkSession (committed s) (f (working s)).
Proof. unfold write. intros H; inversion H; auto. Qed.

Lemma commit_inr s u s' :
  commit s = (inr u, s') -> s' = mkSession (working s) (working s).
Proof. unfold commit. intros H; inversion H; auto. Qed.

Lemma ret_inr {A} (a : A) s b s' : ret a s = (inr b, s') -> b = a /\ s' = s.
Proof. unfold ret. intros H; inversion H; auto. Qed.

Lemma bind_assoc {A B C} (m : M A) (f : A -> M B) (g : B -> M C) s :
  bind (bind m f) g s = bind m (fun x => bind (f x) g) s.
Proof. unfold bind. destruct (m s) as [[r | a] s1]; reflexivity. Qed.

(** One step of a run that went on ([inr]) or stopped ([inl]). *)
Ltac step_in H :=
  cbv beta zeta in H; cbn [working committed fst snd] in H;
  rewrite ?bind_assoc in H;
  match type of H with
  | bind _ _ _ = (inr _, _) =>
      let a := fresh "a" in let s1 := fresh "s" in let H1 := fresh "Hm" in
      apply bind_inr in H; destruct H as (a & s1 & H1 & H);
      first
        [ apply require_inr in H1; destruct H1 as [H1 ->]
        | apply found_inr in H1; destruct H1 as [H1 ->]
        | apply query_inr in H1; destruct H1 as [-> ->]
        | apply write_inr in H1; subst s1
        | apply commit_inr in H1; subst s1
        | apply ret_inr in H1; destruct H1 as [-> ->]
        | idtac ]
  end.

Ltac stop_with H k :=
  cbv beta zeta in H; cbn [working committed fst snd] in H;
  rewrite ?bind_assoc in H;
  match type of H with
  | bind _ _ _ = (inl _, _) =>
      let a := fresh "a" in let s1 := fresh "s" in let H1 := fresh "Hm" in
      let Hr := fresh "Hr" in
      apply bind_inl in H; destruct H as [H | (a & s1 & H1 & H)];
      [ first
          [ apply require_inl in H; destruct H as (H & Hr & ->); k H Hr
          | apply found_inl in H; destruct H as (H & Hr & ->); k H Hr
          | discriminate H
          | unfold ret, write, commit, query in H; discriminate H
          | idtac ]
      | first
          [ apply require_inr in H1; destruct H1 as [H1 ->]
          | apply found_inr in H1; destruct H1 as [H1 ->]
          | apply query_inr in H1; destruct H1 as [-> ->]
          | apply write_inr in H1; subst s1
          | apply commit_inr in H1; subst s1
          | apply ret_inr in H1; destruct H1 as [-> ->]
          | idtac ] ]
  end.

(** A stop that cannot be the answer at hand. *)
Ltac stop_absurd H := stop_with H ltac:(fun _ Hr => discriminate Hr).

(** ** create_booking, step by step *)

Lemma no_unavailable_forallb (l : list Seat.t) :
  match filter (fun s => negb (is_available s)) l with
  | [] => true
  | _ => false
  end = forallb is_available l.
Proof.
  induction l as [| x l IH]; simpl; [reflexivity |].
  destruct (is_available x); simpl; [exact IH | reflexivity].
Qed.

Lemma capacity_check (a n : Z) : negb (a <? n) = (n <=? a).
Proof. destruct (Z.ltb_spec a n), (Z.leb_spec n a); simpl; auto; lia. Qed.

Ltac use_checks :=
  repeat match goal with
  | Hx : _ = true |- _ => rewrite Hx; clear Hx
  | Hx : _ = false |- _ => rewrite Hx; clear Hx
  | Hx : _ = Some _ |- _ => rewrite Hx; clear Hx
  | Hx : _ = None |- _ => rewrite Hx; clear Hx
  end.

Ltac fold_checks :=
  repeat match goal with
  | Hx : context [match filter (fun s => negb (is_available s)) _ with _ => _ end] |- _ =>
      rewrite no_unavailable_forallb in Hx
  end.

Ltac ret_in :=
  match goal with
  | Hx : ret _ _ = (inr _, _) |- _ =>
      apply ret_inr in Hx; destruct Hx as [? ?]; subst
  end.

Ltac failed_check Hc Hr :=
  split; [ eauto | split; [ reflexivity | ] ];
  unfold passes_validations, request_well_formed, trip_bookable,
    seats_reservable, promo_checks, minimum_met,
    quoted_subtotal, requested_seats, promo_code_str;
  fold_checks; cbn [working committed] in *;
  use_checks; cbn [andb negb];
  rewrite ?andb_false_r; reflexivity.

(** Every run of [create_booking] on a clean session either stops with an
    error, nothing written and a validation failed, or passes every
    validation, inserts [new_booking] and commits [after_create]. *)
Lemma create_booking_run db now uid data res s' :
  create_booking now uid data (mkSession db db) = (res, s') ->
  match res with
  | inl r =>
      (exists code e, r = Error code e) /\ s' = mkSession db db /\
      passes_validations db now uid data = false
  | inr r =>
      passes_validations db now uid data = true /\
      exists trip,
        get_trip db (trip_id data) = Some trip /\
        r = Reply 201 "Booking created successfully"
              (Some (new_booking db uid trip data)) /\
        s' = mkSession (after_create db uid trip data)
                       (after_create db uid trip data)
  end.
Proof.
  intros H. unfold create_booking in H.
  destruct res as [r | r].
  - repeat (stop_with H failed_check).
    + destruct (is_empty (upper (strip (promo_code data)))) eqn:Hp;
        [ discriminate H | ].
      repeat (stop_with H failed_check). discriminate H.
    + destruct (snd a11); discriminate H.
    + discriminate H.
  - repeat (step_in H).
    destruct (is_empty (upper (strip (promo_code data)))) eqn:Hp.
    + repeat (cbn [working committed fst snd] in *; ret_in).
      cbn [working committed fst snd] in *.
      split.
      * unfold passes_validations, request_well_formed, trip_bookable,
          seats_reservable, promo_checks, minimum_met,
          quoted_subtotal, requested_seats, promo_code_str.
        fold_checks. use_checks. reflexivity.
      * eexists; split; [ eassumption | ].
        unfold after_create, new_booking, applied_promo, quoted_subtotal,
          requested_seats, promo_code_str.
        rewrite Hp. cbn [Booking.id]. split; reflexivity.
    + repeat (step_in Hm11).
      repeat (cbn [working committed fst snd] in *; ret_in).
      cbn [working committed fst snd] in *.
      match goal with
      | Hx : write _ _ = (inr _, _) |- _ => apply write_inr in Hx; subst
      end.
      cbn [working committed fst snd] in *.
      split.
      * unfold passes_validations, request_well_formed, trip_bookable,
          seats_reservable, promo_checks, minimum_met,
          quoted_subtotal, requested_seats, promo_code_str.
        fold_checks. use_checks. reflexivity.
      * eexists; split; [ eassumption | ].
        unfold after_create, new_booking, applied_promo, quoted_subtotal,
          requested_seats, promo_code_str.
        rewrite Hp. cbn [Booking.id].
        match goal with Hx : promo_by_code _ _ = Some _ |- _ => rewrite Hx end.
        split; reflexivity.
Qed.

(** ** Rows under [update_where] *)

Section UpdateWhere.
Context {A : Type} (sel : A -> bool) (f : A -> A).

Lemma length_update_where (l : list A) :
  List.length (update_where sel f l) = List.length l.
Proof. apply length_map. Qed.

Lemma In_update_where (y : A) (l : list A) :
  In y (update_where sel f l) <->
  exists x, In x l /\ y = if sel x then f x else x.
Proof.
  unfold update_where. rewrite in_map_iff.
  split; intros (x & H1 & H2); exists x; intuition congruence.
Qed.

(** A test the update does not disturb selects the same rows. *)
Lemma filter_update_where (p : A -> bool) (l : list A) :
  (forall x, p (f x) = p x) ->
  filter p (update_where sel f l) = update_where sel f (filter p l).
Proof.
  intros Hp. induction l as [| x l IH]; simpl; [reflexivity |].
  assert (E : p (if sel x then f x else x) = p x)
    by (destruct (sel x); auto).
  rewrite E. destruct (p x); simpl; rewrite IH; reflexivity.
Qed.

Lemma find_update_where (p : A -> bool) (l : list A) :
  (forall x, p (f x) = p x) ->
  find p (update_where sel f l) =
  option_map (fun x => if sel x then f x else x) (find p l).
Proof.
  intros Hp. induction l as [| x l IH]; simpl; [reflexivity |].
  assert (E : p (if sel x then f x else x) = p x)
    by (destruct (sel x); auto).
  rewrite E. destruct (p x); simpl; [reflexivity | exact IH].
Qed.

Lemma update_where_none (l : list A) :
  (forall x, In x l -> sel x = false) -> update_where sel f l = l.
Proof.
  intros H. induction l as [| x l IH]; simpl; [reflexivity |].
  rewrite (H x) by (left; reflexivity).
  rewrite IH; [reflexivity |]. intros y Hy. apply H. right. exact Hy.
Qed.
End UpdateWhere.

Lemma zlength_nonneg {A} (l : list A) : 0 <= zlength l.
Proof. unfold zlength. lia. Qed.

Lemma zlength_app {A} (l1 l2 : list A) :
  zlength (l1 ++ l2) = zlength l1 + zlength l2.
Proof. unfold zlength. rewrite length_app. lia. Qed.

Lemma zlength_update_where {A} (sel : A -> bool) f l :
  zlength (update_where sel f l) = zlength l.
Proof. unfold zlength. rewrite length_update_where. reflexivity. Qed.

(** ** What [after_create] leaves in each table *)

Lemma seats_after_create db uid trip data :
  seats (after_create db uid trip data) =
  update_where (selected (seat_ids data) (trip_id data))
    (AdminBookings.rebook (next_booking_id db)) (seats db).
Proof. unfold after_create. destruct (applied_promo db data); reflexivity. Qed.

Lemma trips_after_create db uid trip data :
  trips (after_create db uid trip data) =
  update_where (fun t => Trip.id t =? Trip.id trip)
    (fun t => Trip.with_available_seats
                (Trip.available_seats t - zlength (seat_ids data)) t)
    (trips db).
Proof. unfold after_create. destruct (applied_promo db data); reflexivity. Qed.

Lemma bookings_after_create db uid trip data :
  bookings (after_create db uid trip data) =
  (bookings db ++ [new_booking db uid trip data])%list.
Proof. unfold after_create. destruct (applied_promo db data); reflexivity. Qed.

Lemma next_booking_id_after_create db uid trip data :
  next_booking_id (after_create db uid trip data) = next_booking_id db + 1.
Proof. unfold after_create. destruct (applied_promo db data); reflexivity. Qed.

Lemma users_after_create db uid trip data :
  users (after_create db uid trip data) = users db.
Proof. unfold after_create. destruct (applied_promo db data); reflexivity. Qed.

Lemma promo_codes_after_create db uid trip data :
  promo_codes (after_create db uid trip data) =
  match applied_promo db data with
  | Some p =>
      update_where (fun q => PromoCode.id q =? PromoCode.id p)
        (fun q => PromoCode.with_used_count (PromoCode.used_count q + 1) q)
        (promo_codes db)
  | None => promo_codes db
  end.
Proof. unfold after_create. destruct (applied_promo db data); reflexivity. Qed.

(** The answer of a served create. *)
Lemma create_booking_served db now uid data :
  (passes_validations db now uid data = true /\
   exists trip,
     get_trip db (trip_id data) = Some trip /\
     serve (create_booking now uid data) db =
       (Reply 201 "Booking created successfully"
              (Some (new_booking db uid trip data)),
        after_create db uid trip data)) \/
  (passes_validations db now uid data = false /\
   exists code e,
     serve (create_booking now uid data) db = (Error code e, db)).
Proof.
  unfold serve.
  destruct (create_booking now uid data (mkSession db db)) as [res s] eqn:H.
  apply create_booking_run in H. destruct res as [r | r].
  - right. destruct H as ((code & e & ->) & -> & Hv). eauto.
  - left. destruct H as (Hv & trip & Ht & -> & ->). eauto.
Qed.

(** ** Creating a booking *)

Lemma selected_rebook ids tid b s :
  selected ids tid (AdminBookings.rebook b s) = selected ids tid s.
Proof. reflexivity. Qed.

Lemma has_duplicates_NoDup (l : list Z) : has_duplicates l = false -> NoDup l.
Proof.
  induction l as [| x l IH]; simpl; intros H; [constructor |].
  apply orb_false_iff in H. destruct H as [H1 H2].
  constructor; [| auto].
  intros Hin. assert (E : existsb (Z.eqb x) l = true).
  { apply existsb_exists. exists x. split; [exact Hin | apply Z.eqb_refl]. }
  congruence.
Qed.

Lemma get_trip_id db i t : get_trip db i = Some t -> Trip.id t = i.
Proof.
  unfold get_trip. intros H. apply find_some in H. destruct H as [_ H].
  apply Z.eqb_eq. exact H.
Qed.

Lemma get_booking_id db i b : get_booking db i = Some b -> Booking.id b = i.
Proof.
  unfold get_booking. intros H. apply find_some in H. destruct H as [_ H].
  apply Z.eqb_eq. exact H.
Qed.

(** When seat ids are unique in the table, a request whose rows are as many
    as its distinct ids has a row for each id. *)
Lemma requested_seats_cover db data :
  NoDup (map Seat.id (seats db)) ->
  NoDup (seat_ids data) ->
  zlength (requested_seats db data) = zlength (seat_ids data) ->
  forall i, In i (seat_ids data) ->
  exists s, In s (seats db) /\ Seat.id s = i /\
            selected (seat_ids data) (trip_id data) s = true.
Proof.
  intros Hu Hd Hlen i Hi.
  assert (Hsub : incl (map Seat.id (requested_seats db data)) (seat_ids data)).
  { intros j Hj. apply in_map_iff in Hj. destruct Hj as (s & <- & Hs).
    apply filter_In in Hs. destruct Hs as [_ Hs].
    unfold selected in Hs. apply andb_true_iff in Hs. destruct Hs as [Hs _].
    apply existsb_exists in Hs. destruct Hs as (k & Hk & E).
    apply Z.eqb_eq in E. rewrite E. exact Hk. }
  assert (Hnd : NoDup (map Seat.id (requested_seats db data))).
  { unfold requested_seats. clear - Hu.
    induction (seats db) as [| s l IH]; simpl; [constructor |].
    inversion Hu as [| ? ? Hn Hl]; subst.
    destruct (selected (seat_ids data) (trip_id data) s); simpl; [| auto].
    constructor; [| auto].
    intros Hin. apply Hn. apply in_map_iff in Hin.
    destruct Hin as (s' & E & Hs'). apply filter_In in Hs'.
    apply in_map_iff. exists s'. tauto. }
  assert (Hback : incl (seat_ids data) (map Seat.id (requested_seats db data))).
  { apply NoDup_length_incl; [exact Hnd | | exact Hsub].
    unfold zlength in Hlen. rewrite length_map. lia. }
  apply Hback in Hi. apply in_map_iff in Hi. destruct Hi as (s & E & Hs).
  apply filter_In in Hs. exists s. tauto.
Qed.

(** C3.  A create request that fails any validation (request or user not
    acceptable, trip missing, not scheduled or departed, a seat missing or
    not available, not enough capacity, promo code unknown, invalid, not
    eligible or below its minimum purchase) is answered with a structured
    error and the committed database is exactly the one before: no booking
    row, no seat change, no counter change, no promo usage. *)
Theorem create_booking_failure_leaves_state db now uid data :
  passes_validations db now uid data = false ->
  exists code error,
    serve (create_booking now uid data) db = (Error code error, db).
Proof.
  intros Hv.
  destruct (create_booking_served db now uid data)
    as [(Hv' & _) | (_ & code & e & H)].
  - congruence.
  - exists code, e. exact H.
Qed.

Lemma create_booking_failure_leaves_state_witness :
  passes_validations sample_db 10 1 (sample_request [2; 11] "") = false /\
  exists code error,
    serve (create_booking 10 1 (sample_request [2; 11] "")) sample_db =
    (Error code error, sample_db).
Proof.
  split; [ vm_compute; reflexivity | ].
  apply (create_booking_failure_leaves_state sample_db 10 1
           (sample_request [2; 11] "")).
  vm_compute. reflexivity.
Defined.

(** C2, as amended.  A create request that passes every validation inserts
    one booking, confirmed and unpaid; its subtotal is the sum of the seat
    prices (base fare times multiplier) rounded to two decimals, its total
    is subtotal minus discount rounded to two decimals; every requested seat
    row becomes booked and refers to the new booking; the trip's counter
    drops by the number of requested seats; the usage count of the applied
    promo code grows by one. *)
Theorem create_booking_success db now uid data :
  passes_validations db now uid data = true ->
  exists trip booking db',
    get_trip db (trip_id data) = Some trip /\
    serve (create_booking now uid data) db =
      (Reply 201 "Booking created successfully" (Some booking), db') /\
    bookings db' = (bookings db ++ [booking])%list /\
    Booking.booking_status booking = BookingStatus.CONFIRMED /\
    Booking.payment_status booking = PaymentStatus.UNPAID /\
    Booking.num_seats booking = zlength (seat_ids data) /\
    Booking.subtotal booking =
      round2 (fsum (map (Seat.calculate_price trip) (requested_seats db data))) /\
    Booking.discount_amount booking =
      match applied_promo db data with
      | Some promo => PromoCode.calculate_discount promo (Booking.subtotal booking)
      | None => S754_zero false
      end /\
    Booking.total_amount booking =
      round2 (fsub (Booking.subtotal booking) (Booking.discount_amount booking)) /\
    seats db' =
      update_where (selected (seat_ids data) (trip_id data))
        (AdminBookings.rebook (Booking.id booking)) (seats db) /\
    Forall (fun s => selected (seat_ids data) (trip_id data) s = true ->
                     Seat.status s = SeatStatus.BOOKED /\
                     Seat.booking_id s = Some (Booking.id booking))
           (seats db') /\
    zlength (filter (selected (seat_ids data) (trip_id data)) (seats db')) =
      zlength (seat_ids data) /\
    (NoDup (map Seat.id (seats db)) ->
     forall i, In i (seat_ids data) ->
     exists s, In s (seats db') /\ Seat.id s = i /\
               Seat.trip_id s = trip_id data /\
               Seat.status s = SeatStatus.BOOKED /\
               Seat.booking_id s = Some (Booking.id booking)) /\
    get_trip db' (trip_id data) =
      Some (Trip.with_available_seats
              (Trip.available_seats trip - zlength (seat_ids data)) trip) /\
    match applied_promo db data with
    | Some promo =>
        Booking.promo_code_id booking = Some (PromoCode.id promo) /\
        promo_by_code db' (promo_code_str data) =
          Some (PromoCode.with_used_count (PromoCode.used_count promo + 1) promo)
    | None =>
        Booking.promo_code_id booking = None /\
        promo_codes db' = promo_codes db
    end.
Proof.
  intros Hv.
  destruct (create_booking_served db now uid data)
    as [(_ & trip & Ht & H) | (Hv' & _)]; [| congruence].
  exists trip, (new_booking db uid trip data), (after_create db uid trip data).
  assert (Hsel : forall s, In s (seats (after_create db uid trip data)) ->
            selected (seat_ids data) (trip_id data) s = true ->
            Seat.status s = SeatStatus.BOOKED /\
            Seat.booking_id s = Some (next_booking_id db)).
  { intros s Hs Hsel. rewrite seats_after_create in Hs.
    apply In_update_where in Hs. destruct Hs as (x & _ & ->).
    destruct (selected (seat_ids data) (trip_id data) x) eqn:E.
    - split; reflexivity.
    - congruence. }
  assert (Hcount : zlength (filter (selected (seat_ids data) (trip_id data))
                      (seats (after_create db uid trip data))) =
                   zlength (seat_ids data)).
  { rewrite seats_after_create.
    rewrite filter_update_where by (intros; apply selected_rebook).
    rewrite zlength_update_where.
    unfold passes_validations in Hv. rewrite Ht in Hv.
    unfold seats_reservable in Hv.
    repeat (apply andb_true_iff in Hv; destruct Hv as [Hv ?]).
    repeat match goal with
           | Hx : _ && _ = true |- _ => apply andb_true_iff in Hx; destruct Hx
           end.
    apply Z.eqb_eq. assumption. }
  repeat split; try reflexivity; try assumption.
  - apply bookings_after_create.
  - apply seats_after_create.
  - apply Forall_forall. exact Hsel.
  - intros Hu i Hi.
    assert (Hreq : passes_validations db now uid data = true) by exact Hv.
    unfold passes_validations, request_well_formed, seats_reservable in Hreq.
    rewrite Ht in Hreq.
    repeat match goal with
           | Hx : _ && _ = true |- _ => apply andb_true_iff in Hx; destruct Hx
           end.
    assert (Hd : NoDup (seat_ids data)).
    { apply has_duplicates_NoDup.
      unfold validate_seat_selection in *.
      destruct (seat_ids data) as [| x l]; [discriminate |].
      destruct (has_duplicates (x :: l)); [discriminate | reflexivity]. }
    destruct (requested_seats_cover db data Hu Hd) with (i := i)
      as (s & Hs & Hid & Hsl); [ apply Z.eqb_eq; assumption | exact Hi | ].
    exists (AdminBookings.rebook (next_booking_id db) s).
    split; [| split; [exact Hid | split; [| split; reflexivity ]]].
    + rewrite seats_after_create. apply In_update_where.
      exists s. rewrite Hsl. auto.
    + unfold selected in Hsl. apply andb_true_iff in Hsl.
      destruct Hsl as [_ Hsl]. apply Z.eqb_eq in Hsl. exact Hsl.
  - unfold get_trip. rewrite trips_after_create.
    rewrite find_update_where by reflexivity.
    fold (get_trip db (trip_id data)). rewrite Ht. simpl.
    rewrite Z.eqb_refl. reflexivity.
  - unfold new_booking. cbn [Booking.promo_code_id].
    destruct (applied_promo db data) as [p |] eqn:Hp.
    + split; [reflexivity |].
      unfold promo_by_code. rewrite promo_codes_after_create, Hp.
      rewrite find_update_where by reflexivity.
      unfold applied_promo in Hp.
      destruct (is_empty (promo_code_str data)); [discriminate |].
      unfold promo_by_code in Hp. rewrite Hp. simpl.
      rewrite Z.eqb_refl. reflexivity.
    + split; [reflexivity |].
      rewrite promo_codes_after_create, Hp. reflexivity.
Qed.

Lemma create_booking_success_witness :
  passes_validations sample_db 10 1 (sample_request [2; 3; 5] "save10") = true /\
  exists trip booking db',
    get_trip sample_db 1 = Some trip /\
    serve (create_booking 10 1 (sample_request [2; 3; 5] "save10")) sample_db =
      (Reply 201 "Booking created successfully" (Some booking), db') /\
    Booking.subtotal booking = of_Z 150 /\
    Booking.discount_amount booking = of_Z 15 /\
    Booking.total_amount booking = of_Z 135 /\
    get_trip db' 1 = Some (Trip.with_available_seats 7 trip) /\
    promo_by_code db' "SAVE10" = Some (PromoCode.with_used_count 1 SAVE10).
Proof.
  split; [ vm_compute; reflexivity | ].
  destruct (create_booking_success sample_db 10 1
              (sample_request [2; 3; 5] "save10"))
    as (trip & booking & db' & Ht & Hs & _ & _ & _ & _ & Hsub & Hdis & Htot &
        _ & _ & _ & _ & Htrip & Hpromo);
    [ vm_compute; reflexivity | ].
  exists trip, booking, db'.
  assert (trip = Trip.make 1 1000 5000 10 10 TripStatus.SCHEDULED)
    by (vm_compute in Ht; congruence).
  subst trip.
  split; [ exact Ht | split; [ exact Hs | ] ].
  assert (E1 : Booking.subtotal booking = of_Z 150)
    by (rewrite Hsub; vm_compute; reflexivity).
  split; [ exact E1 | ].
  assert (E2 : Booking.discount_amount booking = of_Z 15)
    by (rewrite Hdis, E1; vm_compute; reflexivity).
  split; [ exact E2 | ].
  split; [ rewrite Htot, E1, E2; vm_compute; reflexivity | ].
  split; [ exact Htrip | ].
  change (applied_promo sample_db (sample_request [2; 3; 5] "save10"))
    with (Some SAVE10) in Hpromo.
  destruct Hpromo as [_ Hpromo]. exact Hpromo.
Defined.

(** ** The discount *)

Lemma hundredths_den_pos e : 0 < hundredths_den e.
Proof.
  unfold hundredths_den. destruct (0 <=? e) eqn:E; [lia |].
  apply Z.leb_gt in E. apply Z.pow_pos_nonneg; lia.
Qed.

(** Half-even and half-up select the same integer except on an exact tie
    whose lower neighbour is even, where half-even stays below. *)
Lemma div_half_even_up n d :
  0 < d ->
  div_half_even n d =
    if (2 * (n mod d) =? d) && Z.even (n / d)
    then div_half_up n d - 1 else div_half_up n d.
Proof.
  intros Hd. unfold div_half_even, div_half_up.
  pose proof (Z.mod_pos_bound n d Hd) as Hr.
  pose proof (Z.div_mod n d ltac:(lia)) as Hn.
  assert (Hup : (2 * n + d) / (2 * d) =
                n / d + (if d <=? 2 * (n mod d) then 1 else 0)).
  { destruct (Z.leb_spec d (2 * (n mod d))).
    - symmetry. apply (Z.div_unique _ _ _ (2 * (n mod d) - d)); nia.
    - symmetry. apply (Z.div_unique _ _ _ (2 * (n mod d) + d)); nia. }
  rewrite Hup.
  destruct (Z.ltb_spec (2 * (n mod d)) d), (Z.ltb_spec d (2 * (n mod d))),
    (Z.leb_spec d (2 * (n mod d))), (Z.eqb_spec (2 * (n mod d)) d);
    try lia; simpl; try lia.
  destruct (Z.even (n / d)); lia.
Qed.

(** The selected hundredth is within half a hundredth of the exact value. *)
Lemma div_half_even_near n d :
  0 < d -> 2 * Z.abs (n - div_half_even n d * d) <= d.
Proof.
  intros Hd. unfold div_half_even.
  pose proof (Z.mod_pos_bound n d Hd) as Hr.
  pose proof (Z.div_mod n d ltac:(lia)) as Hn.
  destruct (Z.ltb_spec (2 * (n mod d)) d); [nia |].
  destruct (Z.ltb_spec d (2 * (n mod d))); [nia |].
  destruct (Z.even (n / d)); nia.
Qed.

(** C7, as amended.  For a promo code whose cap, when set, is not stored as
    zero and an amount that is not negative, the discount is the one the
    specification words, with the rounding of Python's [round] in the place
    of half-up: 0 when [min_purchase_amount] is set and the amount is below
    it; otherwise [amount * (discount_percentage / 100)], capped at
    [max_discount_amount] when that is set, rounded to two decimals.  The
    rounding takes the exact binary value to the nearest hundredth and an
    exact tie to the even hundredth, so the result is the half-up one except
    on a tie above an even hundredth.  SAVE10 (10%, minimum 50, cap 20)
    gives 10 on 100, 20 on 300 and 0 on 40.  What the code does with a cap
    stored as zero is left out here; [calculate_discount_zero_cap] shows
    it. *)
Theorem calculate_discount_rounding (promo : PromoCode.t) (amount : float) :
  PromoCode.max_discount_amount promo <> Some 0 ->
  fltb amount (S754_zero false) = false ->
  PromoCode.calculate_discount promo amount =
    calculateDiscount_amended promo amount /\
  (forall s m e,
     round2 (S754_finite s m e) =
       match round_cents m e with
       | Zpos n => of_ratio s n 100
       | _ => S754_zero s
       end /\
     2 * Z.abs (hundredths_num m e - round_cents m e * hundredths_den e)
       <= hundredths_den e /\
     round_cents m e =
       if is_tie m e && Z.even (hundredths_num m e / hundredths_den e)
       then half_up_cents m e - 1 else half_up_cents m e) /\
  PromoCode.calculate_discount SAVE10 (of_Z 100) = of_Z 10 /\
  PromoCode.calculate_discount SAVE10 (of_Z 300) = of_Z 20 /\
  PromoCode.calculate_discount SAVE10 (of_Z 40) = S754_zero false.
Proof.
  intros Hcap Hpos.
  split; [| split; [| repeat split; vm_compute; reflexivity ]].
  - unfold PromoCode.calculate_discount, calculateDiscount_amended,
      below_minimum, capped_discount.
    assert (Hmin : match PromoCode.min_purchase_amount promo with
                   | Some m => negb (m =? 0) && fltb amount (of_decimal m 100)
                   | None => false
                   end =
                   match PromoCode.min_purchase_amount promo with
                   | Some m => fltb amount (of_decimal m 100)
                   | None => false
                   end).
    { destruct (PromoCode.min_purchase_amount promo) as [m |];
        [| reflexivity].
      destruct (Z.eqb_spec m 0) as [-> | _]; [| reflexivity].
      cbn [negb andb]. symmetry. exact Hpos. }
    rewrite Hmin.
    destruct (PromoCode.max_discount_amount promo) as [c |]; [| reflexivity].
    destruct (Z.eqb_spec c 0) as [-> | _]; [| reflexivity].
    exfalso. apply Hcap. reflexivity.
  - intros s m e. split; [reflexivity | split].
    + apply div_half_even_near. apply hundredths_den_pos.
    + unfold round_cents, half_up_cents, is_tie.
      apply div_half_even_up. apply hundredths_den_pos.
Qed.

Lemma calculate_discount_rounding_witness :
  PromoCode.calculate_discount SAVE10 (of_Z 100) =
    calculateDiscount_amended SAVE10 (of_Z 100).
Proof.
  apply (calculate_discount_rounding SAVE10 (of_Z 100)).
  - cbn. discriminate.
  - vm_compute. reflexivity.
Defined.

(** A cap stored as 0.00 (the admin route takes 0.004, the column keeps two
    decimals) fails the test [if self.max_discount_amount] and is skipped:
    10% of 100 gives 10 where a cap of zero allows nothing. *)
Lemma calculate_discount_zero_cap :
  PromoCode.calculate_discount ZERO_CAP (of_Z 100) = of_Z 10 /\
  calculateDiscount_amended ZERO_CAP (of_Z 100) = S754_zero false.
Proof. split; vm_compute; reflexivity. Qed.

(** C7, the claim as stated fails: on 1.25 at 10% the product is exactly
    0.125; the code answers 0.12 where half-up rounding gives 0.13. *)
Lemma calculate_discount_not_half_up :
  PromoCode.calculate_discount TEN_PERCENT (of_decimal 125 100) =
    of_decimal 12 100 /\
  calculateDiscount_spec TEN_PERCENT (of_decimal 125 100) =
    of_decimal 13 100 /\
  PromoCode.calculate_discount TEN_PERCENT (of_decimal 125 100) <>
    calculateDiscount_spec TEN_PERCENT (of_decimal 125 100).
Proof.
  split; [ vm_compute; reflexivity | ].
  split; [ vm_compute; reflexivity | ].
  vm_compute. discriminate.
Qed.

(** C2, the claim as stated fails: one seat at fare 10.01 and multiplier
    1.50 costs 15.015; the booking's subtotal is 15.02. *)
Lemma create_booking_subtotal_rounded :
  passes_validations fare_db 10 1 (sample_request [1] "") = true /\
  option_map Booking.subtotal
    (booking_of (fst (serve (create_booking 10 1 (sample_request [1] ""))
                            fare_db))) =
    Some (of_decimal 1502 100) /\
  fsum (map (Seat.calculate_price (Trip.make 1 1000 1001 1 1
                                     TripStatus.SCHEDULED))
            (requested_seats fare_db (sample_request [1] ""))) =
    of_decimal 15015 1000 /\
  of_decimal 1502 100 <> of_decimal 15015 1000.
Proof.
  split; [ vm_compute; reflexivity | ].
  split; [ vm_compute; reflexivity | ].
  split; [ vm_compute; reflexivity | ].
  vm_compute. discriminate.
Qed.

(** ** cancel_booking, step by step *)

Ltac failed_cancel Hc Hr :=
  split; [ eauto | split; [ reflexivity | ] ];
  unfold can_cancel; cbn [working committed] in *;
  use_checks; cbn [andb negb]; rewrite ?andb_false_r; reflexivity.

Lemma cancel_booking_run db now uid bid res s' :
  cancel_booking now uid bid (mkSession db db) = (res, s') ->
  match res with
  | inl r =>
      (exists code e, r = Error code e) /\ s' = mkSession db db /\
      can_cancel db now uid bid = false
  | inr r =>
      can_cancel db now uid bid = true /\
      exists booking trip,
        get_booking db bid = Some booking /\
        get_trip db (Booking.trip_id booking) = Some trip /\
        r = Reply 200 "Booking cancelled successfully"
              (get_booking (after_cancel db booking trip) bid) /\
        s' = mkSession (after_cancel db booking trip)
                       (after_cancel db booking trip)
  end.
Proof.
  intros H. unfold cancel_booking in H.
  destruct res as [r | r].
  - repeat (stop_with H failed_cancel).
    all: try (repeat (stop_with H failed_cancel)).
    all: repeat match type of H with
         | (if ?c then _ else _) _ = _ => destruct c
         | (match ?x with Some _ => _ | None => _ end) _ = _ => destruct x
         end; discriminate H.
  - repeat (step_in H).
    apply ret_inr in H. destruct H as [-> ->].
    split.
    + unfold can_cancel. use_checks. reflexivity.
    + match goal with
      | Hb : get_booking db bid = Some ?b,
        Ht : get_trip db (Booking.trip_id ?b) = Some ?t |- _ =>
          exists b, t; split; [exact Hb | split; [exact Ht |]];
          assert (E : working s0 = after_cancel db b t)
      end.
      { unfold after_cancel, this_booking, truthy in *.
        match goal with
        | |- context [Booking.promo_code_id ?b] =>
            destruct (Booking.promo_code_id b) as [pid |];
            [ destruct (negb (pid =? 0)) | ]
        end.
        all: repeat match goal with
        | Hx : (if ?c then _ else _) _ = (inr _, _) |- _ => destruct c
        | Hx : (match ?x with Some _ => _ | None => _ end) _ = (inr _, _) |- _ =>
            destruct x
        | Hx : write _ _ = (inr _, _) |- _ => apply write_inr in Hx; subst
        | Hx : ret _ _ = (inr _, _) |- _ =>
            apply ret_inr in Hx; destruct Hx as [_ Hx]; subst
        end; reflexivity. }
      cbn [working committed]. rewrite E. split; reflexivity.
Qed.


Lemma cancel_booking_served db now uid bid :
  (can_cancel db now uid bid = true /\
   exists booking trip,
     get_booking db bid = Some booking /\
     get_trip db (Booking.trip_id booking) = Some trip /\
     serve (cancel_booking now uid bid) db =
       (Reply 200 "Booking cancelled successfully"
              (get_booking (after_cancel db booking trip) bid),
        after_cancel db booking trip)) \/
  (can_cancel db now uid bid = false /\
   exists code e, serve (cancel_booking now uid bid) db = (Error code e, db)).
Proof.
  unfold serve.
  destruct (cancel_booking now uid bid (mkSession db db)) as [res s] eqn:H.
  apply cancel_booking_run in H. destruct res as [r | r].
  - right. destruct H as ((code & e & ->) & -> & Hv). eauto.
  - left. destruct H as (Hv & b & t & Hb & Ht & -> & ->).
    split; [exact Hv |]. exists b, t. auto.
Qed.

(** ** What [after_cancel] leaves in each table *)

Lemma seats_after_cancel db b t :
  seats (after_cancel db b t) =
  update_where (held_by (Booking.id b)) release (seats db).
Proof.
  unfold after_cancel.
  destruct (PaymentStatus.eqb (Booking.payment_status b) PaymentStatus.PAID),
    (Booking.promo_code_id b) as [pid |];
    try destruct (negb (pid =? 0)); try destruct (get_promo_code db pid);
    reflexivity.
Qed.

Lemma trips_after_cancel db b t :
  trips (after_cancel db b t) =
  update_where (fun x => Trip.id x =? Trip.id t)
    (fun x => Trip.with_available_seats
                (Trip.available_seats x + Booking.num_seats b) x)
    (trips db).
Proof.
  unfold after_cancel.
  destruct (PaymentStatus.eqb (Booking.payment_status b) PaymentStatus.PAID),
    (Booking.promo_code_id b) as [pid |];
    try destruct (negb (pid =? 0)); try destruct (get_promo_code db pid);
    reflexivity.
Qed.

Lemma bookings_after_cancel db b t :
  bookings (after_cancel db b t) = map (cancelled_row b) (bookings db).
Proof.
  assert (E : forall l,
    update_where (this_booking b)
      (Booking.with_payment_status PaymentStatus.REFUNDED)
      (update_where (this_booking b)
         (Booking.with_booking_status BookingStatus.CANCELLED) l) =
    map (fun x => if this_booking b x
                  then Booking.with_payment_status PaymentStatus.REFUNDED
                         (Booking.with_booking_status BookingStatus.CANCELLED x)
                  else x) l).
  { intros l. unfold update_where. rewrite map_map. apply map_ext.
    intros x. unfold this_booking. simpl.
    destruct (Booking.id x =? Booking.id b) eqn:Hx; simpl; rewrite Hx;
      reflexivity. }
  unfold after_cancel, cancelled_row.
  destruct (PaymentStatus.eqb (Booking.payment_status b) PaymentStatus.PAID),
    (Booking.promo_code_id b) as [pid |];
    try destruct (negb (pid =? 0)); try destruct (get_promo_code db pid);
    cbn [bookings with_bookings with_seats with_trips with_promo_codes];
    rewrite ?E; reflexivity.
Qed.

Lemma next_booking_id_after_cancel db b t :
  next_booking_id (after_cancel db b t) = next_booking_id db.
Proof.
  unfold after_cancel.
  destruct (PaymentStatus.eqb (Booking.payment_status b) PaymentStatus.PAID),
    (Booking.promo_code_id b) as [pid |];
    try destruct (negb (pid =? 0)); try destruct (get_promo_code db pid);
    reflexivity.
Qed.

Lemma promo_codes_after_cancel db b t :
  promo_codes (after_cancel db b t) =
  match Booking.promo_code_id b with
  | Some pid =>
      if negb (pid =? 0) then
        match get_promo_code db pid with
        | Some promo =>
            update_where (fun q => PromoCode.id q =? PromoCode.id promo)
              (fun q => PromoCode.with_used_count
                          (Z.max 0 (PromoCode.used_count q - 1)) q)
              (promo_codes db)
        | None => promo_codes db
        end
      else promo_codes db
  | None => promo_codes db
  end.
Proof.
  unfold after_cancel.
  destruct (PaymentStatus.eqb (Booking.payment_status b) PaymentStatus.PAID),
    (Booking.promo_code_id b) as [pid |];
    try destruct (negb (pid =? 0)); try destruct (get_promo_code db pid);
    reflexivity.
Qed.

(** ** Looking up the booking just created *)

Lemma find_app_last {A} (p : A -> bool) (l : list A) (x : A) :
  find p (l ++ [x]) =
  match find p l with
  | Some y => Some y
  | None => if p x then Some x else None
  end.
Proof.
  induction l as [| y l IH]; simpl; [reflexivity |].
  destruct (p y); [reflexivity | exact IH].
Qed.

Lemma fresh_not_found db :
  booking_ids_fresh db = true -> get_booking db (next_booking_id db) = None.
Proof.
  unfold booking_ids_fresh, get_booking. intros H.
  apply andb_true_iff in H. destruct H as [_ H].
  destruct (find _ (bookings db)) as [b |] eqn:E; [| reflexivity].
  apply find_some in E. destruct E as [Hin Hid].
  rewrite forallb_forall in H. specialize (H b Hin).
  apply andb_true_iff in H. destruct H as [_ H].
  apply Z.ltb_lt in H. apply Z.eqb_eq in Hid. lia.
Qed.

Lemma get_new_booking db uid trip data :
  booking_ids_fresh db = true ->
  get_booking (after_create db uid trip data) (next_booking_id db) =
  Some (new_booking db uid trip data).
Proof.
  intros Hf. unfold get_booking. rewrite bookings_after_create.
  rewrite find_app_last. fold (get_booking db (next_booking_id db)).
  rewrite (fresh_not_found db Hf). cbn [new_booking Booking.id].
  rewrite Z.eqb_refl. reflexivity.
Qed.

Lemma get_trip_after_create db uid trip data :
  get_trip db (trip_id data) = Some trip ->
  get_trip (after_create db uid trip data) (trip_id data) =
  Some (Trip.with_available_seats
          (Trip.available_seats trip - zlength (seat_ids data)) trip).
Proof.
  intros Ht. unfold get_trip. rewrite trips_after_create.
  rewrite find_update_where by reflexivity.
  fold (get_trip db (trip_id data)). rewrite Ht. simpl.
  rewrite Z.eqb_refl. reflexivity.
Qed.

(** C4.  Round trip: creating a booking for the seats [S] of a request on a
    trip with [A] available seats leaves [A - |S|]; cancelling that booking
    before departure succeeds, restores [A] and leaves every seat of [S]
    available with no booking reference. *)
Theorem create_then_cancel_round_trip db now uid data trip now' :
  passes_validations db now uid data = true ->
  booking_ids_fresh db = true ->
  get_trip db (trip_id data) = Some trip ->
  (Trip.departure_time trip <? now') = false ->
  exists booking db1 reply db2,
    serve (create_booking now uid data) db =
      (Reply 201 "Booking created successfully" (Some booking), db1) /\
    option_map Trip.available_seats (get_trip db1 (trip_id data)) =
      Some (Trip.available_seats trip - zlength (seat_ids data)) /\
    serve (cancel_booking now' uid (Booking.id booking)) db1 =
      (Reply 200 "Booking cancelled successfully" reply, db2) /\
    option_map Trip.available_seats (get_trip db2 (trip_id data)) =
      Some (Trip.available_seats trip) /\
    Forall (fun s => selected (seat_ids data) (trip_id data) s = true ->
                     Seat.status s = SeatStatus.AVAILABLE /\
                     Seat.booking_id s = None)
           (seats db2) /\
    zlength (filter (selected (seat_ids data) (trip_id data)) (seats db2)) =
      zlength (seat_ids data).
Proof.
  intros Hv Hf Ht Hdep.
  destruct (create_booking_served db now uid data)
    as [(_ & trip0 & Ht0 & Hc) | (Hv' & _)]; [| congruence].
  assert (trip0 = trip) by congruence. subst trip0.
  set (db1 := after_create db uid trip data) in *.
  set (nb := new_booking db uid trip data) in *.
  assert (Hid : Booking.id nb = next_booking_id db) by reflexivity.
  assert (Hb : get_booking db1 (Booking.id nb) = Some nb)
    by (rewrite Hid; apply get_new_booking; exact Hf).
  assert (Ht1 : get_trip db1 (Booking.trip_id nb) =
                Some (Trip.with_available_seats
                        (Trip.available_seats trip - zlength (seat_ids data))
                        trip))
    by (apply get_trip_after_create; exact Ht).
  destruct (cancel_booking_served db1 now' uid (Booking.id nb))
    as [(_ & b & t & Hb' & Ht' & Hs) | (Hno & _)].
  - assert (b = nb) by congruence. subst b.
    rewrite Ht1 in Ht'. injection Ht' as <-.
    exists nb, db1. eexists. eexists.
    split; [exact Hc |]. split.
    { change (trip_id data) with (Booking.trip_id nb). rewrite Ht1.
      reflexivity. }
    split; [exact Hs |]. split; [| split].
    + unfold get_trip. rewrite trips_after_cancel.
      rewrite find_update_where by reflexivity.
      change (find (fun t => Trip.id t =? trip_id data) (trips db1))
        with (get_trip db1 (Booking.trip_id nb)).
      rewrite Ht1. cbn. rewrite Z.eqb_refl. cbn. f_equal. lia.
    + apply Forall_forall. intros s Hs2 Hsel.
      rewrite seats_after_cancel in Hs2.
      apply In_update_where in Hs2. destruct Hs2 as (x & Hx & ->).
      unfold db1 in Hx. rewrite seats_after_create in Hx.
      apply In_update_where in Hx. destruct Hx as (x0 & _ & ->).
      destruct (selected (seat_ids data) (trip_id data) x0) eqn:E0.
      * assert (Eh : held_by (Booking.id nb)
                       (AdminBookings.rebook (next_booking_id db) x0) = true)
          by (rewrite Hid; unfold held_by; cbn; apply Z.eqb_refl).
        rewrite Eh. split; reflexivity.
      * destruct (held_by (Booking.id nb) x0);
          [ change (selected (seat_ids data) (trip_id data) x0 = true) in Hsel
          | ]; congruence.
    + rewrite seats_after_cancel.
      rewrite filter_update_where by reflexivity.
      rewrite zlength_update_where.
      unfold db1. rewrite seats_after_create.
      rewrite filter_update_where by reflexivity.
      rewrite zlength_update_where.
      unfold passes_validations in Hv. rewrite Ht in Hv.
      unfold seats_reservable in Hv.
      repeat match goal with
             | Hx : _ && _ = true |- _ => apply andb_true_iff in Hx; destruct Hx
             end.
      apply Z.eqb_eq. assumption.
  - exfalso. unfold can_cancel in Hno. rewrite Hb, Ht1 in Hno.
    cbn in Hno. rewrite Z.eqb_refl, Hdep in Hno. discriminate.
Qed.

Lemma create_then_cancel_round_trip_witness :
  exists booking db1 reply db2,
    serve (create_booking 10 1 (sample_request [2; 3; 5] "")) sample_db =
      (Reply 201 "Booking created successfully" (Some booking), db1) /\
    option_map Trip.available_seats (get_trip db1 1) = Some 7 /\
    serve (cancel_booking 20 1 (Booking.id booking)) db1 =
      (Reply 200 "Booking cancelled successfully" reply, db2) /\
    option_map Trip.available_seats (get_trip db2 1) = Some 10 /\
    Forall (fun s => selected [2; 3; 5] 1 s = true ->
                     Seat.status s = SeatStatus.AVAILABLE /\
                     Seat.booking_id s = None)
           (seats db2) /\
    zlength (filter (selected [2; 3; 5] 1) (seats db2)) = 3.
Proof.
  apply (create_then_cancel_round_trip sample_db 10 1
           (sample_request [2; 3; 5] "")
           (Trip.make 1 1000 5000 10 10 TripStatus.SCHEDULED) 20);
    vm_compute; reflexivity.
Defined.

(** ** Re-activation of a cancelled booking *)

(** C1, at the failing input.  The sample trip has ten seats, none booked.
    The counter agrees with the seats before the booking, after it (7 left,
    3 booked) and after its cancellation (10 left).  The admin update that
    moves the cancelled booking back to [confirmed] answers 200, lowers the
    counter to 7 and books no seat: the counter no longer equals
    [total_seats] minus the booked seats. *)
Theorem reactivation_breaks_counter :
  counters_ok sample_db = true /\
  counters_ok booked_db = true /\
  option_map Trip.available_seats (get_trip booked_db 1) = Some 7 /\
  counters_ok cancelled_db = true /\
  booking_seats cancelled_db 1 = [] /\
  fst (serve reactivate cancelled_db) =
    Reply 200 "Booking status updated successfully"
          (get_booking (snd (serve reactivate cancelled_db)) 1) /\
  option_map Trip.available_seats
    (get_trip (snd (serve reactivate cancelled_db)) 1) = Some 7 /\
  booked_count (snd (serve reactivate cancelled_db)) 1 = 0 /\
  counters_ok (snd (serve reactivate cancelled_db)) = false.
Proof. repeat split; vm_compute; reflexivity. Qed.

(** C5, at the failing inputs.  Re-activating the cancelled booking 1 while
    its seats 2, 3 and 5 are free re-reserves none of them (all ten seats
    stay available) although the counter drops by 3.  Re-activating it after
    seats 2 and 3 went to booking 2 does not fail: it answers 200, seats 2
    and 3 stay with booking 2, and the counter drops from 8 to 5. *)
Theorem reactivation_ignores_seats :
  seat_states (snd (serve reactivate cancelled_db)) = seat_states sample_db /\
  option_map Booking.booking_status
    (get_booking (snd (serve reactivate cancelled_db)) 1) =
    Some BookingStatus.CONFIRMED /\
  option_map Trip.available_seats (get_trip rebooked_db 1) = Some 8 /\
  map Seat.id (booking_seats rebooked_db 2) = [2; 3] /\
  fst (serve reactivate rebooked_db) =
    Reply 200 "Booking status updated successfully"
          (get_booking (snd (serve reactivate rebooked_db)) 1) /\
  seat_states (snd (serve reactivate rebooked_db)) = seat_states rebooked_db /\
  option_map Trip.available_seats
    (get_trip (snd (serve reactivate rebooked_db)) 1) = Some 5 /\
  booked_count (snd (serve reactivate rebooked_db)) 1 = 2.
Proof. repeat split; vm_compute; reflexivity. Qed.

(** ** Payment status of a cancelled booking *)

(** The user's own payment update refuses a cancelled booking and writes
    nothing. *)
Lemma user_payment_update_refused db uid bid status booking :
  get_booking db bid = Some booking ->
  is_cancelled booking = true ->
  exists code e,
    serve (Bookings.update_payment_status uid bid status) db =
    (Error code e, db).
Proof.
  intros Hb Hc. unfold serve.
  destruct (Bookings.update_payment_status uid bid status (mkSession db db))
    as [[r | r] s] eqn:H; unfold Bookings.update_payment_status in H.
  - repeat (stop_with H ltac:(fun _ Hr => subst; eauto)).
    discriminate H.
  - exfalso. repeat (step_in H).
    match goal with
    | Hx : get_booking db bid = Some ?b, Hy : negb (is_cancelled ?b) = true
      |- _ => assert (b = booking) by congruence; subst b;
              rewrite Hc in Hy; discriminate Hy
    end.
Qed.

(** C6, at the failing inputs.  Booking 1 is cancelled and unpaid.  The
    user's payment update is refused (400).  The admin payment update to
    [paid] answers 200 and leaves the booking cancelled and paid.  A gateway
    success for a payment started before the cancellation does the same. *)
Theorem cancelled_booking_becomes_paid :
  statuses cancelled_db =
    [(1, BookingStatus.CANCELLED, PaymentStatus.UNPAID)] /\
  serve (Bookings.update_payment_status 1 1 "paid") cancelled_db =
    (Error 400 "Cannot update payment for a cancelled booking", cancelled_db) /\
  fst (serve (admin_required 2
                (AdminBookings.update_payment_status 1 (Some "paid")))
             cancelled_db) =
    Reply 200 "Payment status updated successfully"
      (Some (Booking.make 1 1 1 None (of_Z 150) (S754_zero false) (of_Z 150)
               BookingStatus.CANCELLED PaymentStatus.PAID 3)) /\
  statuses (snd (serve (admin_required 2
                          (AdminBookings.update_payment_status 1 (Some "paid")))
                       cancelled_db)) =
    [(1, BookingStatus.CANCELLED, PaymentStatus.PAID)] /\
  statuses payment_pending_db =
    [(1, BookingStatus.CANCELLED, PaymentStatus.UNPAID)] /\
  statuses (snd (serve (Payments.process_payment 1 1 true)
                       payment_pending_db)) =
    [(1, BookingStatus.CANCELLED, PaymentStatus.PAID)].
Proof. repeat split; vm_compute; reflexivity. Qed.

(** ** update_seat, step by step *)

Lemma update_seat_served db tid sid data r db' :
  serve (AdminTrips.update_seat tid sid data) db = (r, db') ->
  db' = db \/
  exists seat,
    find (this_seat tid sid) (seats db) = Some seat /\
    db' = after_update_seat db tid sid data /\
    (forall st, requested_status data = Some st ->
                SeatStatus.eqb (Seat.status seat) SeatStatus.BOOKED &&
                truthy (Seat.booking_id seat) = false).
Proof.
  unfold serve, after_update_seat, requested_status.
  destruct (AdminTrips.update_seat tid sid data (mkSession db db))
    as [[r0 | r0] s] eqn:H; intros E; inversion E; subst; clear E;
    unfold AdminTrips.update_seat in H;
    fold (this_seat tid sid) in H;
    destruct (AdminTrips.seat_class data) as [v |];
    destruct (AdminTrips.status data) as [w |].
  - left. repeat (stop_with H ltac:(fun _ _ => reflexivity)). discriminate H.
  - left. repeat (stop_with H ltac:(fun _ _ => reflexivity)). discriminate H.
  - left. repeat (stop_with H ltac:(fun _ _ => reflexivity)). discriminate H.
  - left. repeat (stop_with H ltac:(fun _ _ => reflexivity)). discriminate H.
  - right. repeat (step_in H). apply ret_inr in H. destruct H as [-> ->].
    eexists. split; [eassumption |]. use_checks.
    split; [reflexivity |]. intros st Hst. injection Hst as <-.
    match goal with
    | Hx : negb ?g = true |- _ => apply negb_true_iff in Hx; exact Hx
    end.
  - right. repeat (step_in H). apply ret_inr in H. destruct H as [-> ->].
    eexists. split; [eassumption |]. use_checks.
    split; [reflexivity |]. intros st Hst. discriminate Hst.
  - right. repeat (step_in H). apply ret_inr in H. destruct H as [-> ->].
    eexists. split; [eassumption |]. use_checks.
    split; [reflexivity |]. intros st Hst. injection Hst as <-.
    match goal with
    | Hx : negb ?g = true |- _ => apply negb_true_iff in Hx; exact Hx
    end.
  - right. repeat (step_in H). discriminate.
Qed.

(** ** The seat back-reference *)

Lemma admin_required_served uid (h : M Response) db r db' :
  serve (admin_required uid h) db = (r, db') ->
  db' = db \/ serve h db = (r, db').
Proof.
  unfold serve.
  destruct (admin_required uid h (mkSession db db)) as [[r0 | r0] s] eqn:H;
    intros E; inversion E; subst; clear E; unfold admin_required in H.
  - repeat (stop_with H ltac:(fun _ _ => left; reflexivity)).
    right. rewrite H. reflexivity.
  - repeat (step_in H). right. rewrite H. reflexivity.
Qed.

Lemma map_update_where {A B} (g : A -> B) (sel : A -> bool) f l :
  (forall x, g (f x) = g x) -> map g (update_where sel f l) = map g l.
Proof.
  intros Hg. unfold update_where. rewrite map_map. apply map_ext.
  intros x. destruct (sel x); auto.
Qed.

Lemma update_where_twice {A} (sel : A -> bool) f g l :
  (forall x, sel (g x) = sel x) ->
  update_where sel f (update_where sel g l) =
  update_where sel (fun x => f (g x)) l.
Proof.
  intros Hs. unfold update_where. rewrite map_map. apply map_ext.
  intros x. destruct (sel x) eqn:E; [rewrite Hs, E | rewrite E]; reflexivity.
Qed.

Lemma find_map_same {A} (p : A -> bool) (g : A -> A) l :
  (forall x, p (g x) = p x) -> find p (map g l) = option_map g (find p l).
Proof.
  intros Hp. induction l as [| x l IH]; simpl; [reflexivity |].
  rewrite Hp. destruct (p x); [reflexivity | exact IH].
Qed.

Lemma key_determines_row {A} (key : A -> Z) (l : list A) x y :
  NoDup (map key l) -> In x l -> In y l -> key x = key y -> x = y.
Proof.
  induction l as [| a l IH]; simpl; intros Hn Hx Hy E; [contradiction |].
  inversion Hn as [| ? ? Ha Hl]; subst.
  destruct Hx as [-> | Hx], Hy as [-> | Hy]; auto.
  - exfalso. apply Ha. rewrite E. apply in_map. exact Hy.
  - exfalso. apply Ha. rewrite <- E. apply in_map. exact Hx.
Qed.

(** [seat_ok] says what the specification says of a seat. *)
Lemma seat_ok_spec db s :
  seat_ok db s = true <->
  ((Seat.booking_id s <> None <-> Seat.status s = SeatStatus.BOOKED) /\
   forall b, Seat.booking_id s = Some b ->
     exists booking,
       get_booking db b = Some booking /\
       (Booking.booking_status booking = BookingStatus.PENDING \/
        Booking.booking_status booking = BookingStatus.CONFIRMED \/
        Booking.booking_status booking = BookingStatus.COMPLETED)).
Proof.
  unfold seat_ok, is_booked.
  destruct (Seat.booking_id s) as [b |]; split.
  - intros H. apply andb_true_iff in H. destruct H as [H1 H2].
    split.
    + split; intros _; [| discriminate].
      destruct (Seat.status s); simpl in H1; congruence.
    + intros b' E. injection E as <-.
      destruct (get_booking db b) as [bk |]; [| discriminate].
      exists bk. split; [reflexivity |].
      destruct (Booking.booking_status bk); simpl in H2; auto; discriminate.
  - intros [[H1 _] H2].
    rewrite (H1 ltac:(discriminate)). simpl.
    destruct (H2 b eq_refl) as (bk & -> & [E | [E | E]]); rewrite E;
      reflexivity.
  - intros H. split.
    + split; intros E; [congruence |].
      rewrite E in H. discriminate.
    + intros b E. discriminate.
  - intros [[_ H1] _].
    destruct (Seat.status s); simpl; try reflexivity.
    exfalso. specialize (H1 eq_refl). congruence.
Qed.

Lemma get_old_booking db uid trip data b bk :
  get_booking db b = Some bk ->
  get_booking (after_create db uid trip data) b = Some bk.
Proof.
  intros H. unfold get_booking. rewrite bookings_after_create.
  rewrite find_app_last. fold (get_booking db b). rewrite H. reflexivity.
Qed.

Lemma seats_ok_after_create db uid trip data :
  seats_ok db = true -> booking_ids_fresh db = true ->
  seats_ok (after_create db uid trip data) = true.
Proof.
  intros Hs Hf. unfold seats_ok in *. rewrite forallb_forall in *.
  intros s Hin. rewrite seats_after_create in Hin.
  apply In_update_where in Hin. destruct Hin as (x & Hx & ->).
  destruct (selected (seat_ids data) (trip_id data) x).
  - unfold seat_ok. cbn.
    rewrite (get_new_booking db uid trip data Hf). reflexivity.
  - specialize (Hs x Hx). unfold seat_ok in *.
    destruct (Seat.booking_id x) as [b |]; [| exact Hs].
    apply andb_true_iff in Hs. destruct Hs as [-> Hs]. simpl.
    destruct (get_booking db b) as [bk |] eqn:E; [| discriminate].
    rewrite (get_old_booking db uid trip data b bk E). exact Hs.
Qed.

Lemma fresh_after_create db uid trip data :
  booking_ids_fresh db = true ->
  booking_ids_fresh (after_create db uid trip data) = true.
Proof.
  unfold booking_ids_fresh. intros H.
  apply andb_true_iff in H. destruct H as [H0 H].
  rewrite next_booking_id_after_create, bookings_after_create.
  apply Z.ltb_lt in H0.
  apply andb_true_iff. split; [apply Z.ltb_lt; lia |].
  rewrite forallb_app. apply andb_true_iff. split.
  - rewrite forallb_forall in *. intros b Hb. specialize (H b Hb).
    apply andb_true_iff in H. destruct H as [H1 H2].
    apply Z.ltb_lt in H2. rewrite H1. apply Z.ltb_lt. lia.
  - cbn. rewrite andb_true_r. apply andb_true_iff.
    split; apply Z.ltb_lt; lia.
Qed.

Lemma unique_after_create db uid trip data :
  seat_ids_unique (after_create db uid trip data) = seat_ids_unique db.
Proof.
  unfold seat_ids_unique. rewrite seats_after_create.
  rewrite map_update_where by reflexivity. reflexivity.
Qed.

Lemma cancelled_row_id b x : Booking.id (cancelled_row b x) = Booking.id x.
Proof.
  unfold cancelled_row.
  destruct (this_booking b x),
    (PaymentStatus.eqb (Booking.payment_status b) PaymentStatus.PAID);
    reflexivity.
Qed.

Lemma seats_ok_after_cancel db b t :
  seats_ok db = true -> seats_ok (after_cancel db b t) = true.
Proof.
  intros Hs. unfold seats_ok in *. rewrite forallb_forall in *.
  intros s Hin. rewrite seats_after_cancel in Hin.
  apply In_update_where in Hin. destruct Hin as (x & Hx & ->).
  destruct (held_by (Booking.id b) x) eqn:Hh; [reflexivity |].
  specialize (Hs x Hx). unfold seat_ok in *. unfold held_by in Hh.
  destruct (Seat.booking_id x) as [c |]; [| exact Hs].
  apply andb_true_iff in Hs. destruct Hs as [-> Hs]. simpl.
  unfold get_booking in *. rewrite bookings_after_cancel.
  rewrite find_map_same
    by (intros y; rewrite cancelled_row_id; reflexivity).
  destruct (find (fun b0 => Booking.id b0 =? c) (bookings db)) as [bk |] eqn:E;
    [| discriminate].
  simpl. apply find_some in E. destruct E as [_ E]. apply Z.eqb_eq in E.
  unfold cancelled_row, this_booking. rewrite E, Hh. exact Hs.
Qed.

Lemma forallb_map_same {A} (p : A -> bool) (g : A -> A) l :
  (forall x, p (g x) = p x) -> forallb p (map g l) = forallb p l.
Proof.
  intros Hp. induction l as [| x l IH]; simpl; [reflexivity |].
  rewrite Hp, IH. reflexivity.
Qed.

Lemma fresh_after_cancel db b t :
  booking_ids_fresh (after_cancel db b t) = booking_ids_fresh db.
Proof.
  unfold booking_ids_fresh.
  rewrite next_booking_id_after_cancel, bookings_after_cancel.
  f_equal. apply forallb_map_same.
  intros x. rewrite cancelled_row_id. reflexivity.
Qed.

Lemma unique_after_cancel db b t :
  seat_ids_unique (after_cancel db b t) = seat_ids_unique db.
Proof.
  unfold seat_ids_unique. rewrite seats_after_cancel.
  rewrite map_update_where by reflexivity. reflexivity.
Qed.

Lemma update_where_same {A} (sel : A -> bool) (l : list A) :
  update_where sel (fun x => x) l = l.
Proof.
  unfold update_where. rewrite <- (map_id l) at 2. apply map_ext.
  intros x. destruct (sel x); reflexivity.
Qed.

Lemma seats_after_update_seat db tid sid data :
  seats (after_update_seat db tid sid data) =
  update_where (this_seat tid sid) (updated_seat data) (seats db).
Proof.
  unfold after_update_seat, updated_seat.
  destruct (AdminTrips.seat_class data) as [v |];
    [ destruct (SeatClass.of_value (lower v)) | ];
    destruct (requested_status data); cbn [seats with_seats];
    rewrite ?update_where_twice by reflexivity;
    rewrite ?update_where_same; reflexivity.
Qed.

Lemma bookings_after_update_seat db tid sid data :
  bookings (after_update_seat db tid sid data) = bookings db /\
  next_booking_id (after_update_seat db tid sid data) = next_booking_id db.
Proof.
  unfold after_update_seat.
  destruct (AdminTrips.seat_class data) as [v |];
    [ destruct (SeatClass.of_value (lower v)) | ];
    destruct (requested_status data); split; reflexivity.
Qed.

Lemma fresh_reference_truthy db b bk :
  booking_ids_fresh db = true -> get_booking db b = Some bk ->
  truthy (Some b) = true.
Proof.
  unfold booking_ids_fresh, get_booking. intros H E.
  apply andb_true_iff in H. destruct H as [_ H].
  apply find_some in E. destruct E as [Hin Hid].
  rewrite forallb_forall in H. specialize (H bk Hin).
  apply andb_true_iff in H. destruct H as [H _].
  apply Z.ltb_lt in H. apply Z.eqb_eq in Hid. simpl.
  apply negb_true_iff. apply Z.eqb_neq. lia.
Qed.

Lemma seat_ok_same_bookings db db' s :
  bookings db' = bookings db -> seat_ok db' s = seat_ok db s.
Proof. intros E. unfold seat_ok, get_booking. rewrite E. reflexivity. Qed.

Lemma seats_ok_after_update_seat db tid sid data seat :
  seats_ok db = true -> booking_ids_fresh db = true ->
  seat_ids_unique db = true ->
  keeps_unbooked data = true ->
  find (this_seat tid sid) (seats db) = Some seat ->
  (forall st, requested_status data = Some st ->
              SeatStatus.eqb (Seat.status seat) SeatStatus.BOOKED &&
              truthy (Seat.booking_id seat) = false) ->
  seats_ok (after_update_seat db tid sid data) = true.
Proof.
  intros Hs Hf Hu Hk Hfind Hguard.
  assert (Hnd : NoDup (map Seat.id (seats db))).
  { apply has_duplicates_NoDup. unfold seat_ids_unique in Hu.
    apply negb_true_iff in Hu. exact Hu. }
  pose proof (find_some _ _ Hfind) as [Hseat Hthis].
  unfold seats_ok in *. rewrite forallb_forall in *.
  intros s Hin. rewrite seats_after_update_seat in Hin.
  apply In_update_where in Hin. destruct Hin as (x & Hx & ->).
  rewrite (seat_ok_same_bookings db)
    by apply (bookings_after_update_seat db tid sid data).
  pose proof (Hs x Hx) as Hok.
  destruct (this_seat tid sid x) eqn:Hsel; [| exact Hok].
  assert (x = seat).
  { apply (key_determines_row Seat.id (seats db)); auto.
    unfold this_seat in *.
    apply andb_true_iff in Hsel, Hthis.
    destruct Hsel as [Hsel _], Hthis as [Hthis _].
    apply Z.eqb_eq in Hsel, Hthis. congruence. }
  subst x. unfold seat_ok in *.
  unfold updated_seat, keeps_unbooked in *.
  destruct (requested_status data) as [st |] eqn:Est.
  - specialize (Hguard st eq_refl).
    assert (Hnone : Seat.booking_id seat = None).
    { destruct (Seat.booking_id seat) as [b |] eqn:Eb; [| reflexivity].
      exfalso. apply andb_true_iff in Hok. destruct Hok as [Hb Hl].
      destruct (get_booking db b) as [bk |] eqn:Eg; [| discriminate].
      rewrite (fresh_reference_truthy db b bk Hf Eg) in Hguard.
      unfold is_booked in Hb. rewrite Hb in Hguard. discriminate. }
    destruct (AdminTrips.seat_class data) as [v |];
      [ destruct (SeatClass.of_value (lower v)) | ];
      cbn [Seat.booking_id Seat.with_status Seat.with_seat_class];
      rewrite Hnone; destruct st; try reflexivity; discriminate.
  - destruct (AdminTrips.seat_class data) as [v |];
      [ destruct (SeatClass.of_value (lower v)) | ]; exact Hok.
Qed.

Lemma fresh_after_update_seat db tid sid data :
  booking_ids_fresh (after_update_seat db tid sid data) = booking_ids_fresh db.
Proof.
  unfold booking_ids_fresh.
  destruct (bookings_after_update_seat db tid sid data) as [-> ->].
  reflexivity.
Qed.

Lemma unique_after_update_seat db tid sid data :
  seat_ids_unique (after_update_seat db tid sid data) = seat_ids_unique db.
Proof.
  unfold seat_ids_unique. rewrite seats_after_update_seat.
  rewrite map_update_where; [reflexivity |].
  intros x. unfold updated_seat.
  destruct (AdminTrips.seat_class data) as [v |];
    [ destruct (SeatClass.of_value (lower v)) | ];
    destruct (requested_status data); reflexivity.
Qed.

Lemma seat_references_ok_iff db :
  seat_references_ok db = true <->
  seats_ok db = true /\ booking_ids_fresh db = true /\
  seat_ids_unique db = true.
Proof.
  unfold seat_references_ok. rewrite !andb_true_iff. tauto.
Qed.

(** C8, as amended.  Take a database where every seat has a booking
    reference exactly when it is booked, the referenced booking being
    pending, confirmed or completed (with fresh booking ids and unique seat
    ids).  Then the same holds after a booking create, after a booking
    cancel, and after an admin seat update that does not ask for the status
    [booked]. *)
Theorem seat_back_reference_preserved db :
  seat_references_ok db = true ->
  (forall s, In s (seats db) ->
     (Seat.booking_id s <> None <-> Seat.status s = SeatStatus.BOOKED) /\
     forall b, Seat.booking_id s = Some b ->
       exists booking,
         get_booking db b = Some booking /\
         (Booking.booking_status booking = BookingStatus.PENDING \/
          Booking.booking_status booking = BookingStatus.CONFIRMED \/
          Booking.booking_status booking = BookingStatus.COMPLETED)) /\
  (forall now uid data,
     seat_references_ok (snd (serve (create_booking now uid data) db)) = true) /\
  (forall now uid bid,
     seat_references_ok (snd (serve (cancel_booking now uid bid) db)) = true) /\
  (forall admin tid sid data,
     keeps_unbooked data = true ->
     seat_references_ok
       (snd (serve (admin_required admin (AdminTrips.update_seat tid sid data))
                   db)) = true).
Proof.
  intros Hok. pose proof Hok as Hall.
  apply seat_references_ok_iff in Hall. destruct Hall as (Hs & Hf & Hu).
  split; [| split; [| split]].
  - intros s Hin. apply seat_ok_spec.
    unfold seats_ok in Hs. rewrite forallb_forall in Hs. auto.
  - intros now uid data.
    destruct (create_booking_served db now uid data)
      as [(_ & trip & _ & ->) | (_ & code & e & ->)]; [| exact Hok].
    cbn [snd]. apply seat_references_ok_iff.
    rewrite unique_after_create.
    auto using seats_ok_after_create, fresh_after_create.
  - intros now uid bid.
    destruct (cancel_booking_served db now uid bid)
      as [(_ & b & t & _ & _ & ->) | (_ & code & e & ->)]; [| exact Hok].
    cbn [snd]. apply seat_references_ok_iff.
    rewrite unique_after_cancel, fresh_after_cancel.
    auto using seats_ok_after_cancel.
  - intros admin tid sid data Hk.
    destruct (serve (admin_required admin (AdminTrips.update_seat tid sid data))
                    db) as [r db'] eqn:E.
    cbn [snd]. apply admin_required_served in E.
    destruct E as [-> | E]; [exact Hok |].
    apply update_seat_served in E.
    destruct E as [-> | (seat & Hfind & -> & Hguard)]; [exact Hok |].
    apply seat_references_ok_iff.
    rewrite unique_after_update_seat, fresh_after_update_seat.
    eauto using seats_ok_after_update_seat.
Qed.

Lemma seat_back_reference_preserved_witness :
  seat_references_ok booked_db = true /\
  seat_references_ok
    (snd (serve (create_booking 30 1 (sample_request [1; 4] "")) booked_db))
    = true /\
  seat_references_ok (snd (serve (cancel_booking 20 1 1) booked_db)) = true /\
  seat_references_ok
    (snd (serve (admin_required 2
                   (AdminTrips.update_seat 1 4
                      (AdminTrips.mkSeatData None (Some "blocked"))))
                booked_db)) = true.
Proof.
  assert (H : seat_references_ok booked_db = true)
    by (vm_compute; reflexivity).
  split; [exact H |].
  destruct (seat_back_reference_preserved booked_db H)
    as (_ & Hc & Hx & Hu).
  split; [apply Hc | split; [apply Hx | apply Hu]].
  vm_compute. reflexivity.
Defined.

(** C8, the claim as stated fails: on the sample trip, where every seat is
    free and unreferenced, the admin seat update with status [booked]
    answers 200 and leaves seat 1 booked with no booking reference. *)
Lemma admin_books_seat_without_reference :
  seat_references_ok sample_db = true /\
  fst (serve mark_booked sample_db) =
    Reply 200 "Seat updated successfully" None /\
  hd_error (seat_states (snd (serve mark_booked sample_db))) =
    Some (1, SeatStatus.BOOKED, None) /\
  seats_ok (snd (serve mark_booked sample_db)) = false.
Proof. repeat split; vm_compute; reflexivity. Qed.

(** ** The usage count of a promo code *)

Section PromoCounter.

Variable c : string.
Hypothesis c_supplied : is_empty c = false.

(** What a successful create with code [c] does to the code. *)
Lemma create_with_code db now uid data b db1 p code msg :
  promo_code_str data = c ->
  promo_by_code db c = Some p ->
  booking_ids_fresh db = true ->
  serve (create_booking now uid data) db = (Reply code msg (Some b), db1) ->
  booking_ids_fresh db1 = true /\
  promo_by_code db1 c =
    Some (PromoCode.with_used_count (PromoCode.used_count p + 1) p) /\
  (forall L, PromoCode.usage_limit p = Some L ->
             PromoCode.used_count p + 1 <= L) /\
  get_booking db1 (Booking.id b) = Some b /\
  Booking.promo_code_id b = Some (PromoCode.id p) /\
  (forall i x, get_booking db i = Some x -> get_booking db1 i = Some x).
Proof.
  intros Hc Hp Hf Hs.
  destruct (create_booking_served db now uid data)
    as [(Hv & trip & Ht & Hs') | (_ & code' & e & Hs')];
    rewrite Hs' in Hs; [| discriminate].
  injection Hs as _ _ <- <-.
  assert (Ha : applied_promo db data = Some p).
  { unfold applied_promo. rewrite Hc, c_supplied. exact Hp. }
  split; [apply fresh_after_create; exact Hf |].
  split.
  { unfold promo_by_code. rewrite promo_codes_after_create, Ha.
    rewrite find_update_where by reflexivity.
    unfold promo_by_code in Hp. rewrite Hp. simpl.
    rewrite Z.eqb_refl. reflexivity. }
  split.
  { intros L HL.
    unfold passes_validations in Hv. rewrite Ht in Hv.
    unfold promo_checks in Hv. rewrite Hc, c_supplied, Hp in Hv.
    repeat match goal with
           | Hx : _ && _ = true |- _ => apply andb_true_iff in Hx; destruct Hx
           end.
    match goal with
    | Hx : fst (PromoCode.is_valid p now) = true |- _ =>
        unfold PromoCode.is_valid in Hx; rewrite HL in Hx;
        destruct (negb (PromoCode.is_active p)); [discriminate Hx |];
        destruct (now <? PromoCode.valid_from p); [discriminate Hx |];
        destruct (PromoCode.valid_until p <? now); [discriminate Hx |];
        destruct (Z.leb_spec L (PromoCode.used_count p)); [discriminate Hx |]
    end.
    lia. }
  split; [apply get_new_booking; exact Hf |].
  split.
  { unfold new_booking. cbn [Booking.promo_code_id]. rewrite Ha. reflexivity. }
  intros i x Hx. apply get_old_booking. exact Hx.
Qed.

(** What a successful cancel of a booking made with code [c] does to the
    code. *)
Lemma cancel_with_code db now uid bid b p r db1 code msg :
  promo_by_code db c = Some p ->
  PromoCode.id p <> 0 ->
  get_booking db bid = Some b ->
  Booking.promo_code_id b = Some (PromoCode.id p) ->
  serve (cancel_booking now uid bid) db = (Reply code msg r, db1) ->
  promo_by_code db1 c =
    Some (PromoCode.with_used_count
            (Z.max 0 (PromoCode.used_count p - 1)) p) /\
  (forall i x, get_booking db i = Some x ->
     exists x', get_booking db1 i = Some x' /\
                Booking.promo_code_id x' = Booking.promo_code_id x).
Proof.
  intros Hp Hid Hb Hpid Hs.
  destruct (cancel_booking_served db now uid bid)
    as [(_ & b' & t & Hb' & _ & Hs') | (_ & code' & e & Hs')];
    rewrite Hs' in Hs; [| discriminate].
  injection Hs as _ _ _ <-.
  assert (b' = b) by congruence. subst b'.
  split.
  - unfold promo_by_code. rewrite promo_codes_after_cancel, Hpid.
    apply Z.eqb_neq in Hid. rewrite Hid. cbn [negb].
    pose proof (find_some _ _ Hp) as [Hin _].
    destruct (get_promo_code db (PromoCode.id p)) as [q |] eqn:Eq.
    + pose proof (find_some _ _ Eq) as [_ Hq]. apply Z.eqb_eq in Hq.
      rewrite find_update_where by reflexivity.
      unfold promo_by_code in Hp. rewrite Hp. simpl.
      rewrite Hq, Z.eqb_refl. reflexivity.
    + exfalso. unfold get_promo_code in Eq.
      apply (find_none _ _ Eq) in Hin. rewrite Z.eqb_refl in Hin.
      discriminate.
  - intros i x Hx. unfold get_booking in *. rewrite bookings_after_cancel.
    rewrite find_map_same
      by (intros y; rewrite cancelled_row_id; reflexivity).
    rewrite Hx. simpl. eexists. split; [reflexivity |].
    unfold cancelled_row.
    destruct (this_booking b x),
      (PaymentStatus.eqb (Booking.payment_status b) PaymentStatus.PAID);
      reflexivity.
Qed.

(** [N] successful creates with the code raise its count by [N], within
    the limit, and every booking made refers to the code. *)
Lemma creates_raise_count reqs :
  forall db ids db1 p,
  Forall (fun r => promo_code_str (snd r) = c) reqs ->
  promo_by_code db c = Some p ->
  booking_ids_fresh db = true ->
  create_all reqs db = Some (ids, db1) ->
  booking_ids_fresh db1 = true /\
  promo_by_code db1 c =
    Some (PromoCode.with_used_count (PromoCode.used_count p + zlength reqs) p) /\
  (reqs <> [] -> forall L, PromoCode.usage_limit p = Some L ->
                 PromoCode.used_count p + zlength reqs <= L) /\
  (forall i, In i ids ->
     exists b, get_booking db1 i = Some b /\
               Booking.promo_code_id b = Some (PromoCode.id p)) /\
  (forall i x, get_booking db i = Some x -> get_booking db1 i = Some x).
Proof.
  induction reqs as [| [[now uid] data] rest IH];
    intros db ids db1 p Hall Hp Hf Hrun; simpl in Hrun.
  - injection Hrun as <- <-.
    split; [exact Hf |]. split.
    { rewrite Hp. destruct p. unfold zlength. simpl.
      rewrite Z.add_0_r. reflexivity. }
    split; [congruence |]. split; [intros i [] | auto].
  - apply Forall_cons_iff in Hall. destruct Hall as [Hc Hrest].
    cbn [snd] in Hc.
    destruct (serve (create_booking now uid data) db) as [r dbm] eqn:Hs.
    destruct r as [code msg [b |] | code e]; try discriminate.
    destruct (create_all rest dbm) as [[ids' db'] |] eqn:Hr; [| discriminate].
    injection Hrun as <- <-.
    destruct (create_with_code db now uid data b dbm p code msg Hc Hp Hf Hs)
      as (Hf1 & Hp1 & Hlim & Hnew & Hpid & Hold).
    destruct (IH dbm ids' db' _ Hrest Hp1 Hf1 Hr)
      as (Hf2 & Hp2 & Hlim2 & Hids & Hold2).
    cbn [PromoCode.used_count PromoCode.with_used_count PromoCode.id
         PromoCode.usage_limit] in *.
    assert (Hz : zlength ((now, uid, data) :: rest) = 1 + zlength rest)
      by (unfold zlength; simpl List.length; lia).
    split; [exact Hf2 |]. split.
    { rewrite Hp2, Hz. destruct p. unfold PromoCode.with_used_count.
      cbn [PromoCode.used_count PromoCode.id PromoCode.code
           PromoCode.discount_percentage PromoCode.max_discount_amount
           PromoCode.min_purchase_amount PromoCode.usage_limit
           PromoCode.usage_per_user PromoCode.valid_from
           PromoCode.valid_until PromoCode.is_active].
      do 2 f_equal. lia. }
    split.
    { intros _ L HL. rewrite Hz.
      destruct rest as [| r0 rest'].
      - unfold zlength. simpl. specialize (Hlim L HL). lia.
      - specialize (Hlim2 ltac:(discriminate) L HL). lia. }
    split.
    { intros i [<- | Hi].
      - exists b. split; [apply Hold2; exact Hnew | exact Hpid].
      - apply Hids. exact Hi. }
    intros i x Hx. apply Hold2. apply Hold. exact Hx.
Qed.

(** [M] successful cancels of bookings made with the code lower its count
    by [M], as long as the count covers them. *)
Lemma cancels_lower_count cs :
  forall db db2 p ids,
  promo_by_code db c = Some p ->
  PromoCode.id p <> 0 ->
  (forall i, In i ids ->
     exists b, get_booking db i = Some b /\
               Booking.promo_code_id b = Some (PromoCode.id p)) ->
  Forall (fun r => In (snd r) ids) cs ->
  zlength cs <= PromoCode.used_count p ->
  cancel_all cs db = Some db2 ->
  promo_by_code db2 c =
    Some (PromoCode.with_used_count (PromoCode.used_count p - zlength cs) p).
Proof.
  induction cs as [| [[now uid] bid] rest IH];
    intros db db2 p ids Hp Hid Hids Hall Hle Hrun; simpl in Hrun.
  - injection Hrun as <-. rewrite Hp. destruct p. unfold zlength. simpl.
    rewrite Z.sub_0_r. reflexivity.
  - apply Forall_cons_iff in Hall. destruct Hall as [Hin Hrest].
    cbn [snd] in Hin.
    destruct (serve (cancel_booking now uid bid) db) as [r dbm] eqn:Hs.
    destruct r as [code msg r | code e]; [| discriminate].
    destruct (Hids bid Hin) as (b & Hb & Hpid).
    destruct (cancel_with_code db now uid bid b p r dbm code msg
                Hp Hid Hb Hpid Hs) as (Hp1 & Hkeep).
    assert (Hz : zlength ((now, uid, bid) :: rest) = 1 + zlength rest)
      by (unfold zlength; simpl List.length; lia).
    pose proof (zlength_nonneg rest) as Hn.
    rewrite Hz in Hle.
    assert (Hids1 : forall i, In i ids ->
              exists b0, get_booking dbm i = Some b0 /\
                         Booking.promo_code_id b0 = Some (PromoCode.id p)).
    { intros i Hi. destruct (Hids i Hi) as (x & Hx & Hxp).
      destruct (Hkeep i x Hx) as (x' & Hx' & E).
      exists x'. split; [exact Hx' | rewrite E; exact Hxp]. }
    assert (Hle1 : zlength rest <=
                   PromoCode.used_count
                     (PromoCode.with_used_count
                        (Z.max 0 (PromoCode.used_count p - 1)) p))
      by (destruct p;
          cbn [PromoCode.used_count PromoCode.with_used_count] in *; lia).
    rewrite (IH dbm db2 _ ids Hp1 Hid Hids1 Hrest Hle1 Hrun).
    rewrite Hz. destruct p. unfold PromoCode.with_used_count.
    cbn [PromoCode.used_count PromoCode.id PromoCode.code
         PromoCode.discount_percentage PromoCode.max_discount_amount
         PromoCode.min_purchase_amount PromoCode.usage_limit
         PromoCode.usage_per_user PromoCode.valid_from
         PromoCode.valid_until PromoCode.is_active] in *.
    do 2 f_equal. lia.
Qed.

End PromoCounter.

(** The user's cancel conserves the counter: after [N] successful creates
    with a code followed by [M <= N] successful [cancel_booking] requests
    for bookings among those, the code's used_count is the one before plus
    [N - M] (so [N - M] from zero) and does not exceed usage_limit when that
    is set.  After the creates alone it is the one before plus [N]. *)
Theorem promo_counter_conservation c db p reqs ids db1 cs db2 :
  is_empty c = false ->
  promo_by_code db c = Some p ->
  PromoCode.id p <> 0 ->
  0 <= PromoCode.used_count p ->
  (forall L, PromoCode.usage_limit p = Some L -> PromoCode.used_count p <= L) ->
  booking_ids_fresh db = true ->
  Forall (fun r => promo_code_str (snd r) = c) reqs ->
  create_all reqs db = Some (ids, db1) ->
  Forall (fun r => In (snd r) ids) cs ->
  cancel_all cs db1 = Some db2 ->
  zlength cs <= zlength reqs ->
  used_count_of db1 c = Some (PromoCode.used_count p + zlength reqs) /\
  exists p2,
    promo_by_code db2 c = Some p2 /\
    PromoCode.used_count p2 =
      PromoCode.used_count p + zlength reqs - zlength cs /\
    0 <= PromoCode.used_count p2 /\
    (forall L, PromoCode.usage_limit p2 = Some L ->
               PromoCode.used_count p2 <= L).
Proof.
  intros Hc Hp Hid Hnn Hlim Hf Hreqs Hcreate Hcs Hcancel HMN.
  destruct (creates_raise_count c Hc reqs db ids db1 p Hreqs Hp Hf Hcreate)
    as (_ & Hp1 & Hlim1 & Hids & _).
  split; [unfold used_count_of; rewrite Hp1; reflexivity |].
  pose proof (zlength_nonneg cs) as Hm.
  assert (Hle : zlength cs <=
                PromoCode.used_count
                  (PromoCode.with_used_count
                     (PromoCode.used_count p + zlength reqs) p))
    by (destruct p; cbn [PromoCode.used_count PromoCode.with_used_count] in *;
        lia).
  pose proof (cancels_lower_count c cs db1 db2 _ ids Hp1 Hid Hids Hcs Hle
                Hcancel) as Hp2.
  eexists. split; [exact Hp2 |].
  destruct p.
  cbn [PromoCode.used_count PromoCode.with_used_count PromoCode.usage_limit]
    in *.
  split; [reflexivity |]. split; [lia |].
  intros L HL. destruct reqs as [| r0 reqs'].
  - specialize (Hlim L HL). unfold zlength in *. simpl in *. lia.
  - specialize (Hlim1 ltac:(discriminate) L HL). lia.
Qed.

Lemma promo_counter_conservation_witness :
  used_count_of promo_db "TWICE" = Some 0 /\
  exists db1 db2 p2,
    create_all [(10, 1, sample_request [1] "twice");
                (11, 3, sample_request [2] " Twice ")] promo_db =
      Some ([1; 2], db1) /\
    cancel_all [(20, 3, 2)] db1 = Some db2 /\
    used_count_of db1 "TWICE" = Some 2 /\
    promo_by_code db2 "TWICE" = Some p2 /\
    PromoCode.used_count p2 = 1.
Proof.
  split; [reflexivity |].
  destruct (create_all [(10, 1, sample_request [1] "twice");
                        (11, 3, sample_request [2] " Twice ")] promo_db)
    as [[ids db1] |] eqn:E1; [| vm_compute in E1; discriminate].
  assert (ids = [1; 2]) by (vm_compute in E1; congruence). subst ids.
  destruct (cancel_all [(20, 3, 2)] db1) as [db2 |] eqn:E2;
    [| vm_compute in E1; injection E1 as <-; vm_compute in E2; discriminate].
  assert (H3 : PromoCode.id TWICE <> 0) by (cbn; discriminate).
  assert (H4 : 0 <= PromoCode.used_count TWICE) by (cbn; lia).
  assert (H5 : forall L, PromoCode.usage_limit TWICE = Some L ->
                         PromoCode.used_count TWICE <= L)
    by (intros L HL; injection HL as <-; cbn; lia).
  assert (H7 : Forall (fun r : DateTime * Z * BookingData =>
                         promo_code_str (snd r) = "TWICE")
                 [(10, 1, sample_request [1] "twice");
                  (11, 3, sample_request [2] " Twice ")])
    by (repeat constructor).
  assert (H9 : Forall (fun r : DateTime * Z * Z => In (snd r) [1; 2])
                 [(20, 3, 2)])
    by (repeat constructor; cbn; auto).
  assert (H11 : zlength [(20, 3, 2)] <=
                zlength [(10, 1, sample_request [1] "twice");
                         (11, 3, sample_request [2] " Twice ")])
    by (vm_compute; discriminate).
  destruct (promo_counter_conservation "TWICE" promo_db TWICE _ _ _ _ _
              eq_refl eq_refl H3 H4 H5 eq_refl H7 E1 H9 E2 H11)
    as (Hu & p2 & Hp2 & Hc2 & _).
  exists db1, db2, p2. repeat split; assumption.
Defined.

(** C9, at the failing input.  The customer books three seats with SAVE10:
    one create, the count goes from 0 to 1.  An admin cancels the booking
    through the status update: the answer is 200 and the booking is
    cancelled, its seats are released, and the count is still 1 where one
    create and one cancellation leave 0.  The customer's own cancel of the
    same booking does bring it to 0. *)
Theorem admin_cancel_keeps_used_count :
  used_count_of sample_db "SAVE10" = Some 0 /\
  used_count_of promo_booked_db "SAVE10" = Some 1 /\
  option_map Booking.promo_code_id (get_booking promo_booked_db 1) =
    Some (Some 1) /\
  fst (serve admin_cancel promo_booked_db) =
    Reply 200 "Booking status updated successfully"
          (get_booking (snd (serve admin_cancel promo_booked_db)) 1) /\
  option_map Booking.booking_status
    (get_booking (snd (serve admin_cancel promo_booked_db)) 1) =
    Some BookingStatus.CANCELLED /\
  booking_seats (snd (serve admin_cancel promo_booked_db)) 1 = [] /\
  used_count_of (snd (serve admin_cancel promo_booked_db)) "SAVE10" =
    Some 1 /\
  used_count_of (snd (serve (cancel_booking 20 1 1) promo_booked_db))
    "SAVE10" = Some 0.
Proof. repeat split; vm_compute; reflexivity. Qed.

(** ** Per-user eligibility *)

Lemma bind_query {B} (k : DB -> M B) s : bind query k s = k (working s) s.
Proof. reflexivity. Qed.

Lemma bind_require_true {B} c code e (k : unit -> M B) s :
  c = true -> bind (require c code e) k s = k tt s.
Proof. intros ->. reflexivity. Qed.

Lemma bind_found_some {A B} (x : option A) a code e (k : A -> M B) s :
  x = Some a -> bind (found x code e) k s = k a s.
Proof. intros ->. reflexivity. Qed.

Lemma user_usage_count promo db uid :
  PromoCode.check_user_eligibility promo (bookings db) uid =
  match PromoCode.usage_per_user promo with
  | None => (true, "User is eligible")
  | Some k =>
      if k <=? user_usage db (PromoCode.id promo) uid then
        (false, "You have already used this promo code " ++
                str_of_Z (user_usage db (PromoCode.id promo) uid) ++
                " time(s)")
      else (true, "User is eligible")
  end.
Proof. reflexivity. Qed.

(** A request that gets as far as the eligibility check and fails it is
    answered with the eligibility message. *)
Lemma create_booking_ineligible db now uid data promo :
  reaches_eligibility db now uid data promo = true ->
  promo_by_code db (promo_code_str data) = Some promo ->
  fst (PromoCode.check_user_eligibility promo (bookings db) uid) = false ->
  serve (create_booking now uid data) db =
  (Error 400 (snd (PromoCode.check_user_eligibility promo (bookings db) uid)),
   db).
Proof.
  intros Hr Hp He.
  unfold reaches_eligibility, request_well_formed in Hr.
  destruct (get_trip db (trip_id data)) as [trip |] eqn:Ht;
    [| rewrite andb_false_r in Hr; discriminate].
  unfold trip_bookable, seats_reservable, requested_seats in Hr.
  rewrite <- no_unavailable_forallb in Hr.
  repeat match goal with
         | Hx : _ && _ = true |- _ => apply andb_true_iff in Hx; destruct Hx
         end.
  unfold serve, create_booking.
  rewrite bind_query. cbv beta zeta. cbn [working].
  repeat (rewrite bind_require_true by assumption; cbv beta zeta).
  rewrite (bind_found_some _ trip) by assumption. cbv beta zeta.
  repeat (rewrite bind_require_true by assumption; cbv beta zeta).
  fold (promo_code_str data).
  match goal with
  | Hx : negb (is_empty _) = true |- _ => apply negb_true_iff in Hx; rewrite Hx
  end.
  rewrite bind_assoc.
  rewrite (bind_found_some _ promo) by assumption. cbv beta zeta.
  rewrite bind_assoc.
  rewrite bind_require_true by assumption. cbv beta zeta.
  rewrite bind_assoc. unfold bind at 1. unfold require at 1.
  rewrite He. reflexivity.
Qed.

Lemma user_usage_after_cancel db b t pid uid :
  user_usage (after_cancel db b t) pid uid = user_usage db pid uid.
Proof.
  unfold user_usage. rewrite bookings_after_cancel.
  unfold zlength. f_equal.
  induction (bookings db) as [| x l IH]; simpl; [reflexivity |].
  assert (E : forall y, (Booking.user_id (cancelled_row b y) =? uid) &&
                match Booking.promo_code_id (cancelled_row b y) with
                | Some p => p =? pid
                | None => false
                end =
              (Booking.user_id y =? uid) &&
                match Booking.promo_code_id y with
                | Some p => p =? pid
                | None => false
                end).
  { intros y. unfold cancelled_row.
    destruct (this_booking b y),
      (PaymentStatus.eqb (Booking.payment_status b) PaymentStatus.PAID);
      reflexivity. }
  rewrite E.
  destruct ((Booking.user_id x =? uid) &&
            match Booking.promo_code_id x with
            | Some p => p =? pid
            | None => false
            end); simpl; rewrite IH; reflexivity.
Qed.

(** A cancel request, served or refused, leaves the code's identity and
    per-user limit and the user's count as they were. *)
Lemma cancel_keeps_usage db now' uid' bid c promo pid uid :
  promo_by_code db c = Some promo ->
  exists promo',
    promo_by_code (snd (serve (cancel_booking now' uid' bid) db)) c =
      Some promo' /\
    PromoCode.id promo' = PromoCode.id promo /\
    PromoCode.usage_per_user promo' = PromoCode.usage_per_user promo /\
    user_usage (snd (serve (cancel_booking now' uid' bid) db)) pid uid =
      user_usage db pid uid.
Proof.
  intros Hp.
  destruct (cancel_booking_served db now' uid' bid)
    as [(_ & b & t & _ & _ & ->) | (_ & code & e & ->)]; cbn [snd].
  - rewrite user_usage_after_cancel.
    unfold promo_by_code in *. rewrite promo_codes_after_cancel.
    destruct (Booking.promo_code_id b) as [q |];
      [ destruct (negb (q =? 0));
        [ destruct (get_promo_code db q) as [pr |] | ] | ];
      rewrite ?find_update_where by reflexivity; rewrite Hp; simpl;
      eexists; (split; [reflexivity |]);
      try destruct (PromoCode.id promo =? PromoCode.id pr);
      repeat split; reflexivity.
  - exists promo. auto.
Qed.

(** C10.  The per-user check counts the user's bookings that refer to the
    code whatever their status.  Once a user has [k] bookings with a code
    whose usage_per_user is [k], the check fails, before and after any
    sequence of cancel requests: a create by that user with the code is
    refused and writes nothing, and when it gets as far as the eligibility
    check the answer is the eligibility message. *)
Theorem per_user_limit_counts_cancelled db now uid data promo k cancels :
  is_empty (promo_code_str data) = false ->
  promo_by_code db (promo_code_str data) = Some promo ->
  PromoCode.usage_per_user promo = Some k ->
  k <= user_usage db (PromoCode.id promo) uid ->
  user_usage (serve_cancels cancels db) (PromoCode.id promo) uid =
    user_usage db (PromoCode.id promo) uid /\
  exists promo',
    promo_by_code (serve_cancels cancels db) (promo_code_str data) =
      Some promo' /\
    fst (PromoCode.check_user_eligibility promo'
           (bookings (serve_cancels cancels db)) uid) = false /\
    (exists code e,
       serve (create_booking now uid data) (serve_cancels cancels db) =
       (Error code e, serve_cancels cancels db)) /\
    (reaches_eligibility (serve_cancels cancels db) now uid data promo' = true ->
     serve (create_booking now uid data) (serve_cancels cancels db) =
       (Error 400 ("You have already used this promo code " ++
                   str_of_Z (user_usage db (PromoCode.id promo) uid) ++
                   " time(s)"), serve_cancels cancels db)).
Proof.
  intros Hc Hp Hk Hle.
  assert (Hinv : exists promo',
            promo_by_code (serve_cancels cancels db) (promo_code_str data) =
              Some promo' /\
            PromoCode.id promo' = PromoCode.id promo /\
            PromoCode.usage_per_user promo' = Some k /\
            user_usage (serve_cancels cancels db) (PromoCode.id promo) uid =
            user_usage db (PromoCode.id promo) uid).
  { unfold serve_cancels. revert db promo Hp Hk Hle.
    induction cancels as [| [[n u] b] rest IH]; intros db promo Hp Hk Hle.
    - exists promo. simpl. auto.
    - simpl.
      destruct (cancel_keeps_usage db n u b (promo_code_str data) promo
                  (PromoCode.id promo) uid Hp)
        as (p1 & Hp1 & Hid1 & Hu1 & Hcount1).
      destruct (IH _ p1 Hp1) as (p2 & Hp2 & Hid2 & Hu2 & Hcount2).
      + congruence.
      + rewrite Hid1, Hcount1. exact Hle.
      + exists p2. rewrite Hid1 in *.
        repeat split; try assumption; congruence. }
  destruct Hinv as (promo' & Hp' & Hid' & Hu' & Hcount).
  split; [exact Hcount |].
  exists promo'. split; [exact Hp' |].
  assert (He : PromoCode.check_user_eligibility promo'
                 (bookings (serve_cancels cancels db)) uid =
               (false, "You have already used this promo code " ++
                       str_of_Z (user_usage db (PromoCode.id promo) uid) ++
                       " time(s)")).
  { rewrite user_usage_count, Hu', Hid', Hcount.
    destruct (Z.leb_spec k (user_usage db (PromoCode.id promo) uid));
      [reflexivity | lia]. }
  split; [rewrite He; reflexivity |].
  split.
  - destruct (create_booking_served (serve_cancels cancels db) now uid data)
      as [(Hv & _) | (_ & H)]; [| exact H].
    exfalso. unfold passes_validations in Hv.
    destruct (request_well_formed _ uid data); [| discriminate].
    destruct (get_trip _ (trip_id data)) as [trip |]; [| discriminate].
    unfold promo_checks in Hv. rewrite Hc, Hp', He in Hv. cbn [fst andb] in Hv.
    rewrite andb_false_r, andb_false_r in Hv. discriminate.
  - intros Hr.
    rewrite (create_booking_ineligible _ now uid data promo' Hr Hp')
      by (rewrite He; reflexivity).
    rewrite He. reflexivity.
Qed.

Lemma per_user_limit_counts_cancelled_witness :
  user_usage twice_booked_db 1 1 = 2 /\
  statuses (serve_cancels [(20, 1, 1); (21, 1, 2)] twice_booked_db) =
    [(1, BookingStatus.CANCELLED, PaymentStatus.UNPAID);
     (2, BookingStatus.CANCELLED, PaymentStatus.UNPAID)] /\
  serve (create_booking 30 1 (sample_request [3] "twice"))
        (serve_cancels [(20, 1, 1); (21, 1, 2)] twice_booked_db) =
    (Error 400 "You have already used this promo code 2 time(s)",
     serve_cancels [(20, 1, 1); (21, 1, 2)] twice_booked_db).
Proof.
  split; [vm_compute; reflexivity |].
  split; [vm_compute; reflexivity |].
  assert (Hp : promo_by_code twice_booked_db
                 (promo_code_str (sample_request [3] "twice")) =
               Some (PromoCode.with_used_count 2 TWICE))
    by (vm_compute; reflexivity).
  assert (Hle : 2 <= user_usage twice_booked_db
                       (PromoCode.id (PromoCode.with_used_count 2 TWICE)) 1)
    by (vm_compute; discriminate).
  destruct (per_user_limit_counts_cancelled twice_booked_db 30 1
              (sample_request [3] "twice") (PromoCode.with_used_count 2 TWICE)
              2 [(20, 1, 1); (21, 1, 2)] eq_refl Hp eq_refl Hle)
    as (_ & promo' & Hp' & _ & _ & Hmsg).
  vm_compute in Hp'. injection Hp' as <-.
  apply Hmsg. vm_compute. reflexivity.
Defined.

(** ** Early returns commit nothing *)

Lemma keeps_clean {A} (m : M A) : keeps m -> clean m.
Proof. intros H s r s' E. exact (H s _ s' E). Qed.

Lemma keeps_ret {A} (a : A) : keeps (ret a).
Proof. intros s res s' E. inversion E. reflexivity. Qed.

Lemma keeps_reply {A} r : keeps (@reply A r).
Proof. intros s res s' E. inversion E. reflexivity. Qed.

Lemma keeps_query : keeps query.
Proof. intros s res s' E. inversion E. reflexivity. Qed.

Lemma keeps_write f : keeps (write f).
Proof. intros s res s' E. inversion E. reflexivity. Qed.

Lemma keeps_require c code e : keeps (require c code e).
Proof. destruct c; [apply keeps_ret | apply keeps_reply]. Qed.

Lemma keeps_found {A} (x : option A) code e : keeps (found x code e).
Proof. destruct x; [apply keeps_ret | apply keeps_reply]. Qed.

Lemma keeps_bind {A B} (m : M A) (k : A -> M B) :
  keeps m -> (forall a, keeps (k a)) -> keeps (bind m k).
Proof.
  intros Hm Hk s res s' E. unfold bind in E.
  destruct (m s) as [[r | a] s1] eqn:Em.
  - inversion E; subst. exact (Hm s _ _ Em).
  - rewrite (Hk a s1 _ _ E). exact (Hm s _ _ Em).
Qed.

Lemma clean_bind {A B} (m : M A) (k : A -> M B) :
  keeps m -> (forall a, clean (k a)) -> clean (bind m k).
Proof.
  intros Hm Hk s r s' E. unfold bind in E.
  destruct (m s) as [[r1 | a] s1] eqn:Em.
  - inversion E; subst. exact (Hm s _ _ Em).
  - rewrite (Hk a s1 _ _ E). exact (Hm s _ _ Em).
Qed.

(** After the commit a handler only reads and answers. *)
Lemma clean_commit_ret (r : Response) : clean (bind commit (fun _ => ret r)).
Proof. intros s r0 s' E. discriminate E. Qed.

Lemma clean_commit_query_ret (f : DB -> Response) :
  clean (bind commit (fun _ => bind query (fun db' => ret (f db')))).
Proof. intros s r0 s' E. discriminate E. Qed.

Ltac keeps_tac :=
  repeat first
    [ apply keeps_ret | apply keeps_reply | apply keeps_query
    | apply keeps_write | apply keeps_require | apply keeps_found
    | apply keeps_bind; [ | intros ? ]
    | match goal with
      | |- keeps (if ?c then _ else _) => destruct c
      | |- keeps (match ?x with Some _ => _ | None => _ end) => destruct x
      end ].

Ltac clean_tac :=
  repeat first
    [ apply clean_commit_ret
    | apply (clean_commit_query_ret _)
    | apply clean_bind; [ solve [keeps_tac] | intros ? ]
    | match goal with
      | |- clean (if ?c then _ else _) => destruct c
      | |- clean (match ?x with Some _ => _ | None => _ end) => destruct x
      end
    | apply keeps_clean; solve [keeps_tac] ].

Lemma served_clean (h : M Response) db r0 s :
  clean h -> h (mkSession db db) = (inl r0, s) -> committed s = db.
Proof. intros Hc E. exact (Hc _ _ _ E). Qed.

Ltac step_any :=
  match goal with
  | Hx : bind _ _ _ = (inr _, _) |- _ => step_in Hx
  end.

(** ** The admin handlers, step by step *)

Lemma update_booking_status_clean bid data :
  clean (AdminBookings.update_booking_status bid data).
Proof. unfold AdminBookings.update_booking_status. clean_tac. Qed.

Lemma delete_booking_clean bid : clean (AdminBookings.delete_booking bid).
Proof. unfold AdminBookings.delete_booking. clean_tac. Qed.

Lemma update_booking_status_served db bid data r db' :
  reactivates db bid data = false ->
  serve (AdminBookings.update_booking_status bid data) db = (r, db') ->
  db' = db \/
  exists b t new_status,
    get_booking db bid = Some b /\
    (BookingStatus.eqb new_status BookingStatus.CANCELLED &&
       negb (is_cancelled b) = true ->
     get_trip db (Booking.trip_id b) = Some t) /\
    is_cancelled b &&
      negb (BookingStatus.eqb new_status BookingStatus.CANCELLED) = false /\
    db' = after_status_update db b t new_status.
Proof.
  intros Hre. unfold serve.
  destruct (AdminBookings.update_booking_status bid data (mkSession db db))
    as [[r0 | r0] s] eqn:H; intros E; inversion E; subst; clear E.
  - left. eapply served_clean; [apply update_booking_status_clean | exact H].
  - right. unfold AdminBookings.update_booking_status in H.
    repeat (step_in H). apply ret_inr in H. destruct H as [-> ->].
    cbn [committed working].
    match goal with
    | Hb : get_booking db bid = Some ?b,
      Hn : BookingStatus.of_value _ = Some ?n |- _ =>
        assert (Hnot : is_cancelled b &&
                       negb (BookingStatus.eqb n BookingStatus.CANCELLED) = false)
          by (unfold reactivates in Hre; rewrite Hb in Hre;
              match goal with
              | Hd : data = Some _ |- _ => rewrite Hd, Hn in Hre
              end; exact Hre);
        exists b
    end.
    unfold after_status_update, this_booking, is_cancelled in *.
    match goal with
    | Hm : (if ?c then _ else _) _ = (inr _, _) |- _ =>
        destruct c eqn:Hc; [ | rewrite Hnot in Hm ]
    end.
    + repeat step_any.
      match goal with
      | Ht : get_trip db _ = Some ?t |- _ => exists t
      end.
      match goal with
      | Hn : BookingStatus.of_value _ = Some ?n |- _ => exists n
      end.
      split; [assumption |]. split; [intros _; assumption |].
      split; [exact Hnot |].
      rewrite Hc.
      match goal with
      | Hm : (if ?c then _ else _) _ = (inr _, _) |- _ =>
          destruct c;
          [ apply write_inr in Hm | apply ret_inr in Hm; destruct Hm as [_ Hm] ];
          subst; reflexivity
      end.
    + exists (Trip.make 0 0 0 0 0 TripStatus.SCHEDULED).
      match goal with
      | Hn : BookingStatus.of_value _ = Some ?n |- _ => exists n
      end.
      split; [assumption |].
      split; [intros Hx; rewrite Hc in Hx; discriminate Hx |].
      split; [exact Hnot |].
      rewrite Hc.
      match goal with
      | Hm : ret _ _ = (inr _, _) |- _ =>
          apply ret_inr in Hm; destruct Hm as [_ ->]
      end.
      reflexivity.
Qed.

Lemma delete_booking_served db bid r db' :
  serve (AdminBookings.delete_booking bid) db = (r, db') ->
  db' = db \/
  exists b t,
    get_booking db bid = Some b /\
    (is_cancelled b = false -> get_trip db (Booking.trip_id b) = Some t) /\
    db' = after_delete db b t.
Proof.
  unfold serve.
  destruct (AdminBookings.delete_booking bid (mkSession db db))
    as [[r0 | r0] s] eqn:H; intros E; inversion E; subst; clear E.
  - left. eapply served_clean; [apply delete_booking_clean | exact H].
  - right. unfold AdminBookings.delete_booking in H.
    repeat (step_in H). apply ret_inr in H. destruct H as [-> ->].
    cbn [committed working].
    match goal with
    | Hb : get_booking db bid = Some ?b |- _ => exists b
    end.
    unfold after_delete, this_booking.
    match goal with
    | Hm : (if ?c then _ else _) _ = (inr _, _) |- _ => destruct c eqn:Hc
    end.
    + repeat step_any.
      match goal with
      | Ht : get_trip db _ = Some ?t |- _ => exists t
      end.
      split; [assumption |]. split; [intros _; assumption |].
      match goal with
      | Hm : write _ _ = (inr _, _) |- _ => apply write_inr in Hm; subst
      end.
      reflexivity.
    + exists (Trip.make 0 0 0 0 0 TripStatus.SCHEDULED).
      split; [assumption |].
      apply negb_false_iff in Hc.
      split; [intros Hx; rewrite Hc in Hx; discriminate Hx |].
      match goal with
      | Hm : ret _ _ = (inr _, _) |- _ =>
          apply ret_inr in Hm; destruct Hm as [_ ->]
      end.
      reflexivity.
Qed.

(** ** Counting booked seats *)

Lemma booked_count_rows db i : booked_count db i = count_booked (seats db) i.
Proof. reflexivity. Qed.

Lemma count_booked_cons s l i :
  count_booked (s :: l) i =
  (if (Seat.trip_id s =? i) && is_booked s then 1 else 0) + count_booked l i.
Proof.
  unfold count_booked, zlength. simpl.
  destruct ((Seat.trip_id s =? i) && is_booked s); simpl List.length; lia.
Qed.

Lemma zlength_filter_cons {A} (p : A -> bool) x l :
  zlength (filter p (x :: l)) =
  (if p x then 1 else 0) + zlength (filter p l).
Proof. unfold zlength. simpl. destruct (p x); simpl List.length; lia. Qed.

(** Releasing booked seats of one trip lowers that trip's count by their
    number. *)
Lemma count_booked_release (sel : Seat.t -> bool) T l i :
  (forall x, In x l -> sel x = true ->
             is_booked x = true /\ Seat.trip_id x = T) ->
  count_booked (update_where sel release l) i =
  count_booked l i - (if i =? T then zlength (filter sel l) else 0).
Proof.
  induction l as [| s l IH]; intros H.
  - unfold count_booked, zlength. simpl. destruct (i =? T); reflexivity.
  - simpl update_where. rewrite !count_booked_cons, zlength_filter_cons.
    rewrite IH by (intros x Hx; apply H; right; exact Hx).
    destruct (sel s) eqn:Es.
    + destruct (H s (or_introl eq_refl) Es) as [Hb Ht].
      rewrite Hb, Ht. cbn [release is_booked Seat.status Seat.with_status
        Seat.with_booking_id Seat.trip_id SeatStatus.eqb].
      destruct (Z.eqb_spec T i), (Z.eqb_spec i T),
        (Seat.trip_id s =? i); cbn [andb]; lia.
    + destruct (i =? T); lia.
Qed.

(** Booking free seats of one trip raises that trip's count by their
    number. *)
Lemma count_booked_book (sel : Seat.t -> bool) T b l i :
  (forall x, In x l -> sel x = true ->
             is_booked x = false /\ Seat.trip_id x = T) ->
  count_booked (update_where sel (AdminBookings.rebook b) l) i =
  count_booked l i + (if i =? T then zlength (filter sel l) else 0).
Proof.
  induction l as [| s l IH]; intros H.
  - unfold count_booked, zlength. simpl. destruct (i =? T); reflexivity.
  - simpl update_where. rewrite !count_booked_cons, zlength_filter_cons.
    rewrite IH by (intros x Hx; apply H; right; exact Hx).
    destruct (sel s) eqn:Es.
    + destruct (H s (or_introl eq_refl) Es) as [Hb Ht].
      rewrite Hb, Ht. cbn [AdminBookings.rebook is_booked Seat.status
        Seat.with_status Seat.with_booking_id Seat.trip_id SeatStatus.eqb].
      rewrite ?Ht.
      destruct (Z.eqb_spec T i), (Z.eqb_spec i T); cbn [andb]; lia.
    + destruct (i =? T); lia.
Qed.

(** A trip row keeps agreeing when its counter moves with the count. *)
Lemma counters_ok_shift db db' T n :
  counters_ok db = true ->
  (forall x, In x (trips db) -> Trip.id x = T ->
             0 <= Trip.available_seats x + n) ->
  (forall i, booked_count db' i =
             booked_count db i - (if i =? T then n else 0)) ->
  trips db' =
    update_where (fun x => Trip.id x =? T)
      (fun x => Trip.with_available_seats (Trip.available_seats x + n) x)
      (trips db) ->
  counters_ok db' = true.
Proof.
  intros Hc Hn Hcount Htrips. unfold counters_ok in *.
  rewrite forallb_forall in *. intros x' Hx'. rewrite Htrips in Hx'.
  apply In_update_where in Hx'. destruct Hx' as (x & Hx & ->).
  specialize (Hc x Hx). unfold counter_ok in *.
  repeat match goal with
         | Hy : _ && _ = true |- _ => apply andb_true_iff in Hy; destruct Hy
         end.
  repeat match goal with
         | Hy : (_ =? _) = true |- _ => apply Z.eqb_eq in Hy
         | Hy : (_ <=? _) = true |- _ => apply Z.leb_le in Hy
         end.
  assert (Hpos : 0 <= booked_count db' (Trip.id x))
    by (unfold booked_count; apply zlength_nonneg).
  pose proof (Hcount (Trip.id x)) as Hcx.
  pose proof (Hn x Hx) as Hnx.
  destruct (Z.eqb_spec (Trip.id x) T) as [E | E];
    [specialize (Hnx E) | clear Hnx];
    cbn [Trip.with_available_seats Trip.available_seats Trip.total_seats
         Trip.id];
    rewrite Hcx in *;
    repeat (apply andb_true_iff; split);
    try (apply Z.eqb_eq); try (apply Z.leb_le); lia.
Qed.

(** ** Consistency, table by table *)

Lemma consistent_iff db :
  consistent db = true <->
  counters_ok db = true /\ seats_ok db = true /\
  booking_ids_fresh db = true /\ booking_ids_unique db = true /\
  bookings_ok db = true /\ trip_ids_unique db = true.
Proof. unfold consistent. rewrite !andb_true_iff. tauto. Qed.

Lemma get_booking_In db i b : get_booking db i = Some b -> In b (bookings db).
Proof. intros H. apply find_some in H. tauto. Qed.

Lemma unique_booking db b x :
  booking_ids_unique db = true ->
  In b (bookings db) -> In x (bookings db) ->
  this_booking b x = true -> x = b.
Proof.
  intros Hu Hb Hx Ht. unfold this_booking in Ht. apply Z.eqb_eq in Ht.
  apply (key_determines_row Booking.id (bookings db)); auto.
  apply has_duplicates_NoDup. unfold booking_ids_unique in Hu.
  apply negb_true_iff in Hu. exact Hu.
Qed.

(** A booked-by reference makes the seat booked. *)
Lemma held_is_booked db i x :
  seats_ok db = true -> In x (seats db) -> held_by i x = true ->
  is_booked x = true.
Proof.
  unfold seats_ok. rewrite forallb_forall. intros Hs Hx Hh.
  specialize (Hs x Hx). unfold seat_ok, held_by in *.
  destruct (Seat.booking_id x); [| discriminate].
  apply andb_true_iff in Hs. tauto.
Qed.

(** What a live booking owns. *)
Lemma owner_facts db b :
  bookings_ok db = true -> In b (bookings db) -> is_cancelled b = false ->
  zlength (filter (held_by (Booking.id b)) (seats db)) = Booking.num_seats b /\
  forall x, In x (seats db) -> held_by (Booking.id b) x = true ->
            Seat.trip_id x = Booking.trip_id b.
Proof.
  unfold bookings_ok. rewrite forallb_forall. intros Hb Hin Hc.
  specialize (Hb b Hin). unfold owns_seats, booking_seats in Hb.
  rewrite Hc in Hb. cbn [orb] in Hb.
  apply andb_true_iff in Hb. destruct Hb as [H1 H2].
  apply Z.eqb_eq in H1. split; [exact H1 |].
  intros x Hx Hh. rewrite forallb_forall in H2.
  apply Z.eqb_eq. apply H2. apply filter_In. tauto.
Qed.

Lemma filter_held_release i (sel : Seat.t -> bool) l :
  (forall s, In s l -> sel s = true -> held_by i s = false) ->
  filter (held_by i) (update_where sel release l) = filter (held_by i) l.
Proof.
  induction l as [| s l IH]; intros H; simpl; [reflexivity |].
  rewrite IH by (intros x Hx; apply H; right; exact Hx).
  destruct (sel s) eqn:Es; [| reflexivity].
  rewrite (H s (or_introl eq_refl) Es). reflexivity.
Qed.

(** Seats stay well referenced when some are released and every booking a
    remaining reference names stays live. *)
Lemma seats_ok_step db db' (sel : Seat.t -> bool) :
  seats_ok db = true ->
  seats db' = update_where sel release (seats db) ->
  (forall x c bk, In x (seats db) -> sel x = false ->
     Seat.booking_id x = Some c -> get_booking db c = Some bk ->
     live (Booking.booking_status bk) = true ->
     exists bk', get_booking db' c = Some bk' /\
                 live (Booking.booking_status bk') = true) ->
  seats_ok db' = true.
Proof.
  intros Hs Hseats Hkeep. unfold seats_ok in *. rewrite forallb_forall in *.
  intros y Hy. rewrite Hseats in Hy.
  apply In_update_where in Hy. destruct Hy as (x & Hx & ->).
  destruct (sel x) eqn:Es; [reflexivity |].
  specialize (Hs x Hx). unfold seat_ok in *.
  destruct (Seat.booking_id x) as [c |] eqn:Ec; [| exact Hs].
  apply andb_true_iff in Hs. destruct Hs as [-> Hs]. simpl.
  destruct (get_booking db c) as [bk |] eqn:Eg; [| discriminate].
  destruct (Hkeep x c bk Hx Es Ec Eg Hs) as (bk' & -> & Hl). exact Hl.
Qed.

(** Bookings keep owning their seats when the released seats belong to
    none of the bookings that stay live. *)
Lemma bookings_ok_step db db' (sel : Seat.t -> bool) :
  bookings_ok db = true ->
  seats db' = update_where sel release (seats db) ->
  (forall y, In y (bookings db') ->
     is_cancelled y = true \/
     exists x, In x (bookings db) /\ is_cancelled x = false /\
               Booking.id x = Booking.id y /\
               Booking.num_seats x = Booking.num_seats y /\
               Booking.trip_id x = Booking.trip_id y /\
               forall s, In s (seats db) -> sel s = true ->
                         held_by (Booking.id y) s = false) ->
  bookings_ok db' = true.
Proof.
  intros Hb Hseats Hrows. unfold bookings_ok. rewrite forallb_forall.
  intros y Hy. unfold owns_seats, booking_seats.
  destruct (Hrows y Hy) as [-> | (x & Hx & Hc & Hid & Hn & Ht & Hsel)];
    [reflexivity |].
  destruct (owner_facts db x Hb Hx Hc) as [Hcount Htrip].
  rewrite Hseats, (filter_held_release _ sel _ Hsel).
  rewrite <- Hid, <- Hn, <- Ht, Hcount, Z.eqb_refl. cbn [andb].
  rewrite orb_true_iff. right. rewrite forallb_forall.
  intros s Hs. apply filter_In in Hs. destruct Hs as [Hs Hh].
  apply Z.eqb_eq. apply Htrip; assumption.
Qed.

(** Releasing the seats of a live booking and raising its trip's counter
    by [num_seats] keeps the counters right. *)
Lemma counters_ok_release db db' b t :
  counters_ok db = true -> seats_ok db = true -> bookings_ok db = true ->
  In b (bookings db) -> is_cancelled b = false ->
  Trip.id t = Booking.trip_id b ->
  seats db' = update_where (held_by (Booking.id b)) release (seats db) ->
  trips db' =
    update_where (fun x => Trip.id x =? Trip.id t)
      (fun x => Trip.with_available_seats
                  (Trip.available_seats x + Booking.num_seats b) x)
      (trips db) ->
  counters_ok db' = true.
Proof.
  intros Hc Hs Hb Hin Hlive Ht Hseats Htrips.
  destruct (owner_facts db b Hb Hin Hlive) as [Hcount Htrip].
  apply (counters_ok_shift db db' (Booking.trip_id b) (Booking.num_seats b));
    auto.
  - intros x Hx _. assert (0 <= Booking.num_seats b)
      by (rewrite <- Hcount; apply zlength_nonneg).
    unfold counters_ok in Hc. rewrite forallb_forall in Hc.
    specialize (Hc x Hx). unfold counter_ok in Hc.
    rewrite !andb_true_iff in Hc. destruct Hc as [[_ Hc] _].
    apply Z.leb_le in Hc. lia.
  - intros i. rewrite !booked_count_rows, Hseats.
    rewrite (count_booked_release _ (Booking.trip_id b)).
    + rewrite Hcount. reflexivity.
    + intros x Hx Hh. split; [eapply held_is_booked; eauto | auto].
  - rewrite Htrips, Ht. reflexivity.
Qed.

Lemma held_other_false i j s :
  i <> j -> held_by j s = true -> held_by i s = false.
Proof.
  unfold held_by. destruct (Seat.booking_id s); [| discriminate].
  intros Hne Hj. apply Z.eqb_eq in Hj. subst. apply Z.eqb_neq.
  congruence.
Qed.

(** ** Consistency is kept by cancelling *)

Lemma NoDup_has_duplicates (l : list Z) : NoDup l -> has_duplicates l = false.
Proof.
  induction 1 as [| x l Hx _ IH]; simpl; [reflexivity |].
  rewrite IH, orb_false_r.
  destruct (existsb (Z.eqb x) l) eqn:E; [| reflexivity].
  apply existsb_exists in E. destruct E as (y & Hy & Hxy).
  apply Z.eqb_eq in Hxy. subst. contradiction.
Qed.

Lemma counters_ok_same db db' :
  seats db' = seats db -> trips db' = trips db ->
  counters_ok db' = counters_ok db.
Proof.
  intros Hs Ht. unfold counters_ok. rewrite Ht.
  assert (E : forall t, counter_ok db' t = counter_ok db t)
    by (intros t; unfold counter_ok, booked_count; rewrite Hs; reflexivity).
  clear Ht. induction (trips db) as [| t l IH]; simpl; [reflexivity |].
  rewrite IH, E. reflexivity.
Qed.

Lemma trip_ids_after_update db db' (sel : Trip.t -> bool) f :
  (forall x, Trip.id (f x) = Trip.id x) ->
  trips db' = update_where sel f (trips db) ->
  trip_ids_unique db' = trip_ids_unique db.
Proof.
  intros Hf Ht. unfold trip_ids_unique.
  rewrite Ht, map_update_where by exact Hf. reflexivity.
Qed.

Lemma booking_ids_after_map db db' (g : Booking.t -> Booking.t) :
  (forall x, Booking.id (g x) = Booking.id x) ->
  bookings db' = map g (bookings db) ->
  map Booking.id (bookings db') = map Booking.id (bookings db).
Proof.
  intros Hg Hb. rewrite Hb, map_map. apply map_ext. exact Hg.
Qed.

Lemma is_cancelled_cancelled_row b x :
  this_booking b x = true -> is_cancelled (cancelled_row b x) = true.
Proof.
  intros H. unfold cancelled_row. rewrite H.
  destruct (PaymentStatus.eqb _ _); reflexivity.
Qed.

Lemma this_booking_false b x :
  this_booking b x = false -> Booking.id b <> Booking.id x.
Proof.
  unfold this_booking. intros H. apply Z.eqb_neq in H. congruence.
Qed.

Lemma bookings_ok_after_cancel db b t :
  bookings_ok db = true ->
  bookings_ok (after_cancel db b t) = true.
Proof.
  intros Hb.
  apply (bookings_ok_step db _ (held_by (Booking.id b)) Hb
           (seats_after_cancel db b t)).
  intros y Hy. rewrite bookings_after_cancel in Hy.
  apply in_map_iff in Hy. destruct Hy as (x & <- & Hx).
  destruct (this_booking b x) eqn:Et.
  - left. apply is_cancelled_cancelled_row. exact Et.
  - unfold cancelled_row. rewrite Et.
    destruct (is_cancelled x) eqn:Ec; [left; reflexivity | right].
    exists x. repeat split; auto.
    intros s _ Hs. apply (held_other_false _ (Booking.id b)); auto.
    apply not_eq_sym. apply this_booking_false. exact Et.
Qed.

Lemma consistent_after_cancel db bid b t :
  consistent db = true ->
  get_booking db bid = Some b -> is_cancelled b = false ->
  get_trip db (Booking.trip_id b) = Some t ->
  consistent (after_cancel db b t) = true.
Proof.
  rewrite !consistent_iff.
  intros (Hc & Hs & Hf & Hu & Hb & Ht) Hg Hlive Htrip.
  repeat split.
  - apply (counters_ok_release db _ b t); auto.
    + eapply get_booking_In; eauto.
    + eapply get_trip_id; eauto.
    + apply seats_after_cancel.
    + apply trips_after_cancel.
  - apply seats_ok_after_cancel. exact Hs.
  - rewrite fresh_after_cancel. exact Hf.
  - unfold booking_ids_unique in *.
    rewrite (booking_ids_after_map db _ (cancelled_row b));
      [exact Hu | apply cancelled_row_id | apply bookings_after_cancel].
  - apply bookings_ok_after_cancel. exact Hb.
  - erewrite trip_ids_after_update;
      [exact Ht | | apply trips_after_cancel]. reflexivity.
Qed.

(** ** Consistency is kept by the admin's status update, re-activation
    apart, and by the admin's delete *)

Lemma seats_after_status_update db b t new_status :
  seats (after_status_update db b t new_status) =
  if BookingStatus.eqb new_status BookingStatus.CANCELLED &&
     negb (is_cancelled b)
  then update_where (held_by (Booking.id b)) release (seats db)
  else seats db.
Proof.
  unfold after_status_update.
  destruct (BookingStatus.eqb new_status BookingStatus.CANCELLED &&
            negb (is_cancelled b)); [| reflexivity].
  destruct (PaymentStatus.eqb _ _); reflexivity.
Qed.

Lemma trips_after_status_update db b t new_status :
  trips (after_status_update db b t new_status) =
  if BookingStatus.eqb new_status BookingStatus.CANCELLED &&
     negb (is_cancelled b)
  then update_where (fun x => Trip.id x =? Trip.id t)
         (fun x => Trip.with_available_seats
                     (Trip.available_seats x + Booking.num_seats b) x)
         (trips db)
  else trips db.
Proof.
  unfold after_status_update.
  destruct (BookingStatus.eqb new_status BookingStatus.CANCELLED &&
            negb (is_cancelled b)); [| reflexivity].
  destruct (PaymentStatus.eqb _ _); reflexivity.
Qed.

Lemma bookings_after_status_update db b t new_status :
  bookings (after_status_update db b t new_status) =
  map (status_row b new_status) (bookings db).
Proof.
  unfold after_status_update, status_row.
  destruct (BookingStatus.eqb new_status BookingStatus.CANCELLED &&
            negb (is_cancelled b)); cbn [andb]; [| reflexivity].
  destruct (PaymentStatus.eqb _ _); cbn; [| reflexivity].
  unfold update_where. rewrite map_map. apply map_ext. intros x.
  unfold this_booking.
  cbn [Booking.id Booking.with_payment_status].
  destruct (Booking.id x =? Booking.id b) eqn:E; cbn; rewrite ?E;
    reflexivity.
Qed.

Lemma next_booking_id_after_status_update db b t new_status :
  next_booking_id (after_status_update db b t new_status) =
  next_booking_id db.
Proof.
  unfold after_status_update.
  destruct (BookingStatus.eqb new_status BookingStatus.CANCELLED &&
            negb (is_cancelled b)); [| reflexivity].
  destruct (PaymentStatus.eqb _ _); reflexivity.
Qed.

Lemma status_row_id b st x : Booking.id (status_row b st x) = Booking.id x.
Proof.
  unfold status_row. destruct (this_booking b x); [| reflexivity].
  destruct (_ && _); reflexivity.
Qed.

Lemma status_row_status b st x :
  this_booking b x = true ->
  Booking.booking_status (status_row b st x) = st.
Proof.
  intros H. unfold status_row. rewrite H. destruct (_ && _); reflexivity.
Qed.

Lemma status_row_num_seats b st x :
  Booking.num_seats (status_row b st x) = Booking.num_seats x.
Proof.
  unfold status_row. destruct (this_booking b x); [| reflexivity].
  destruct (_ && _); reflexivity.
Qed.

Lemma status_row_trip_id b st x :
  Booking.trip_id (status_row b st x) = Booking.trip_id x.
Proof.
  unfold status_row. destruct (this_booking b x); [| reflexivity].
  destruct (_ && _); reflexivity.
Qed.

Lemma status_row_other b st x :
  this_booking b x = false -> status_row b st x = x.
Proof. intros H. unfold status_row. rewrite H. reflexivity. Qed.

Lemma live_not_cancelled st :
  live st = negb (BookingStatus.eqb st BookingStatus.CANCELLED).
Proof. destruct st; reflexivity. Qed.

Lemma get_booking_after_status_update db b t st c :
  get_booking (after_status_update db b t st) c =
  option_map (status_row b st) (get_booking db c).
Proof.
  unfold get_booking. rewrite bookings_after_status_update.
  apply find_map_same. intros x. rewrite status_row_id. reflexivity.
Qed.

Lemma fresh_after_status_update db b t st :
  booking_ids_fresh (after_status_update db b t st) = booking_ids_fresh db.
Proof.
  unfold booking_ids_fresh.
  rewrite next_booking_id_after_status_update,
    bookings_after_status_update.
  f_equal. apply forallb_map_same. intros x. rewrite status_row_id.
  reflexivity.
Qed.

Lemma held_by_ref c s : Seat.booking_id s = Some c -> held_by c s = true.
Proof. intros H. unfold held_by. rewrite H. apply Z.eqb_refl. Qed.

Lemma held_by_other c i s :
  Seat.booking_id s = Some c -> held_by i s = false -> c <> i.
Proof.
  unfold held_by. intros ->. intros H. apply Z.eqb_neq in H. exact H.
Qed.

Lemma consistent_after_status_update db bid b t st :
  consistent db = true ->
  get_booking db bid = Some b ->
  is_cancelled b && negb (BookingStatus.eqb st BookingStatus.CANCELLED)
    = false ->
  (BookingStatus.eqb st BookingStatus.CANCELLED && negb (is_cancelled b)
     = true -> get_trip db (Booking.trip_id b) = Some t) ->
  consistent (after_status_update db b t st) = true.
Proof.
  rewrite !consistent_iff.
  intros (Hc & Hs & Hf & Hu & Hb & Ht) Hg Hre Htrip.
  pose proof (get_booking_In _ _ _ Hg) as Hin.
  pose proof (seats_after_status_update db b t st) as Eseats.
  pose proof (trips_after_status_update db b t st) as Etrips.
  assert (Hrow : forall x, In x (bookings db) -> this_booking b x = true ->
                           x = b)
    by (intros x Hx; apply (unique_booking db); auto).
  destruct (BookingStatus.eqb st BookingStatus.CANCELLED &&
            negb (is_cancelled b)) eqn:Ecnd.
  - (* the booking is cancelled by the admin *)
    apply andb_true_iff in Ecnd. destruct Ecnd as [Est Elive].
    apply negb_true_iff in Elive. specialize (Htrip eq_refl).
    repeat split.
    + apply (counters_ok_release db _ b t); auto.
      eapply get_trip_id; eauto.
    + apply (seats_ok_step db _ (held_by (Booking.id b)) Hs Eseats).
      intros x c bk Hx Hsel Hc' Hbk Hl. exists bk. split; [| exact Hl].
      rewrite get_booking_after_status_update, Hbk. cbn [option_map].
      rewrite status_row_other; [reflexivity |].
      unfold this_booking. apply Z.eqb_neq.
      rewrite (get_booking_id _ _ _ Hbk).
      eapply held_by_other; eauto.
    + rewrite fresh_after_status_update. exact Hf.
    + unfold booking_ids_unique in *.
      rewrite (booking_ids_after_map db _ (status_row b st));
        [exact Hu | intros; apply status_row_id
        | apply bookings_after_status_update].
    + apply (bookings_ok_step db _ (held_by (Booking.id b)) Hb Eseats).
      intros y Hy. rewrite bookings_after_status_update in Hy.
      apply in_map_iff in Hy. destruct Hy as (x & <- & Hx).
      destruct (this_booking b x) eqn:Et.
      * left. unfold is_cancelled. rewrite status_row_status by exact Et.
        exact Est.
      * rewrite status_row_other by exact Et.
        destruct (is_cancelled x) eqn:Ec; [left; reflexivity | right].
        exists x. repeat split; auto.
        intros s _ Hsel. apply (held_other_false _ (Booking.id b)); auto.
        apply not_eq_sym. apply this_booking_false. exact Et.
    + erewrite trip_ids_after_update; [exact Ht | | exact Etrips].
      reflexivity.
  - (* only the status changes *)
    assert (Enone : seats (after_status_update db b t st) =
                    update_where (fun _ => false) release (seats db))
      by (rewrite Eseats; symmetry; apply update_where_none; reflexivity).
    assert (Hnew : is_cancelled b = false ->
                   BookingStatus.eqb st BookingStatus.CANCELLED = false)
      by (intros E; rewrite E in Ecnd; cbn in Ecnd;
          rewrite andb_true_r in Ecnd; exact Ecnd).
    repeat split.
    + rewrite (counters_ok_same db _ Eseats Etrips). exact Hc.
    + apply (seats_ok_step db _ (fun _ => false) Hs Enone).
      intros x c bk Hx _ Hc' Hbk Hl.
      exists (status_row b st bk). split.
      * rewrite get_booking_after_status_update, Hbk. reflexivity.
      * destruct (this_booking b bk) eqn:Et.
        -- rewrite status_row_status by exact Et.
           rewrite (Hrow bk (get_booking_In _ _ _ Hbk) Et) in Hl.
           rewrite live_not_cancelled in *. apply negb_true_iff in Hl.
           rewrite (Hnew Hl). reflexivity.
        -- rewrite status_row_other by exact Et. exact Hl.
    + rewrite fresh_after_status_update. exact Hf.
    + unfold booking_ids_unique in *.
      rewrite (booking_ids_after_map db _ (status_row b st));
        [exact Hu | intros; apply status_row_id
        | apply bookings_after_status_update].
    + apply (bookings_ok_step db _ (fun _ => false) Hb Enone).
      intros y Hy. rewrite bookings_after_status_update in Hy.
      apply in_map_iff in Hy. destruct Hy as (x & <- & Hx).
      destruct (is_cancelled (status_row b st x)) eqn:Ey;
        [left; reflexivity | right].
      exists x. rewrite status_row_id, status_row_num_seats,
        status_row_trip_id. repeat split; auto; [| discriminate].
      destruct (this_booking b x) eqn:Et.
      * rewrite (Hrow x Hx Et).
        unfold is_cancelled in Ey. rewrite status_row_status in Ey
          by exact Et.
        rewrite Ey in Hre. cbn in Hre. rewrite andb_true_r in Hre.
        exact Hre.
      * rewrite status_row_other in Ey by exact Et. exact Ey.
    + unfold trip_ids_unique in *. rewrite Etrips. exact Ht.
Qed.

(** ** Consistency is kept by the admin's delete *)

Lemma find_filter_same {A} (p q : A -> bool) l :
  (forall x, In x l -> p x = true -> q x = true) ->
  find p (filter q l) = find p l.
Proof.
  induction l as [| x l IH]; intros H; simpl; [reflexivity |].
  assert (IH' : find p (filter q l) = find p l)
    by (apply IH; intros y Hy; apply H; right; exact Hy).
  destruct (p x) eqn:Ep.
  - rewrite (H x (or_introl eq_refl) Ep). simpl. rewrite Ep. reflexivity.
  - destruct (q x); simpl; rewrite ?Ep; exact IH'.
Qed.

Lemma forallb_filter_keeps {A} (p q : A -> bool) l :
  forallb p l = true -> forallb p (filter q l) = true.
Proof.
  rewrite !forallb_forall. intros H x Hx. apply filter_In in Hx.
  apply H. tauto.
Qed.

Lemma NoDup_map_filter {A} (key : A -> Z) (q : A -> bool) l :
  NoDup (map key l) -> NoDup (map key (filter q l)).
Proof.
  induction l as [| x l IH]; simpl; intros H; [constructor |].
  apply NoDup_cons_iff in H. destruct H as [Hx Hl].
  destruct (q x); simpl; [| auto].
  constructor; [| auto].
  intros Hin. apply Hx. apply in_map_iff in Hin.
  destruct Hin as (y & Hy & Hin). apply filter_In in Hin.
  apply in_map_iff. exists y. tauto.
Qed.

Lemma seats_after_delete db b t :
  seats (after_delete db b t) =
  if negb (is_cancelled b)
  then update_where (held_by (Booking.id b)) release (seats db)
  else seats db.
Proof. unfold after_delete. destruct (negb _); reflexivity. Qed.

Lemma trips_after_delete db b t :
  trips (after_delete db b t) =
  if negb (is_cancelled b)
  then update_where (fun x => Trip.id x =? Trip.id t)
         (fun x => Trip.with_available_seats
                     (Trip.available_seats x + Booking.num_seats b) x)
         (trips db)
  else trips db.
Proof. unfold after_delete. destruct (negb _); reflexivity. Qed.

Lemma bookings_after_delete db b t :
  bookings (after_delete db b t) =
  filter (fun x => negb (this_booking b x)) (bookings db).
Proof. unfold after_delete. destruct (negb _); reflexivity. Qed.

Lemma next_booking_id_after_delete db b t :
  next_booking_id (after_delete db b t) = next_booking_id db.
Proof. unfold after_delete. destruct (negb _); reflexivity. Qed.

Lemma get_booking_after_delete db b t c :
  c <> Booking.id b ->
  get_booking (after_delete db b t) c = get_booking db c.
Proof.
  intros Hne. unfold get_booking. rewrite bookings_after_delete.
  apply find_filter_same. intros x _ Hx. apply Z.eqb_eq in Hx.
  apply negb_true_iff. unfold this_booking. apply Z.eqb_neq. congruence.
Qed.

Lemma consistent_after_delete db bid b t :
  consistent db = true ->
  get_booking db bid = Some b ->
  (is_cancelled b = false -> get_trip db (Booking.trip_id b) = Some t) ->
  consistent (after_delete db b t) = true.
Proof.
  rewrite !consistent_iff.
  intros (Hc & Hs & Hf & Hu & Hb & Ht) Hg Htrip.
  pose proof (get_booking_In _ _ _ Hg) as Hin.
  pose proof (get_booking_id _ _ _ Hg) as Hid.
  pose proof (seats_after_delete db b t) as Eseats.
  pose proof (trips_after_delete db b t) as Etrips.
  assert (Hfresh : booking_ids_fresh (after_delete db b t) = true).
  { unfold booking_ids_fresh in *.
    rewrite next_booking_id_after_delete, bookings_after_delete.
    apply andb_true_iff in Hf. destruct Hf as [-> Hf]. cbn [andb].
    apply forallb_filter_keeps. exact Hf. }
  assert (Hunique : booking_ids_unique (after_delete db b t) = true).
  { unfold booking_ids_unique in *. rewrite bookings_after_delete.
    apply negb_true_iff. apply NoDup_has_duplicates.
    apply NoDup_map_filter. apply has_duplicates_NoDup.
    apply negb_true_iff. exact Hu. }
  assert (Hrest : forall y, In y (bookings (after_delete db b t)) ->
                            In y (bookings db) /\ Booking.id b <> Booking.id y).
  { intros y Hy. rewrite bookings_after_delete in Hy.
    apply filter_In in Hy. destruct Hy as [Hy Hn].
    apply negb_true_iff in Hn. split; [exact Hy |].
    apply this_booking_false. exact Hn. }
  destruct (is_cancelled b) eqn:Ecan; cbn [negb] in Eseats, Etrips.
  - (* a cancelled booking holds no seat *)
    assert (Enone : seats (after_delete db b t) =
                    update_where (fun _ => false) release (seats db))
      by (rewrite Eseats; symmetry; apply update_where_none; reflexivity).
    repeat split; auto.
    + rewrite (counters_ok_same db _ Eseats Etrips). exact Hc.
    + apply (seats_ok_step db _ (fun _ => false) Hs Enone).
      intros x c bk Hx _ Hc' Hbk Hl. exists bk. split; [| exact Hl].
      rewrite get_booking_after_delete; [exact Hbk |].
      intros ->. rewrite Hid in Hbk. rewrite Hg in Hbk.
      injection Hbk as <-. rewrite live_not_cancelled in Hl.
      unfold is_cancelled in Ecan. rewrite Ecan in Hl. discriminate.
    + apply (bookings_ok_step db _ (fun _ => false) Hb Enone).
      intros y Hy. destruct (Hrest y Hy) as [Hy' _].
      destruct (is_cancelled y) eqn:Ey; [left; reflexivity | right].
      exists y. repeat split; auto. discriminate.
    + unfold trip_ids_unique in *. rewrite Etrips. exact Ht.
  - (* the seats of a live booking are released *)
    specialize (Htrip eq_refl).
    repeat split; auto.
    + apply (counters_ok_release db _ b t); auto.
      eapply get_trip_id; eauto.
    + apply (seats_ok_step db _ (held_by (Booking.id b)) Hs Eseats).
      intros x c bk Hx Hsel Hc' Hbk Hl. exists bk. split; [| exact Hl].
      rewrite get_booking_after_delete; [exact Hbk |].
      eapply held_by_other; eauto.
    + apply (bookings_ok_step db _ (held_by (Booking.id b)) Hb Eseats).
      intros y Hy. destruct (Hrest y Hy) as [Hy' Hne].
      destruct (is_cancelled y) eqn:Ey; [left; reflexivity | right].
      exists y. repeat split; auto.
      intros s _ Hsel. apply (held_other_false _ (Booking.id b)); auto.
    + erewrite trip_ids_after_update; [exact Ht | | exact Etrips].
      reflexivity.
Qed.

(** ** Consistency is kept by booking *)

Lemma has_duplicates_snoc (l : list Z) x :
  has_duplicates l = false -> ~ In x l -> has_duplicates (l ++ [x]) = false.
Proof.
  induction l as [| y l IH]; simpl; intros H Hx; [reflexivity |].
  apply orb_false_iff in H. destruct H as [H1 H2].
  rewrite IH by tauto. rewrite orb_false_r.
  rewrite existsb_app, H1. simpl. rewrite orb_false_r.
  apply Z.eqb_neq. intros ->. tauto.
Qed.

Lemma fresh_ids_below db b :
  booking_ids_fresh db = true -> In b (bookings db) ->
  Booking.id b < next_booking_id db.
Proof.
  unfold booking_ids_fresh. rewrite andb_true_iff, forallb_forall.
  intros [_ H] Hin. specialize (H b Hin).
  apply andb_true_iff in H. destruct H as [_ H]. apply Z.ltb_lt in H.
  exact H.
Qed.

(** No seat refers to a booking that does not exist yet. *)
Lemma no_seat_of_next db s :
  seats_ok db = true -> booking_ids_fresh db = true -> In s (seats db) ->
  held_by (next_booking_id db) s = false.
Proof.
  unfold seats_ok. rewrite forallb_forall. intros Hs Hf Hin.
  specialize (Hs s Hin). unfold seat_ok, held_by in *.
  destruct (Seat.booking_id s) as [c |]; [| reflexivity].
  apply Z.eqb_neq. intros ->.
  rewrite (fresh_not_found db Hf) in Hs.
  rewrite andb_false_r in Hs. discriminate.
Qed.

(** An available seat has no booking. *)
Lemma available_unheld db s i :
  seats_ok db = true -> In s (seats db) -> is_available s = true ->
  held_by i s = false /\ is_booked s = false.
Proof.
  unfold seats_ok. rewrite forallb_forall. intros Hs Hin Ha.
  specialize (Hs s Hin). unfold seat_ok, held_by, is_available, is_booked in *.
  destruct (Seat.status s); try discriminate.
  destruct (Seat.booking_id s); [discriminate | split; reflexivity].
Qed.

Lemma filter_held_book i n (sel : Seat.t -> bool) l :
  i <> n ->
  (forall s, In s l -> sel s = true -> held_by i s = false) ->
  filter (held_by i) (update_where sel (AdminBookings.rebook n) l) =
  filter (held_by i) l.
Proof.
  intros Hne. induction l as [| s l IH]; intros H; simpl; [reflexivity |].
  rewrite IH by (intros x Hx; apply H; right; exact Hx).
  destruct (sel s) eqn:Es; [| reflexivity].
  rewrite (H s (or_introl eq_refl) Es).
  unfold held_by, AdminBookings.rebook. cbn.
  destruct (Z.eqb_spec n i); [congruence | reflexivity].
Qed.

Lemma filter_held_new n (sel : Seat.t -> bool) l :
  (forall s, In s l -> held_by n s = false) ->
  filter (held_by n) (update_where sel (AdminBookings.rebook n) l) =
  map (AdminBookings.rebook n) (filter sel l).
Proof.
  induction l as [| s l IH]; intros H; simpl; [reflexivity |].
  rewrite IH by (intros x Hx; apply H; right; exact Hx).
  destruct (sel s) eqn:Es.
  - unfold held_by at 1, AdminBookings.rebook at 1. cbn.
    rewrite Z.eqb_refl. reflexivity.
  - rewrite (H s (or_introl eq_refl)). reflexivity.
Qed.

Lemma selected_facts db trip data s :
  seats_ok db = true -> seats_reservable db trip data = true ->
  In s (seats db) -> selected (seat_ids data) (trip_id data) s = true ->
  is_booked s = false /\ Seat.trip_id s = trip_id data /\
  forall i, held_by i s = false.
Proof.
  intros Hs Hr Hin Hsel. unfold seats_reservable in Hr.
  rewrite !andb_true_iff in Hr. destruct Hr as [[_ Ha] _].
  rewrite forallb_forall in Ha.
  assert (Hav : is_available s = true)
    by (apply Ha; unfold requested_seats; apply filter_In; tauto).
  unfold selected in Hsel. apply andb_true_iff in Hsel.
  destruct Hsel as [_ Ht]. apply Z.eqb_eq in Ht.
  split; [apply (available_unheld db s 0); auto |].
  split; [exact Ht |]. intros i. apply (available_unheld db s i); auto.
Qed.

Lemma counters_ok_after_create db uid trip data :
  counters_ok db = true -> seats_ok db = true ->
  trip_ids_unique db = true ->
  get_trip db (trip_id data) = Some trip ->
  seats_reservable db trip data = true ->
  counters_ok (after_create db uid trip data) = true.
Proof.
  intros Hc Hs Hu Hg Hr.
  pose proof (get_trip_id _ _ _ Hg) as Hid.
  assert (Hsel := selected_facts db trip data).
  pose proof Hr as Hr'. unfold seats_reservable in Hr'.
  rewrite !andb_true_iff in Hr'. destruct Hr' as [[Hk _] Hcap].
  apply Z.eqb_eq in Hk. apply negb_true_iff, Z.ltb_ge in Hcap.
  apply (counters_ok_shift db _ (trip_id data) (- zlength (seat_ids data)));
    auto.
  - intros x Hx Hx'.
    assert (x = trip); [| subst x; lia].
    apply (key_determines_row Trip.id (trips db)); try congruence; auto.
    + apply has_duplicates_NoDup. apply negb_true_iff. exact Hu.
    + unfold get_trip in Hg. apply find_some in Hg. tauto.
  - intros i. rewrite !booked_count_rows, seats_after_create.
    rewrite (count_booked_book _ (trip_id data)).
    + fold (requested_seats db data). rewrite Hk.
      destruct (i =? trip_id data); lia.
    + intros x Hx Hx'. destruct (Hsel x Hs Hr Hx Hx') as (? & ? & _).
      tauto.
  - rewrite trips_after_create, Hid. unfold update_where.
    apply map_ext. intros x. rewrite Z.add_opp_r. reflexivity.
Qed.

Lemma bookings_ok_after_create db uid trip data :
  bookings_ok db = true -> seats_ok db = true ->
  booking_ids_fresh db = true ->
  seats_reservable db trip data = true ->
  bookings_ok (after_create db uid trip data) = true.
Proof.
  intros Hb Hs Hf Hr.
  assert (Hsel := selected_facts db trip data).
  unfold bookings_ok in *. rewrite forallb_forall in *.
  intros y Hy. rewrite bookings_after_create in Hy.
  unfold owns_seats, booking_seats. rewrite seats_after_create.
  apply in_app_iff in Hy. destruct Hy as [Hy | [<- | []]].
  - rewrite filter_held_book.
    + exact (Hb y Hy).
    + pose proof (fresh_ids_below db y Hf Hy). lia.
    + intros s Hin Hs'. apply (Hsel s Hs Hr Hin Hs').
  - apply orb_true_iff. right.
    change (Booking.id (new_booking db uid trip data))
      with (next_booking_id db).
    rewrite filter_held_new
      by (intros s Hin; apply (no_seat_of_next db); auto).
    apply andb_true_iff. split.
    + unfold zlength. rewrite length_map.
      fold (requested_seats db data).
      unfold seats_reservable in Hr. rewrite !andb_true_iff in Hr.
      destruct Hr as [[Hk _] _]. exact Hk.
    + rewrite forallb_forall. intros s' Hin.
      apply in_map_iff in Hin. destruct Hin as (s & <- & Hin).
      apply filter_In in Hin. destruct Hin as [Hin Hs'].
      destruct (Hsel s Hs Hr Hin Hs') as (_ & Ht & _).
      apply Z.eqb_eq. exact Ht.
Qed.

Lemma booking_ids_unique_after_create db uid trip data :
  booking_ids_unique db = true -> booking_ids_fresh db = true ->
  booking_ids_unique (after_create db uid trip data) = true.
Proof.
  intros Hu Hf. unfold booking_ids_unique in *.
  rewrite bookings_after_create, map_app. cbn [map].
  apply negb_true_iff. apply has_duplicates_snoc.
  - apply negb_true_iff. exact Hu.
  - intros Hin. apply in_map_iff in Hin. destruct Hin as (y & Hy & Hin).
    pose proof (fresh_ids_below db y Hf Hin).
    change (Booking.id (new_booking db uid trip data))
      with (next_booking_id db) in Hy. lia.
Qed.

Lemma consistent_after_create db uid trip data :
  consistent db = true ->
  get_trip db (trip_id data) = Some trip ->
  seats_reservable db trip data = true ->
  consistent (after_create db uid trip data) = true.
Proof.
  rewrite !consistent_iff.
  intros (Hc & Hs & Hf & Hu & Hb & Ht) Hg Hr.
  repeat split.
  - apply counters_ok_after_create; auto.
  - apply seats_ok_after_create; auto.
  - apply fresh_after_create; auto.
  - apply booking_ids_unique_after_create; auto.
  - apply bookings_ok_after_create; auto.
  - erewrite trip_ids_after_update;
      [exact Ht | | apply trips_after_create]. reflexivity.
Qed.

(** ** The operations that keep the database consistent *)

(** Booking, cancelling, the admin's status update when it does not move a
    booking out of [cancelled], and the admin's delete take a consistent
    database to a consistent one, whatever they answer: the counter of every
    trip stays at [total_seats] minus its booked seats, within
    [0 .. total_seats]. *)
Theorem consistency_kept_without_reactivation db :
  consistent db = true ->
  (forall now uid data r db',
     serve (create_booking now uid data) db = (r, db') ->
     consistent db' = true) /\
  (forall now uid bid r db',
     serve (cancel_booking now uid bid) db = (r, db') ->
     consistent db' = true) /\
  (forall uid bid data r db',
     reactivates db bid data = false ->
     serve (admin_required uid (AdminBookings.update_booking_status bid data))
           db = (r, db') ->
     consistent db' = true) /\
  (forall uid bid r db',
     serve (admin_required uid (AdminBookings.delete_booking bid)) db
       = (r, db') ->
     consistent db' = true).
Proof.
  intros Hc. repeat split.
  - intros now uid data r db' H.
    destruct (create_booking_served db now uid data)
      as [(Hp & trip & Ht & E) | (_ & code & e & E)];
      rewrite E in H; injection H as _ <-; [| exact Hc].
    unfold passes_validations in Hp. rewrite Ht in Hp.
    rewrite !andb_true_iff in Hp. destruct Hp as (_ & (_ & Hr) & _).
    apply consistent_after_create; auto.
  - intros now uid bid r db' H.
    destruct (cancel_booking_served db now uid bid)
      as [(Hp & b & t & Hb & Ht & E) | (_ & code & e & E)];
      rewrite E in H; injection H as _ <-; [| exact Hc].
    unfold can_cancel in Hp. rewrite Hb in Hp.
    rewrite !andb_true_iff in Hp. destruct Hp as (((_ & Hl) & _) & _).
    apply negb_true_iff in Hl.
    apply (consistent_after_cancel db bid); auto.
  - intros uid bid data r db' Hre H.
    apply admin_required_served in H. destruct H as [-> | H]; [exact Hc |].
    apply update_booking_status_served in H; [| exact Hre].
    destruct H as [-> | (b & t & st & Hb & Ht & Hnot & ->)]; [exact Hc |].
    apply (consistent_after_status_update db bid); auto.
  - intros uid bid r db' H.
    apply admin_required_served in H. destruct H as [-> | H]; [exact Hc |].
    apply delete_booking_served in H.
    destruct H as [-> | (b & t & Hb & Ht & ->)]; [exact Hc |].
    apply (consistent_after_delete db bid); auto.
Qed.

(** The sample database is consistent, and stays so through the booking
    and its cancellation; the re-activation that follows ends in a database
    that is not. *)
Lemma consistency_lost_by_reactivation :
  consistent sample_db = true /\
  consistent booked_db = true /\
  consistent cancelled_db = true /\
  reactivates cancelled_db 1 (Some "confirmed") = true /\
  consistent (snd (serve reactivate cancelled_db)) = false.
Proof. repeat split; vm_compute; reflexivity. Qed.

Lemma consistency_kept_without_reactivation_witness :
  consistent sample_db = true /\
  consistent (snd (serve (create_booking 10 1 (sample_request [2; 3; 5] ""))
                         sample_db)) = true /\
  consistent (snd (serve (admin_required 2 (AdminBookings.delete_booking 1))
                         booked_db)) = true.
Proof.
  assert (H0 : consistent sample_db = true) by (vm_compute; reflexivity).
  assert (H1 : consistent booked_db = true) by (vm_compute; reflexivity).
  split; [exact H0 |]. split.
  - destruct (consistency_kept_without_reactivation sample_db H0)
      as (Hc & _).
    eapply Hc. apply surjective_pairing.
  - destruct (consistency_kept_without_reactivation booked_db H1)
      as (_ & _ & _ & Hd).
    eapply Hd. apply surjective_pairing.
Defined.

(** * The helpers and handlers around the claims *)

(** ** The validators *)

Lemma sfilter_app p a b :
  sfilter p (a ++ b) = (sfilter p a ++ sfilter p b)%string.
Proof.
  induction a as [| c a IH]; simpl; [reflexivity |].
  rewrite IH. destruct (p c); reflexivity.
Qed.

Lemma sfilter_none p q s :
  (forall c, q c = true -> p c = false) -> sfilter p (sfilter q s) = "".
Proof.
  intros H. induction s as [| c s IH]; simpl; [reflexivity |].
  destruct (q c) eqn:E; [simpl; rewrite (H c E) |]; exact IH.
Qed.

Lemma digit_not_format c : is_digit c = true -> phone_format_char c = false.
Proof.
  destruct c as [[] [] [] [] [] [] [] []]; vm_compute; intros H;
    first [reflexivity | discriminate H].
Qed.

Lemma digits_of_clean_phone p :
  phone_chars_ok p = true ->
  sfilter (fun c => negb (phone_format_char c)) p = sfilter is_digit p /\
  sforall is_digit (sfilter is_digit p) = true.
Proof.
  unfold phone_chars_ok. induction p as [| c p IH]; simpl; [auto |].
  intros H. apply andb_true_iff in H. destruct H as [Hc Hp].
  destruct (IH Hp) as [IH1 IH2].
  destruct (is_digit c) eqn:Ed.
  - rewrite (digit_not_format c Ed). simpl. rewrite Ed, IH1, IH2. auto.
  - simpl in Hc. rewrite Hc. simpl. auto.
Qed.

Lemma clean_phone_of_digits p :
  sforall is_digit (sfilter (fun c => negb (phone_format_char c)) p) = true ->
  phone_chars_ok p = true.
Proof.
  unfold phone_chars_ok. induction p as [| c p IH]; simpl; [auto |].
  destruct (phone_format_char c) eqn:Ef; simpl.
  - intros H. rewrite orb_true_r. simpl. auto.
  - intros H. apply andb_true_iff in H. destruct H as [-> H].
    simpl. auto.
Qed.

(** [validate_phone_number] looks at the digits only: formatting characters
    (white space, [-], [(], [)], [+]) inserted anywhere change nothing, and a
    phone number is accepted exactly when it holds between 10 and 15 digits
    and nothing but digits and formatting characters. *)
Theorem validate_phone_number_digits :
  (forall a x b,
     validate_phone_number (a ++ sfilter phone_format_char x ++ b) =
     validate_phone_number (a ++ b)) /\
  (forall phone,
     fst (validate_phone_number phone) = true <->
     (10 <= digit_count phone <= 15 /\ phone_chars_ok phone = true)).
Proof.
  split.
  - intros a x b. unfold validate_phone_number.
    rewrite !sfilter_app.
    rewrite (sfilter_none _ phone_format_char x)
      by (intros c ->; reflexivity).
    reflexivity.
  - intros phone. unfold validate_phone_number, digit_count. split.
    + destruct ((len _ <? 10) || (15 <? len _)) eqn:El; [discriminate |].
      destruct (sforall is_digit _) eqn:Ed; [| discriminate]. intros _.
      pose proof (clean_phone_of_digits phone Ed) as Hok.
      destruct (digits_of_clean_phone phone Hok) as [<- _].
      apply orb_false_iff in El. destruct El as [E1 E2].
      apply Z.ltb_ge in E1, E2. auto.
    + intros [[H1 H2] Hok].
      destruct (digits_of_clean_phone phone Hok) as [-> ->].
      apply Z.ltb_ge in H1, H2. rewrite H1, H2. reflexivity.
Qed.

(** [validate_seat_selection] accepts exactly the lists that are not empty
    and name no seat twice. *)
Theorem validate_seat_selection_accepts (seat_ids : list Z) :
  fst (validate_seat_selection seat_ids) = true <->
  (seat_ids <> [] /\ NoDup seat_ids).
Proof.
  unfold validate_seat_selection. destruct seat_ids as [| i l].
  - split; [discriminate | intros [H _]; contradiction].
  - destruct (has_duplicates (i :: l)) eqn:E; simpl; split.
    + discriminate.
    + intros [_ H]. apply NoDup_has_duplicates in H. congruence.
    + intros _. split; [discriminate | apply has_duplicates_NoDup; exact E].
    + reflexivity.
Qed.

Lemma word_line_tail_spec s :
  word_line_tail s = true <->
  exists t, sforall is_word t = true /\ (s = t \/ s = (t ++ newline)%string).
Proof.
  induction s as [| c s IH]; simpl.
  - split; [intros _; exists ""; auto | reflexivity].
  - rewrite orb_true_iff, !andb_true_iff. split.
    + intros [[Hc Ht] | [Hc He]].
      * apply IH in Ht. destruct Ht as (t & Ht & [-> | ->]);
          exists (String c t); simpl; rewrite Hc, Ht; auto.
      * apply Ascii.eqb_eq in Hc. subst c.
        destruct s; [| discriminate]. exists "". auto.
    + intros (t & Ht & [E | E]).
      * subst t. simpl in Ht. apply andb_true_iff in Ht.
        destruct Ht as [Hc Hs]. left. split; [exact Hc |].
        apply IH. exists s. auto.
      * destruct t as [| c' t]; simpl in E.
        -- injection E as -> ->. right. auto.
        -- injection E as -> ->. simpl in Ht. apply andb_true_iff in Ht.
           destruct Ht as [Hc Hs]. left. split; [exact Hc |].
           apply IH. exists t. auto.
Qed.

(** [validate_username] accepts a name of 3 to 80 characters made of
    letters, digits and underscores, and also such a name followed by one
    newline: the [$] of the pattern matches before a newline that ends the
    string. *)
Theorem validate_username_accepts (username : string) :
  fst (validate_username username) = true <->
  (3 <= len username <= 80 /\
   exists t, sforall is_word t = true /\
             (username = t \/ username = (t ++ newline)%string)).
Proof.
  unfold validate_username.
  destruct ((len username <? 3) || (80 <? len username)) eqn:El.
  - split; [discriminate |]. intros [[H1 H2] _].
    apply orb_true_iff in El. destruct El as [E | E];
      apply Z.ltb_lt in E; lia.
  - apply orb_false_iff in El. destruct El as [E1 E2].
    apply Z.ltb_ge in E1, E2.
    destruct username as [| c s]; [unfold len in E1; simpl in E1; lia |].
    assert (Hm : match_word_line (String c s) = true <->
                 exists t, sforall is_word t = true /\
                           (String c s = t \/
                            String c s = (t ++ newline)%string)).
    { simpl. rewrite andb_true_iff, word_line_tail_spec. split.
      - intros (Hc & t & Ht & [-> | ->]); exists (String c t); simpl;
          rewrite Hc, Ht; auto.
      - intros (t & Ht & [E | E]).
        + subst t. simpl in Ht. apply andb_true_iff in Ht.
          destruct Ht as [Hc Hs]. split; [exact Hc |]. exists s. auto.
        + destruct t as [| c' t]; simpl in E.
          * injection E as -> ->. unfold len in E1. simpl in E1. lia.
          * injection E as -> ->. simpl in Ht. apply andb_true_iff in Ht.
            destruct Ht as [Hc Hs]. split; [exact Hc |]. exists t. auto. }
    destruct (match_word_line (String c s)) eqn:Em; simpl.
    + split; [intros _ | reflexivity]. split; [lia |]. apply Hm. reflexivity.
    + split; [discriminate |]. intros [_ H]. apply Hm in H. discriminate.
Qed.

(** ** Masking *)

Import PaymentRoutes.

Lemma substring_all t : substring 0 (String.length t) t = t.
Proof. induction t as [| c t IH]; simpl; [| rewrite IH]; reflexivity. Qed.

Lemma substring_suffix pre t :
  substring (String.length pre) (String.length t) (pre ++ t) = t.
Proof.
  induction pre as [| c pre IH]; simpl; [apply substring_all | exact IH].
Qed.

Lemma length_app_string a b :
  String.length (a ++ b) = (String.length a + String.length b)%nat.
Proof. induction a as [| c a IH]; simpl; [| rewrite IH]; reflexivity. Qed.

Lemma last4_suffix pre t : String.length t = 4%nat -> last4 (pre ++ t) = t.
Proof.
  intros Ht. unfold last4. rewrite length_app_string, Ht.
  replace (String.length pre + 4 - 4)%nat with (String.length pre) by lia.
  rewrite <- Ht. apply substring_suffix.
Qed.

(** The masks show the last four characters and nothing else.  Whenever the
    number without its spaces ends in the four characters [t], the card mask
    is [****-****-****-t] and the account mask is [****t], whatever comes
    before; a number with fewer than four characters besides spaces is
    masked as [****]; only the empty string has no mask. *)
Theorem masks_show_last_four :
  (forall s pre t,
     remove_spaces s = (pre ++ t)%string -> String.length t = 4%nat ->
     mask_card_number s = Some ("****-****-****-" ++ t)%string /\
     mask_account_number s = Some ("****" ++ t)%string) /\
  (forall s,
     s <> "" -> len (remove_spaces s) < 4 ->
     mask_card_number s = Some "****" /\
     mask_account_number s = Some "****") /\
  (forall s, mask_card_number s = None <-> s = "") /\
  (forall s, mask_account_number s = None <-> s = "").
Proof.
  split; [| split; [| split]].
  - intros s pre t Hs Ht.
    assert (Hl : (len (remove_spaces s) <? 4) = false).
    { apply Z.ltb_ge. unfold len. rewrite Hs, length_app_string, Ht. lia. }
    unfold mask_card_number, mask_account_number.
    destruct s as [| c s].
    + simpl in Hs. destruct pre; simpl in Hs; [| discriminate].
      subst t. discriminate Ht.
    + cbn [is_empty]. rewrite Hl, Hs, (last4_suffix pre t Ht). auto.
  - intros s Hne Hl. apply Z.ltb_lt in Hl.
    unfold mask_card_number, mask_account_number.
    destruct s as [| c s]; [contradiction |]. cbn [is_empty].
    rewrite Hl. auto.
  - intros s. unfold mask_card_number. destruct s as [| c s].
    + split; reflexivity.
    + cbn [is_empty]. destruct (len _ <? 4); split; discriminate.
  - intros s. unfold mask_account_number. destruct s as [| c s].
    + split; reflexivity.
    + cbn [is_empty]. destruct (len _ <? 4); split; discriminate.
Qed.

Lemma masks_show_last_four_witness :
  mask_card_number "4111 1111 1111 1234" = Some "****-****-****-1234" /\
  mask_account_number "00 12 34 56" = Some "****3456" /\
  mask_card_number "   " = Some "****".
Proof.
  destruct masks_show_last_four as (Hlast & Hshort & _).
  split; [| split].
  - apply (Hlast "4111 1111 1111 1234" "411111111111" "1234");
      reflexivity.
  - apply (Hlast "00 12 34 56" "0012" "3456"); reflexivity.
  - apply (Hshort "   "); [discriminate | vm_compute; reflexivity].
Defined.

(** ** The promo listing and the fare quote *)

(** The public listing shows exactly the promo codes that [is_valid]
    accepts at that time: active, inside their dates, uses not exhausted. *)
Theorem listed_promo_codes_are_valid db now p :
  In p (Trips.get_active_promo_codes db now) <->
  (In p (promo_codes db) /\ fst (PromoCode.is_valid p now) = true).
Proof.
  unfold Trips.get_active_promo_codes. rewrite !filter_In.
  assert (E : PromoCode.is_active p && (PromoCode.valid_from p <=? now) &&
              (now <=? PromoCode.valid_until p) &&
              match PromoCode.usage_limit p with
              | None => true
              | Some limit => PromoCode.used_count p <? limit
              end = fst (PromoCode.is_valid p now)).
  { unfold PromoCode.is_valid.
    destruct (PromoCode.is_active p); [| reflexivity]. cbn [negb andb].
    rewrite (Z.leb_antisym now (PromoCode.valid_from p)).
    destruct (now <? PromoCode.valid_from p); [reflexivity |]. cbn [negb andb].
    rewrite (Z.leb_antisym (PromoCode.valid_until p) now).
    destruct (PromoCode.valid_until p <? now); [reflexivity |].
    cbn [negb andb].
    destruct (PromoCode.usage_limit p) as [limit |]; [| reflexivity].
    rewrite (Z.ltb_antisym limit (PromoCode.used_count p)).
    destruct (limit <=? PromoCode.used_count p); reflexivity. }
  rewrite <- E, !andb_true_iff. tauto.
Qed.

Lemma required_fields_present data :
  fst (validate_required_fields data) = true ->
  (trip_id data =? 0) = false /\ seat_ids data <> [].
Proof.
  unfold validate_required_fields.
  destruct (trip_id data =? 0); [intros H; discriminate H |].
  destruct (seat_ids data); [intros H; discriminate H |].
  intros _. split; [reflexivity | discriminate].
Qed.

(** The quote is the charge, for a request of one or two seats whose promo
    code is a string or left out: when [create_booking] accepts it, the
    fare quoted for the same trip, seats and promo code on the same database
    has the booking's seat count, subtotal, discount and total, and names
    the same promo code.  (With at most two seats the built-in [sum] of
    [create_booking] and the [+=] loop of [calculate_fare] add the same
    floats in the same way.) *)
Theorem quote_matches_booking db now uid data code msg b db' :
  (List.length (seat_ids data) <= 2)%nat ->
  serve (create_booking now uid data) db = (Reply code msg (Some b), db') ->
  Trips.calculate_fare db now
    (Trips.mkFareData (trip_id data) (seat_ids data) (promo_code data)) =
  Trips.Fare (Booking.num_seats b) (Booking.subtotal b)
             (Booking.discount_amount b) (Booking.total_amount b)
             (applied_promo db data).
Proof.
  intros _ H.
  destruct (create_booking_served db now uid data)
    as [(Hp & trip & Ht & E) | (_ & c & e & E)];
    rewrite E in H; [| discriminate H].
  injection H as _ _ <- _.
  unfold passes_validations in Hp. rewrite Ht in Hp.
  unfold request_well_formed, seats_reservable, promo_checks in Hp.
  rewrite !andb_true_iff in Hp.
  destruct Hp as ((((((_ & Hreq) & _) & _) & _) & _) &
                  (_ & (Hcount & Havail) & _) & Hpromo).
  destruct (required_fields_present data Hreq) as [Hid Hseats].
  unfold Trips.calculate_fare, new_booking, applied_promo, quoted_subtotal,
    requested_seats, promo_code_str in *.
  cbn [Trips.trip_id Trips.seat_ids Trips.promo_code Booking.num_seats
       Booking.subtotal Booking.discount_amount Booking.total_amount].
  rewrite Hid, Ht, Hcount. cbn [negb].
  destruct (seat_ids data) as [| i l] eqn:Eids; [contradiction |].
  rewrite <- Eids in *.
  rewrite <- no_unavailable_forallb in Havail.
  destruct (filter (fun s => negb (is_available s))
              (filter (selected (seat_ids data) (trip_id data)) (seats db)))
    as [| x xs] eqn:Eun; [| discriminate Havail].
  apply Z.eqb_eq in Hcount. rewrite Hcount.
  destruct (is_empty (upper (strip (promo_code data)))); [reflexivity |].
  destruct (promo_by_code db (upper (strip (promo_code data))))
    as [promo |]; [| discriminate Hpromo].
  rewrite !andb_true_iff in Hpromo. destruct Hpromo as ((Hv & _) & Hm).
  rewrite Hv. cbn [negb]. unfold minimum_met in Hm.
  apply negb_true_iff in Hm. rewrite Hm. reflexivity.
Qed.

Lemma quote_matches_booking_witness :
  exists b db',
    serve (create_booking 10 1 (sample_request [2; 3] "save10")) sample_db =
      (Reply 201 "Booking created successfully" (Some b), db') /\
    Trips.calculate_fare sample_db 10 (Trips.mkFareData 1 [2; 3] "save10") =
      Trips.Fare 2 (of_Z 100) (of_Z 10) (of_Z 90) (Some SAVE10).
Proof.
  exists (new_booking sample_db 1
            (Trip.make 1 1000 5000 10 10 TripStatus.SCHEDULED)
            (sample_request [2; 3] "save10")),
         (after_create sample_db 1
            (Trip.make 1 1000 5000 10 10 TripStatus.SCHEDULED)
            (sample_request [2; 3] "save10")).
  split; [vm_compute; reflexivity |].
  apply (quote_matches_booking sample_db 10 1
           (sample_request [2; 3] "save10") 201
           "Booking created successfully"
           (new_booking sample_db 1
              (Trip.make 1 1000 5000 10 10 TripStatus.SCHEDULED)
              (sample_request [2; 3] "save10"))
           (after_create sample_db 1
              (Trip.make 1 1000 5000 10 10 TripStatus.SCHEDULED)
              (sample_request [2; 3] "save10"))).
  - cbn. lia.
  - vm_compute. reflexivity.
Defined.

(** ** Who may do what *)

(** The admin gate: a caller who is unknown gets 404, one who is inactive
    or not an admin gets 403, and in each case the handler behind the gate
    does not run and the database stays as it was; for an active admin the
    gate is the handler. *)
Theorem admin_required_gate (h : M Response) db uid :
  serve (admin_required uid h) db =
  match get_user db uid with
  | None => (Error 404 "User not found", db)
  | Some user =>
      if negb (User.is_active user)
      then (Error 403 "User account is inactive", db)
      else if negb (UserRole.eqb (User.role user) UserRole.ADMIN)
      then (Error 403 "Insufficient permissions", db)
      else serve h db
  end.
Proof.
  unfold serve, admin_required, bind, query, found, require, ret, reply.
  cbn [working committed].
  destruct (get_user db uid) as [user |]; [| reflexivity].
  destruct (User.is_active user); [| reflexivity]. cbn [negb].
  destruct (UserRole.eqb (User.role user) UserRole.ADMIN); reflexivity.
Qed.

(** A booking of another user is out of reach: cancelling it and starting
    a payment for it answer 403, updating its payment status answers 400 or
    403, and nothing is written. *)
Theorem foreign_booking_refused db now uid bid b :
  get_booking db bid = Some b ->
  Booking.user_id b <> uid ->
  serve (cancel_booking now uid bid) db =
    (Error 403 "Unauthorized access to this booking", db) /\
  serve (Payments.initiate_payment uid bid) db =
    (Error 403 "Unauthorized access to this booking", db) /\
  forall status,
    exists code e,
      (code = 400 \/ code = 403) /\
      serve (update_payment_status uid bid status) db = (Error code e, db).
Proof.
  intros Hb Hu. apply Z.eqb_neq in Hu.
  repeat split.
  - unfold serve, cancel_booking, bind, query, found, require, ret, reply.
    cbn [working committed]. rewrite Hb, Hu. reflexivity.
  - unfold serve, Payments.initiate_payment, bind, query, found, require,
      ret, reply.
    cbn [working committed]. rewrite Hb, Hu. reflexivity.
  - intros status.
    unfold serve, update_payment_status, bind, query, found, require, ret,
      reply.
    cbn [working committed].
    destruct (negb (is_empty (lower status))); [| eauto 6].
    destruct (String.eqb (lower status) "paid" ||
              String.eqb (lower status) "failed"); [| eauto 6].
    rewrite Hb, Hu. eauto 6.
Qed.

Lemma foreign_booking_refused_witness :
  serve (cancel_booking 20 2 1) booked_db =
    (Error 403 "Unauthorized access to this booking", booked_db) /\
  serve (Payments.initiate_payment 2 1) booked_db =
    (Error 403 "Unauthorized access to this booking", booked_db).
Proof.
  destruct (foreign_booking_refused booked_db 20 2 1
              (Booking.make 1 1 1 None (of_Z 150) (S754_zero false)
                 (of_Z 150) BookingStatus.CONFIRMED PaymentStatus.UNPAID 3))
    as (Hc & Hi & _).
  - vm_compute. reflexivity.
  - vm_compute. discriminate.
  - split; [exact Hc | exact Hi].
Defined.

(** ** Cancelling, once *)

Lemma get_booking_after_cancel db b t c :
  get_booking (after_cancel db b t) c =
  option_map (cancelled_row b) (get_booking db c).
Proof.
  unfold get_booking. rewrite bookings_after_cancel.
  apply find_map_same. intros x. rewrite cancelled_row_id. reflexivity.
Qed.

Lemma payments_after_cancel db b t :
  payments (after_cancel db b t) = payments db /\
  users (after_cancel db b t) = users db.
Proof.
  unfold after_cancel.
  destruct (PaymentStatus.eqb (Booking.payment_status b) PaymentStatus.PAID),
    (Booking.promo_code_id b) as [pid |];
    try destruct (negb (pid =? 0)); try destruct (get_promo_code db pid);
    split; reflexivity.
Qed.

Lemma cancelled_row_self b :
  cancelled_row b b =
  Booking.with_payment_status
    (if PaymentStatus.eqb (Booking.payment_status b) PaymentStatus.PAID
     then PaymentStatus.REFUNDED else Booking.payment_status b)
    (Booking.with_booking_status BookingStatus.CANCELLED b).
Proof.
  unfold cancelled_row, this_booking. rewrite Z.eqb_refl.
  destruct (PaymentStatus.eqb (Booking.payment_status b) PaymentStatus.PAID);
    destruct b; reflexivity.
Qed.

(** What a cancellation writes to the bookings: the cancelled booking keeps
    its amounts, seats count and promo code, its status becomes [cancelled]
    and its payment status becomes [refunded] when it was [paid] and stays
    as it was otherwise; every other booking, the users and the payment
    records are as before. *)
Theorem cancel_booking_effect db now uid bid code msg bk db' :
  serve (cancel_booking now uid bid) db = (Reply code msg bk, db') ->
  exists b,
    get_booking db bid = Some b /\
    bk = get_booking db' bid /\
    get_booking db' bid =
      Some (Booking.with_payment_status
              (if PaymentStatus.eqb (Booking.payment_status b)
                    PaymentStatus.PAID
               then PaymentStatus.REFUNDED else Booking.payment_status b)
              (Booking.with_booking_status BookingStatus.CANCELLED b)) /\
    (forall c, c <> bid -> get_booking db' c = get_booking db c) /\
    payments db' = payments db /\ users db' = users db.
Proof.
  intros H.
  destruct (cancel_booking_served db now uid bid)
    as [(_ & b & t & Hb & _ & E) | (_ & c & e & E)];
    rewrite E in H; [| discriminate H].
  injection H as _ _ <- <-.
  exists b. split; [exact Hb |]. split; [reflexivity |].
  split; [| split].
  - rewrite get_booking_after_cancel, Hb. cbn [option_map].
    rewrite cancelled_row_self. reflexivity.
  - intros c Hc. rewrite get_booking_after_cancel.
    destruct (get_booking db c) as [x |] eqn:Ex; [| reflexivity].
    cbn [option_map]. unfold cancelled_row, this_booking.
    rewrite (get_booking_id _ _ _ Ex), (get_booking_id _ _ _ Hb).
    destruct (Z.eqb_spec c bid); [contradiction | reflexivity].
  - apply payments_after_cancel.
Qed.

Lemma cancel_booking_effect_witness :
  exists b,
    get_booking booked_db 1 = Some b /\
    option_map Booking.booking_status (get_booking cancelled_db 1) =
      Some BookingStatus.CANCELLED /\
    payments cancelled_db = payments booked_db.
Proof.
  destruct (cancel_booking_effect booked_db 20 1 1 200
              "Booking cancelled successfully"
              (get_booking cancelled_db 1) cancelled_db)
    as (b & Hb & _ & Hb' & _ & Hp & _).
  - vm_compute. reflexivity.
  - exists b. split; [exact Hb |]. split; [| exact Hp].
    rewrite Hb'. reflexivity.
Defined.



(** ** No seat is sold twice *)




(** ** What a handler leaves alone *)

Section Preserves.

Variable P : DB -> Prop.

Lemma preserves_ret {A} (a : A) : preserves P (ret a).
Proof. intros s res s' Hc Hw E. inversion E; subst. auto. Qed.

Lemma preserves_reply {A} r : preserves P (@reply A r).
Proof. intros s res s' Hc Hw E. inversion E; subst. auto. Qed.

Lemma preserves_query : preserves P query.
Proof. intros s res s' Hc Hw E. inversion E; subst. auto. Qed.

Lemma preserves_commit : preserves P commit.
Proof. intros s res s' Hc Hw E. inversion E; subst. auto. Qed.

Lemma preserves_write f :
  (forall d, P d -> P (f d)) -> preserves P (write f).
Proof. intros Hf s res s' Hc Hw E. inversion E; subst. simpl. auto. Qed.

Lemma preserves_require c code e : preserves P (require c code e).
Proof. destruct c; [apply preserves_ret | apply preserves_reply]. Qed.

Lemma preserves_found {A} (x : option A) code e :
  preserves P (found x code e).
Proof. destruct x; [apply preserves_ret | apply preserves_reply]. Qed.

Lemma preserves_bind {A B} (m : M A) (k : A -> M B) :
  preserves P m -> (forall a, preserves P (k a)) -> preserves P (bind m k).
Proof.
  intros Hm Hk s res s' Hc Hw E. unfold bind in E.
  destruct (m s) as [[r | a] s1] eqn:Em.
  - inversion E; subst. exact (Hm s _ _ Hc Hw Em).
  - destruct (Hm s _ _ Hc Hw Em) as [Hc1 Hw1].
    exact (Hk a s1 _ _ Hc1 Hw1 E).
Qed.

Lemma preserves_served (h : M Response) db :
  preserves P h -> P db -> P (snd (serve h db)).
Proof.
  intros Hh Hdb. unfold serve.
  destruct (h (mkSession db db)) as [[r | r] s] eqn:E;
    apply (Hh (mkSession db db) _ _ Hdb Hdb E).
Qed.

End Preserves.

Ltac preserves_tac :=
  repeat first
    [ apply preserves_ret | apply preserves_reply | apply preserves_query
    | apply preserves_commit | apply preserves_require
    | apply preserves_found
    | apply preserves_bind; [ | intros ? ]
    | apply preserves_write;
      let d := fresh "d" in let Hd := fresh "Hd" in
      intros d Hd; exact Hd
    | match goal with
      | |- preserves _ (if ?c then _ else _) => destruct c
      | |- preserves _ (match ?x with Some _ => _ | None => _ end) =>
          destruct x
      end ].

Lemma admin_required_preserves P uid (h : M Response) :
  preserves P h -> preserves P (admin_required uid h).
Proof. intros Hh. unfold admin_required. preserves_tac. exact Hh. Qed.

(** The admin's booking handlers never write to the promo codes, the users
    or the payment records.  In particular a booking that an admin cancels
    or deletes leaves the [used_count] of its promo code as it was, where
    the user's own cancel lowers it. *)
Theorem admin_booking_handlers_keep_promo_codes db uid bid data :
  same_promos_users_payments db
    (snd (serve (admin_required uid
                   (AdminBookings.update_booking_status bid data)) db)) /\
  same_promos_users_payments db
    (snd (serve (admin_required uid
                   (AdminBookings.update_payment_status bid data)) db)) /\
  same_promos_users_payments db
    (snd (serve (admin_required uid (AdminBookings.delete_booking bid)) db)).
Proof.
  assert (H0 : same_promos_users_payments db db) by (repeat split).
  split; [| split];
    (apply (preserves_served (same_promos_users_payments db)); [| exact H0]);
    apply admin_required_preserves.
  - unfold AdminBookings.update_booking_status. preserves_tac.
  - unfold AdminBookings.update_payment_status. preserves_tac.
  - unfold AdminBookings.delete_booking. preserves_tac.
Qed.

(** ** Early answers are errors *)

Lemma errs_ret {A} (a : A) : errs (ret a).
Proof. intros s r s' E. discriminate E. Qed.

Lemma errs_reply {A} code e : errs (@reply A (Error code e)).
Proof. intros s r s' E. inversion E; subst. eauto. Qed.

Lemma errs_query : errs query.
Proof. intros s r s' E. discriminate E. Qed.

Lemma errs_write f : errs (write f).
Proof. intros s r s' E. discriminate E. Qed.

Lemma errs_commit : errs commit.
Proof. intros s r s' E. discriminate E. Qed.

Lemma errs_require c code e : errs (require c code e).
Proof. destruct c; [apply errs_ret | apply errs_reply]. Qed.

Lemma errs_found {A} (x : option A) code e : errs (found x code e).
Proof. destruct x; [apply errs_ret | apply errs_reply]. Qed.

Lemma errs_bind {A B} (m : M A) (k : A -> M B) :
  errs m -> (forall a, errs (k a)) -> errs (bind m k).
Proof.
  intros Hm Hk s r s' E. unfold bind in E.
  destruct (m s) as [[r1 | a] s1] eqn:Em.
  - inversion E; subst. exact (Hm s _ _ Em).
  - exact (Hk a s1 _ _ E).
Qed.

Ltac errs_tac :=
  repeat first
    [ apply errs_ret | apply errs_reply | apply errs_query
    | apply errs_write | apply errs_commit | apply errs_require
    | apply errs_found
    | apply errs_bind; [ | intros ? ]
    | match goal with
      | |- errs (if ?c then _ else _) => destruct c
      | |- errs (match ?x with Some _ => _ | None => _ end) => destruct x
      end ].

(** A handler that answers with a reply ran to its end. *)
Lemma served_reply (h : M Response) db code msg bk db' :
  errs h ->
  serve h db = (Reply code msg bk, db') ->
  exists s, h (mkSession db db) = (inr (Reply code msg bk), s) /\
            committed s = db'.
Proof.
  intros Hh. unfold serve.
  destruct (h (mkSession db db)) as [[r | r] s] eqn:E; intros H;
    inversion H; subst.
  - destruct (Hh _ _ _ E) as (c & e & Hr). discriminate Hr.
  - exists s. auto.
Qed.

Lemma admin_required_errs uid (h : M Response) :
  errs h -> errs (admin_required uid h).
Proof. intros Hh. unfold admin_required. errs_tac. exact Hh. Qed.

Lemma delete_booking_errs bid : errs (AdminBookings.delete_booking bid).
Proof. unfold AdminBookings.delete_booking. errs_tac. Qed.

Lemma update_booking_status_errs bid data :
  errs (AdminBookings.update_booking_status bid data).
Proof. unfold AdminBookings.update_booking_status. errs_tac. Qed.

Lemma update_payment_status_errs uid bid st :
  errs (update_payment_status uid bid st).
Proof. unfold update_payment_status. errs_tac. Qed.

Lemma process_payment_errs uid pid ok :
  errs (Payments.process_payment uid pid ok).
Proof. unfold Payments.process_payment. errs_tac. Qed.

Lemma update_seat_errs tid sid data : errs (AdminTrips.update_seat tid sid data).
Proof. unfold AdminTrips.update_seat. errs_tac. Qed.

(** ** The admin's delete *)

Lemma delete_booking_reply db bid code msg bk db' :
  serve (AdminBookings.delete_booking bid) db = (Reply code msg bk, db') ->
  exists b t,
    get_booking db bid = Some b /\
    (is_cancelled b = false -> get_trip db (Booking.trip_id b) = Some t) /\
    db' = after_delete db b t.
Proof.
  intros H.
  destruct (served_reply _ _ _ _ _ _ (delete_booking_errs bid) H)
    as (s & Hs & <-).
  clear H. rename Hs into H.
  unfold AdminBookings.delete_booking in H.
  repeat (step_in H). apply ret_inr in H. destruct H as [_ ->].
  cbn [committed working].
  match goal with
  | Hb : get_booking db bid = Some ?b |- _ => exists b
  end.
  unfold after_delete, this_booking.
  match goal with
  | Hm : (if ?c then _ else _) _ = (inr _, _) |- _ => destruct c eqn:Hc
  end.
  - repeat step_any.
    match goal with
    | Ht : get_trip db _ = Some ?t |- _ => exists t
    end.
    split; [assumption |]. split; [intros _; assumption |].
    match goal with
    | Hm : write _ _ = (inr _, _) |- _ => apply write_inr in Hm; subst
    end.
    reflexivity.
  - exists (Trip.make 0 0 0 0 0 TripStatus.SCHEDULED).
    split; [assumption |].
    apply negb_false_iff in Hc.
    split; [intros Hx; rewrite Hc in Hx; discriminate Hx |].
    match goal with
    | Hm : ret _ _ = (inr _, _) |- _ =>
        apply ret_inr in Hm; destruct Hm as [_ ->]
    end.
    reflexivity.
Qed.

Lemma find_filter_none {A} (p q : A -> bool) l :
  (forall x, p x = true -> q x = false) -> find p (filter q l) = None.
Proof.
  intros H. induction l as [| x l IH]; simpl; [reflexivity |].
  destruct (q x) eqn:Eq; [| exact IH]. simpl.
  destruct (p x) eqn:Ep; [| exact IH].
  rewrite (H x Ep) in Eq. discriminate Eq.
Qed.

Lemma filter_held_released i l :
  filter (held_by i) (update_where (held_by i) release l) = [].
Proof.
  induction l as [| s l IH]; simpl; [reflexivity |].
  destruct (held_by i s) eqn:E; [simpl | rewrite E]; exact IH.
Qed.

(** A seat never refers to a cancelled booking. *)
Lemma cancelled_holds_nothing db bid b :
  seats_ok db = true -> get_booking db bid = Some b ->
  is_cancelled b = true -> booking_seats db bid = [].
Proof.
  unfold seats_ok, booking_seats. rewrite forallb_forall.
  intros Hs Hb Hc.
  induction (seats db) as [| s l IH]; simpl; [reflexivity |].
  rewrite IH by (intros x Hx; apply Hs; right; exact Hx).
  destruct (held_by bid s) eqn:E; [exfalso | reflexivity].
  specialize (Hs s (or_introl eq_refl)). unfold seat_ok, held_by in *.
  destruct (Seat.booking_id s) as [c |]; [| discriminate E].
  apply Z.eqb_eq in E. subst c. rewrite Hb in Hs.
  rewrite live_not_cancelled in Hs. unfold is_cancelled in Hc.
  rewrite Hc, andb_false_r in Hs. discriminate Hs.
Qed.

(** After the admin's delete of a booking without payment records the
    booking is gone for good: it can no longer be found, no seat refers to
    it, every seat it held is available again with no booking reference, and
    the other bookings are as before. *)
Theorem delete_booking_removes db bid code msg bk db' :
  seats_ok db = true ->
  filter (fun p => Payment.booking_id p =? bid) (payments db) = [] ->
  serve (AdminBookings.delete_booking bid) db = (Reply code msg bk, db') ->
  get_booking db' bid = None /\
  booking_seats db' bid = [] /\
  (forall s, In s (booking_seats db bid) -> In (release s) (seats db')) /\
  (forall c, c <> bid -> get_booking db' c = get_booking db c).
Proof.
  intros Hs _ H.
  destruct (delete_booking_reply _ _ _ _ _ _ H) as (b & t & Hb & _ & ->).
  pose proof (get_booking_id _ _ _ Hb) as Hid.
  split; [| split; [| split]].
  - unfold get_booking. rewrite bookings_after_delete.
    apply find_filter_none. intros x Hx. apply negb_false_iff.
    unfold this_booking. rewrite Hid. exact Hx.
  - unfold booking_seats. rewrite seats_after_delete.
    destruct (is_cancelled b) eqn:Ec; cbn [negb].
    + apply (cancelled_holds_nothing db bid b); assumption.
    + rewrite Hid. apply filter_held_released.
  - intros s Hin. rewrite seats_after_delete.
    destruct (is_cancelled b) eqn:Ec; cbn [negb].
    + rewrite (cancelled_holds_nothing db bid b) in Hin by assumption.
      contradiction.
    + unfold booking_seats in Hin. apply filter_In in Hin.
      destruct Hin as [Hin Hh]. apply In_update_where.
      exists s. rewrite Hid, Hh. auto.
  - intros c Hc. apply get_booking_after_delete. congruence.
Qed.

Lemma delete_booking_removes_witness :
  get_booking (snd (serve (AdminBookings.delete_booking 1) booked_db)) 1
    = None /\
  booking_seats (snd (serve (AdminBookings.delete_booking 1) booked_db)) 1
    = [].
Proof.
  destruct (delete_booking_removes booked_db 1 200
              "Booking deleted successfully" None
              (snd (serve (AdminBookings.delete_booking 1) booked_db)))
    as (Hg & Hs & _).
  - vm_compute. reflexivity.
  - vm_compute. reflexivity.
  - vm_compute. reflexivity.
  - split; [exact Hg | exact Hs].
Defined.

(** ** The user's payment update *)

(** The user's payment update writes one column: on success the caller's
    own, not cancelled booking gets the payment status [paid] or [failed] it
    asked for, and every other booking, the seats, the trips, the promo
    codes and the payment records are as before.  No payment record is
    needed for [paid]. *)
Theorem update_payment_status_effect db uid bid status code msg bk db' :
  serve (update_payment_status uid bid status) db = (Reply code msg bk, db') ->
  exists b,
    get_booking db bid = Some b /\
    Booking.user_id b = uid /\ is_cancelled b = false /\
    (lower status = "paid" \/ lower status = "failed") /\
    get_booking db' bid =
      Some (Booking.with_payment_status
              (if String.eqb (lower status) "paid"
               then PaymentStatus.PAID else PaymentStatus.FAILED) b) /\
    (forall c, c <> bid -> get_booking db' c = get_booking db c) /\
    seats db' = seats db /\ trips db' = trips db /\
    promo_codes db' = promo_codes db /\ payments db' = payments db.
Proof.
  intros H.
  destruct (served_reply _ _ _ _ _ _ (update_payment_status_errs uid bid status)
              H) as (s & Hs & <-).
  clear H. rename Hs into H. unfold update_payment_status in H.
  repeat (step_in H). apply ret_inr in H. destruct H as [_ ->].
  cbn [committed working].
  match goal with
  | Hb : get_booking db bid = Some ?b |- _ =>
      exists b; pose proof (get_booking_id _ _ _ Hb) as Hid
  end.
  repeat match goal with
         | Hx : (_ =? _) = true |- _ => apply Z.eqb_eq in Hx
         | Hx : negb _ = true |- _ => apply negb_true_iff in Hx
         | Hx : _ || _ = true |- _ => apply orb_true_iff in Hx
         end.
  repeat split; try assumption.
  - match goal with
    | Hx : _ \/ _ |- _ =>
        destruct Hx as [Hx | Hx]; apply String.eqb_eq in Hx; auto
    end.
  - unfold get_booking. cbn [bookings with_bookings].
    rewrite find_update_where by reflexivity.
    match goal with
    | Hb : get_booking db bid = Some ?b |- _ =>
        unfold get_booking in Hb; rewrite Hb
    end.
    cbn [option_map]. rewrite Z.eqb_refl. reflexivity.
  - intros c Hc. unfold get_booking. cbn [bookings with_bookings].
    rewrite find_update_where by reflexivity.
    destruct (find (fun b => Booking.id b =? c) (bookings db)) as [x |] eqn:Ex;
      [| reflexivity].
    cbn [option_map]. apply find_some in Ex. destruct Ex as [_ Ex].
    apply Z.eqb_eq in Ex. rewrite Ex, Hid.
    destruct (Z.eqb_spec c bid); [contradiction | reflexivity].
Qed.

Lemma update_payment_status_effect_witness :
  exists b,
    get_booking booked_db 1 = Some b /\
    option_map Booking.payment_status
      (get_booking (snd (serve (update_payment_status 1 1 "PAID") booked_db)) 1)
      = Some PaymentStatus.PAID /\
    payments (snd (serve (update_payment_status 1 1 "PAID") booked_db)) = [].
Proof.
  destruct (update_payment_status_effect booked_db 1 1 "PAID" 200
              "Payment status updated successfully"
              (get_booking
                 (snd (serve (update_payment_status 1 1 "PAID") booked_db)) 1)
              (snd (serve (update_payment_status 1 1 "PAID") booked_db)))
    as (b & Hb & _ & _ & _ & Hb' & _ & _ & _ & _ & Hp).
  - vm_compute. reflexivity.
  - exists b. split; [exact Hb |]. split.
    + rewrite Hb'. reflexivity.
    + rewrite Hp. reflexivity.
Defined.

(** ** A seat that a booking holds *)

(** The admin's seat update cannot change the status of a seat that is
    booked and held by a booking: whatever status is asked for, and whatever
    else the request changes, the answer is 400 and nothing is written. *)
Theorem held_seat_status_locked db tid sid seat data v :
  find (this_seat tid sid) (seats db) = Some seat ->
  is_booked seat = true ->
  truthy (Seat.booking_id seat) = true ->
  AdminTrips.status data = Some v ->
  exists e, serve (AdminTrips.update_seat tid sid data) db = (Error 400 e, db).
Proof.
  intros Hf Hb Ht Hv. unfold is_booked in Hb.
  unfold serve, AdminTrips.update_seat.
  fold (this_seat tid sid).
  unfold bind, query, found, require, write, ret, reply.
  cbn [working committed]. rewrite Hf, Hv.
  destruct (AdminTrips.seat_class data) as [c |];
    [destruct (SeatClass.of_value (lower c)); [| eauto] |];
    cbn [working committed];
    (destruct (SeatStatus.of_value (lower v)); [| eauto]);
    rewrite Hb, Ht; cbn [andb negb]; eauto.
Qed.

Lemma held_seat_status_locked_witness :
  exists e,
    serve (AdminTrips.update_seat 1 2
             (AdminTrips.mkSeatData (Some "business") (Some "available")))
          booked_db = (Error 400 e, booked_db).
Proof.
  apply (held_seat_status_locked booked_db 1 2
           (AdminBookings.rebook 1 (sample_seat 2))
           (AdminTrips.mkSeatData (Some "business") (Some "available"))
           "available"); vm_compute; reflexivity.
Defined.
(** ** Which payments are processed *)

Lemma get_payment_id db i p : get_payment db i = Some p -> Payment.id p = i.
Proof.
  unfold get_payment. intros H. apply find_some in H. destruct H as [_ H].
  apply Z.eqb_eq. exact H.
Qed.

(** [process_payment] decides on the payment's own status alone.  When it
    answers with a reply, the payment was neither success, failed nor
    cancelled, and it is left as success (the gateway accepted) or failed
    (the gateway refused).  On a payment that is success, failed or
    cancelled it answers 400 (403 for another caller) and writes nothing,
    so the request that directly follows a processed payment is refused.
    Every other status passes: the owner's request for an initiated,
    processing or refunded payment is served, so a payment that has been
    refunded is processed once more. *)
Theorem process_payment_by_status db uid pid ok :
  (forall code msg bk db',
     serve (Payments.process_payment uid pid ok) db
       = (Reply code msg bk, db') ->
     exists p,
       get_payment db pid = Some p /\
       processed (Payment.status p) = false /\
       get_payment db' pid =
         Some (Payment.with_status
                 (if ok then TransactionStatus.SUCCESS
                  else TransactionStatus.FAILED) p) /\
       forall uid' ok',
         exists code' e,
           (code' = 400 \/ code' = 403) /\
           serve (Payments.process_payment uid' pid ok') db'
             = (Error code' e, db')) /\
  (forall p,
     get_payment db pid = Some p ->
     processed (Payment.status p) = true ->
     exists code e,
       (code = 400 \/ code = 403) /\
       serve (Payments.process_payment uid pid ok) db = (Error code e, db)) /\
  (forall p b,
     get_payment db pid = Some p ->
     Payment.user_id p = uid ->
     processed (Payment.status p) = false ->
     get_booking db (Payment.booking_id p) = Some b ->
     exists code msg bk db',
       serve (Payments.process_payment uid pid ok) db
         = (Reply code msg bk, db')).
Proof.
  assert (Hrefuse : forall d u o p,
            get_payment d pid = Some p ->
            processed (Payment.status p) = true ->
            exists code e,
              (code = 400 \/ code = 403) /\
              serve (Payments.process_payment u pid o) d = (Error code e, d)).
  { intros d u o p Hp Hst.
    unfold serve, Payments.process_payment, bind, query, found, require, ret,
      reply.
    cbn [working committed]. rewrite Hp.
    destruct (Payment.user_id p =? u); [| eauto 6].
    destruct (Payment.status p); try discriminate Hst; eauto 6. }
  split; [| split].
  - intros code msg bk db' H.
    destruct (served_reply _ _ _ _ _ _ (process_payment_errs uid pid ok) H)
      as (s & Hs & <-).
    clear H. rename Hs into H. unfold Payments.process_payment in H.
    repeat (step_in H).
    match goal with
    | Hp : get_payment db pid = Some ?p |- _ =>
        exists p; split; [exact Hp |];
        assert (Hlive : processed (Payment.status p) = false)
          by (unfold processed; destruct (Payment.status p);
              try discriminate; reflexivity);
        split; [exact Hlive |];
        assert (Hend : get_payment (committed s) pid =
                       Some (Payment.with_status
                               (if ok then TransactionStatus.SUCCESS
                                else TransactionStatus.FAILED) p))
    end.
    { destruct ok; repeat (step_in H); apply ret_inr in H;
        destruct H as [_ ->]; cbn [committed working];
        match goal with
        | Hp : get_payment db pid = Some ?p |- _ =>
            pose proof (get_payment_id _ _ _ Hp) as Hid;
            unfold get_payment in *;
            cbn [payments with_payments with_bookings];
            rewrite !find_update_where by reflexivity;
            rewrite Hp
        end;
        cbn [option_map];
        repeat (cbn [Payment.id Payment.with_status Payment.status];
                rewrite ?Hid, ?Z.eqb_refl);
        reflexivity. }
    split; [exact Hend |].
    intros uid' ok'. apply (Hrefuse _ uid' ok' _ Hend).
    destruct ok; reflexivity.
  - intros p Hp Hst. apply (Hrefuse db uid ok p Hp Hst).
  - intros p b Hp Hu Hst Hb.
    unfold serve, Payments.process_payment, bind, query, found, require,
      write, commit, ret, reply.
    cbn [working committed]. rewrite Hp.
    apply Z.eqb_eq in Hu. rewrite Hu.
    assert (Hpass : match Payment.status p with
                    | TransactionStatus.SUCCESS | TransactionStatus.FAILED
                    | TransactionStatus.CANCELLED => false
                    | _ => true
                    end = true)
      by (unfold processed in Hst; destruct (Payment.status p);
          try discriminate Hst; reflexivity).
    rewrite Hpass. cbn [working committed].
    destruct ok; cbn [working committed]; [rewrite Hb |];
      cbn [working committed]; eauto 8.
Qed.

Lemma process_payment_by_status_witness :
  (exists code e,
     serve (Payments.process_payment 1 1 true) paid_db
       = (Error code e, paid_db)) /\
  (exists code msg bk db',
     serve (Payments.process_payment 1 1 true) refunded_db
       = (Reply code msg bk, db')).
Proof.
  split.
  - destruct (process_payment_by_status paying_db 1 1 true) as (H & _ & _).
    destruct (H 200 "✅ Payment processed successfully (DEMO)"
                (get_booking paid_db 1) paid_db) as (p & _ & _ & _ & Hno).
    + vm_compute. reflexivity.
    + destruct (Hno 1 true) as (c & e & _ & E). exists c, e. exact E.
  - destruct (process_payment_by_status refunded_db 1 1 true) as (_ & _ & H).
    apply (H (Payment.make 1 1 1 (of_Z 150) TransactionStatus.REFUNDED)
             (Booking.make 1 1 1 None (of_Z 150) (S754_zero false)
                (of_Z 150) BookingStatus.CONFIRMED PaymentStatus.REFUNDED 3)).
    + vm_compute. reflexivity.
    + reflexivity.
    + reflexivity.
    + vm_compute. reflexivity.
Defined.

(** ** The admin's status update, twice *)

Lemma with_bookings_same (g : list Booking.t -> list Booking.t) db :
  g (bookings db) = bookings db -> with_bookings g db = db.
Proof. intros E. destruct db. unfold with_bookings. cbn in *. rewrite E. reflexivity. Qed.

Lemma update_where_none_change {A} (sel : A -> bool) (f : A -> A) l :
  (forall x, In x l -> sel x = true -> f x = x) -> update_where sel f l = l.
Proof.
  intros H. induction l as [| x l IH]; simpl; [reflexivity |].
  rewrite IH by (intros y Hy; apply H; right; exact Hy).
  destruct (sel x) eqn:E; [| reflexivity].
  rewrite (H x (or_introl eq_refl) E). reflexivity.
Qed.

Lemma with_booking_status_same st x :
  Booking.booking_status x = st -> Booking.with_booking_status st x = x.
Proof. intros <-. destruct x. reflexivity. Qed.

(** What a successful status update leaves behind: the booking is there
    with the new status, and so is every row of its id. *)
Lemma update_booking_status_reply db bid data code msg bk db' :
  serve (AdminBookings.update_booking_status bid data) db
    = (Reply code msg bk, db') ->
  exists raw new_status b',
    data = Some raw /\
    BookingStatus.of_value (lower raw) = Some new_status /\
    get_booking db' bid = Some b' /\
    Booking.booking_status b' = new_status /\
    (forall x, In x (bookings db') -> Booking.id x = bid ->
               Booking.booking_status x = new_status) /\
    code = 200 /\ msg = "Booking status updated successfully" /\
    bk = Some b'.
Proof.
  intros H.
  destruct (served_reply _ _ _ _ _ _ (update_booking_status_errs bid data) H)
    as (s & Hs & <-).
  clear H. rename Hs into H.
  unfold AdminBookings.update_booking_status in H.
  repeat (step_in H). apply ret_inr in H. destruct H as [H ->].
  injection H as -> -> ->.
  cbn [committed working].
  match goal with
  | Hb : get_booking db bid = Some ?b, Hd : data = Some ?raw,
    Hn : BookingStatus.of_value _ = Some ?n,
    Hrun : _ (mkSession db db) = (inr _, ?s1) |- _ =>
      pose proof (get_booking_id _ _ _ Hb) as Hid;
      rename b into a, n into a1, s1 into s0;
      exists raw, a1;
      assert (Hmid : exists b0, get_booking (working s0) bid = Some b0)
  end.
  { match goal with
    | Hm : (if ?c then _ else _) _ = (inr _, _) |- _ =>
        destruct c;
        [ | match type of Hm with
            | (if ?c2 then _ else _) _ = _ => destruct c2
            end ]
    end;
    repeat step_any;
    repeat match goal with
    | Hm : (if ?c then _ else _) _ = (inr _, _) |- _ => destruct c
    | Hm : write _ _ = (inr _, _) |- _ => apply write_inr in Hm; subst
    | Hm : ret _ _ = (inr _, _) |- _ =>
        apply ret_inr in Hm; destruct Hm as [_ Hm]; subst
    end;
    cbn [working committed]; unfold get_booking in *;
    cbn [bookings with_bookings with_seats with_trips];
    rewrite ?find_update_where by reflexivity;
    match goal with
    | Hb : find _ (bookings db) = Some _ |- _ => rewrite Hb
    end; eexists; reflexivity. }
  destruct Hmid as (b0 & Hb0).
  pose proof (get_booking_id _ _ _ Hb0) as Hid0.
  exists (Booking.with_booking_status a1 b0).
  split; [assumption |]. split; [assumption |].
  assert (Hget : get_booking
            (with_bookings
               (update_where (fun b => Booking.id b =? Booking.id a)
                  (Booking.with_booking_status a1)) (working s0)) bid =
          Some (Booking.with_booking_status a1 b0)).
  { unfold get_booking in *. cbn [bookings with_bookings].
    rewrite find_update_where by reflexivity. rewrite Hb0.
    cbn [option_map]. rewrite Hid0, Hid, Z.eqb_refl. reflexivity. }
  split; [exact Hget |]. split; [reflexivity |].
  split; [| split; [reflexivity | split; [reflexivity | exact Hget]]].
  intros x Hx Hxid. cbn [bookings with_bookings] in Hx.
  apply In_update_where in Hx. destruct Hx as (y & _ & ->).
  destruct (Booking.id y =? Booking.id a) eqn:E; [reflexivity |].
  apply Z.eqb_neq in E. congruence.
Qed.

(** The admin's status update is idempotent on the database: when it has
    succeeded, the same update sent again succeeds too and leaves the
    database as the first one left it.  Counters and seats move at most
    once, also for a cancellation. *)
Theorem update_booking_status_idempotent db bid data code msg bk db' :
  serve (AdminBookings.update_booking_status bid data) db
    = (Reply code msg bk, db') ->
  exists code' msg' bk',
    serve (AdminBookings.update_booking_status bid data) db'
      = (Reply code' msg' bk', db').
Proof.
  intros H.
  destruct (update_booking_status_reply _ _ _ _ _ _ _ H)
    as (raw & st & b' & -> & Hst & Hb' & Hnew & Hall & -> & -> & ->).
  assert (Hsame : with_bookings
            (update_where (fun b => Booking.id b =? Booking.id b')
               (Booking.with_booking_status st)) db' = db').
  { apply with_bookings_same. apply update_where_none_change.
    intros x Hx Hsel. apply with_booking_status_same.
    apply Hall; [exact Hx |]. apply Z.eqb_eq in Hsel.
    rewrite Hsel. apply (get_booking_id _ _ _ Hb'). }
  unfold serve, AdminBookings.update_booking_status, bind, query, found,
    require, write, commit, ret, reply.
  cbn [working committed]. rewrite Hb', Hst, Hnew, andb_negb_r.
  cbn [working committed]. rewrite Hsame, Hb'. eauto.
Qed.

Lemma update_booking_status_idempotent_witness :
  snd (serve (AdminBookings.update_booking_status 1 (Some "cancelled"))
             (snd (serve (AdminBookings.update_booking_status 1
                            (Some "cancelled")) booked_db))) =
  snd (serve (AdminBookings.update_booking_status 1 (Some "cancelled"))
             booked_db).
Proof.
  destruct (update_booking_status_idempotent booked_db 1 (Some "cancelled")
              200 "Booking status updated successfully"
              (booking_of (fst (serve (AdminBookings.update_booking_status 1
                                         (Some "cancelled")) booked_db)))
              (snd (serve (AdminBookings.update_booking_status 1
                             (Some "cancelled")) booked_db)))
    as (c & m & b & E).
  - vm_compute. reflexivity.
  - rewrite E. reflexivity.
Defined.

(** ** The promo switch and the promo delete *)

Import AdminPromos.

(** A handler either stops with an error and the database as it was, or
    runs to its end. *)
Lemma served_cases (h : M Response) db r db' :
  clean h -> errs h ->
  serve h db = (r, db') ->
  (exists code e, r = Error code e /\ db' = db) \/
  (exists s, h (mkSession db db) = (inr r, s) /\ committed s = db').
Proof.
  intros Hc He. unfold serve.
  destruct (h (mkSession db db)) as [[r0 | r0] s] eqn:E; intros H;
    inversion H; subst.
  - left. destruct (He _ _ _ E) as (c & e & ->).
    exists c, e. split; [reflexivity |]. exact (Hc _ _ _ E).
  - right. exists s. auto.
Qed.

Lemma toggle_promo_code_clean pid : clean (toggle_promo_code pid).
Proof. unfold toggle_promo_code. clean_tac. Qed.

Lemma toggle_promo_code_errs pid : errs (toggle_promo_code pid).
Proof. unfold toggle_promo_code. errs_tac. Qed.

Lemma delete_promo_code_clean pid : clean (delete_promo_code pid).
Proof. unfold delete_promo_code. clean_tac. Qed.

Lemma delete_promo_code_errs pid : errs (delete_promo_code pid).
Proof. unfold delete_promo_code. errs_tac. Qed.

Lemma get_promo_code_id db i p :
  get_promo_code db i = Some p -> PromoCode.id p = i.
Proof.
  unfold get_promo_code. intros H. apply find_some in H.
  destruct H as [_ H]. apply Z.eqb_eq. exact H.
Qed.

Lemma with_promo_codes_same (g : list PromoCode.t -> list PromoCode.t) db :
  g (promo_codes db) = promo_codes db -> with_promo_codes g db = db.
Proof.
  intros E. destruct db. unfold with_promo_codes. cbn in *.
  rewrite E. reflexivity.
Qed.

Lemma with_promo_codes_twice (f g : list PromoCode.t -> list PromoCode.t) db :
  with_promo_codes g (with_promo_codes f db) =
  with_promo_codes (fun l => g (f l)) db.
Proof. destruct db. reflexivity. Qed.

Lemma toggle_promo_code_reply db pid code msg bk db' :
  serve (toggle_promo_code pid) db = (Reply code msg bk, db') ->
  exists p,
    get_promo_code db pid = Some p /\
    db' = with_promo_codes
            (update_where (fun q => PromoCode.id q =? pid)
               (with_is_active (negb (PromoCode.is_active p)))) db.
Proof.
  intros H.
  destruct (served_reply _ _ _ _ _ _ (toggle_promo_code_errs pid) H)
    as (s & Hs & <-).
  clear H. rename Hs into H. unfold toggle_promo_code in H.
  repeat (step_in H). apply ret_inr in H. destruct H as [_ ->].
  cbn [committed working].
  match goal with
  | Hp : get_promo_code db pid = Some ?p |- _ =>
      exists p; rewrite (get_promo_code_id _ _ _ Hp); auto
  end.
Qed.

(** The promo switch is its own inverse: switching a code twice gives back
    the database, and in between the code is found with its activity
    flipped and nothing else changed. *)
Theorem toggle_promo_code_twice db pid code msg bk db' :
  promo_ids_unique db = true ->
  serve (toggle_promo_code pid) db = (Reply code msg bk, db') ->
  (exists p,
     get_promo_code db pid = Some p /\
     get_promo_code db' pid =
       Some (with_is_active (negb (PromoCode.is_active p)) p)) /\
  snd (serve (toggle_promo_code pid) db') = db.
Proof.
  intros Hu H.
  destruct (toggle_promo_code_reply _ _ _ _ _ _ H) as (p & Hp & ->).
  pose proof (get_promo_code_id _ _ _ Hp) as Hid.
  assert (Hp' : get_promo_code
                  (with_promo_codes
                     (update_where (fun q => PromoCode.id q =? pid)
                        (with_is_active (negb (PromoCode.is_active p)))) db)
                  pid =
                Some (with_is_active (negb (PromoCode.is_active p)) p)).
  { unfold get_promo_code in *. cbn [promo_codes with_promo_codes].
    rewrite find_update_where by reflexivity. rewrite Hp.
    cbn [option_map]. rewrite Hid, Z.eqb_refl. reflexivity. }
  split; [exists p; auto |].
  unfold serve, toggle_promo_code, bind, query, found, write, commit, ret.
  cbn [working committed snd]. rewrite Hp'.
  cbn [working committed snd PromoCode.id PromoCode.is_active with_is_active].
  rewrite Hid, negb_involutive.
  rewrite with_promo_codes_twice. apply with_promo_codes_same.
  rewrite update_where_twice by reflexivity.
  apply update_where_none_change. intros x Hx Hsel.
  apply Z.eqb_eq in Hsel.
  assert (x = p); [| subst x; destruct p; reflexivity].
  apply (key_determines_row PromoCode.id (promo_codes db)); auto.
  - apply has_duplicates_NoDup. apply negb_true_iff. exact Hu.
  - unfold get_promo_code in Hp. apply find_some in Hp. tauto.
  - congruence.
Qed.

Lemma toggle_promo_code_twice_witness :
  snd (serve (toggle_promo_code 1) (snd (serve (toggle_promo_code 1) sample_db)))
  = sample_db.
Proof.
  apply (toggle_promo_code_twice sample_db 1 200
           "Promo code deactivated successfully" None
           (snd (serve (toggle_promo_code 1) sample_db)));
    vm_compute; reflexivity.
Defined.



Lemma zlength_zero {A} (l : list A) : zlength l <= 0 -> l = [].
Proof. destruct l; [reflexivity |]. unfold zlength. simpl. lia. Qed.

(** The promo delete keeps every promo reference of a booking resolvable:
    a code that any booking names, cancelled ones included, is refused with
    409 (404 when the code does not exist) and nothing is written; a code
    that is deleted can no longer be found, and nothing refers to it. *)
Theorem delete_promo_code_keeps_references db pid :
  (promo_refs_ok db = true ->
   promo_refs_ok (snd (serve (delete_promo_code pid) db)) = true) /\
  (forall b,
     In b (bookings db) -> Booking.promo_code_id b = Some pid ->
     exists code e,
       (code = 404 \/ code = 409) /\
       serve (delete_promo_code pid) db = (Error code e, db)) /\
  (forall code msg bk db',
     serve (delete_promo_code pid) db = (Reply code msg bk, db') ->
     get_promo_code db' pid = None /\
     filter (uses_promo pid) (bookings db') = []).
Proof.
  assert (Hreply : forall code msg bk db',
    serve (delete_promo_code pid) db = (Reply code msg bk, db') ->
    filter (uses_promo pid) (bookings db) = [] /\
    db' = with_promo_codes
            (filter (fun q => negb (PromoCode.id q =? pid))) db).
  { intros code msg bk db' H.
    destruct (served_reply _ _ _ _ _ _ (delete_promo_code_errs pid) H)
      as (s & Hs & <-).
    clear H. rename Hs into H. unfold delete_promo_code in H.
    repeat (step_in H). apply ret_inr in H. destruct H as [_ ->].
    cbn [committed working].
    match goal with
    | Hp : get_promo_code db pid = Some ?p |- _ =>
        rewrite (get_promo_code_id _ _ _ Hp)
    end.
    split; [| reflexivity]. apply zlength_zero.
    match goal with
    | Hx : negb (0 <? _) = true |- _ =>
        apply negb_true_iff, Z.ltb_ge in Hx; exact Hx
    end. }
  split; [| split].
  - intros Hok.
    destruct (serve (delete_promo_code pid) db) as [r db'] eqn:E.
    cbn [snd].
    destruct (served_cases _ _ _ _ (delete_promo_code_clean pid)
                (delete_promo_code_errs pid) E)
      as [(c & e & _ & ->) | (s & Hs & Hc)]; [exact Hok |].
    destruct r as [code msg bk | code e].
    + destruct (Hreply _ _ _ _ eq_refl) as [Hnone ->].
      unfold promo_refs_ok in *. rewrite forallb_forall in *.
      intros b Hb. cbn [bookings with_promo_codes] in Hb.
      specialize (Hok b Hb). unfold promo_ref_ok in *.
      cbn [promo_codes with_promo_codes].
      destruct (Booking.promo_code_id b) as [q |] eqn:Eq; [| reflexivity].
      apply existsb_exists in Hok. destruct Hok as (x & Hx & Hxq).
      apply existsb_exists. exists x. split; [| exact Hxq].
      apply filter_In. split; [exact Hx |].
      apply negb_true_iff. apply Z.eqb_neq. intros Hxp.
      apply Z.eqb_eq in Hxq.
      assert (Hin : In b (filter (uses_promo pid) (bookings db))).
      { apply filter_In. split; [exact Hb |]. unfold uses_promo.
        rewrite Eq. apply Z.eqb_eq. congruence. }
      rewrite Hnone in Hin. contradiction.
    + exfalso. unfold delete_promo_code in Hs.
      repeat (step_in Hs). discriminate Hs.
  - intros b Hb Hq.
    assert (Hin : In b (filter (uses_promo pid) (bookings db))).
    { apply filter_In. split; [exact Hb |]. unfold uses_promo.
      rewrite Hq. apply Z.eqb_refl. }
    unfold serve, delete_promo_code, bind, query, found, require, ret, reply.
    cbn [working committed].
    destruct (get_promo_code db pid) as [p |]; [| eauto 6].
    destruct (filter (uses_promo pid) (bookings db)) as [| x l];
      [contradiction |].
    assert (Hpos : (0 <? zlength (x :: l)) = true)
      by (apply Z.ltb_lt; unfold zlength; simpl; lia).
    rewrite Hpos. cbn [negb]. eauto 6.
  - intros code msg bk db' H.
    destruct (Hreply _ _ _ _ H) as [Hnone ->]. split.
    + unfold get_promo_code. cbn [promo_codes with_promo_codes].
      apply find_filter_none. intros x Hx. rewrite Hx. reflexivity.
    + exact Hnone.
Qed.

Lemma delete_promo_code_keeps_references_witness :
  promo_refs_ok (snd (serve (delete_promo_code 1) sample_db)) = true /\
  get_promo_code (snd (serve (delete_promo_code 1) sample_db)) 1 = None.
Proof.
  destruct (delete_promo_code_keeps_references sample_db 1)
    as (Hok & _ & Hgone).
  split.
  - apply Hok. vm_compute. reflexivity.
  - apply (Hgone 200 "Promo code deleted successfully" None).
    vm_compute. reflexivity.
Defined.

(** ** The refund *)

Import PaymentRoutes.

Lemma request_refund_errs uid pid amount : errs (request_refund uid pid amount).
Proof. unfold request_refund. errs_tac. Qed.

(** A refund marks the payment and the booking's payment status as
    refunded and writes nothing else: the booking keeps its status, its
    seats stay booked, the trips and the promo codes are as before.  The
    request that directly follows is answered 400 "Only successful payments
    can be refunded", as is the owner's request for any payment whose
    status is not success; the answer "Payment already refunded" is never
    given, its check coming after the check for success. *)
Theorem request_refund_effect db uid pid amount :
  (forall code msg bk db',
     serve (request_refund uid pid amount) db = (Reply code msg bk, db') ->
     (exists p b,
        get_payment db pid = Some p /\
        Payment.status p = TransactionStatus.SUCCESS /\
        get_booking db (Payment.booking_id p) = Some b /\
        get_payment db' pid =
          Some (Payment.with_status TransactionStatus.REFUNDED p) /\
        get_booking db' (Payment.booking_id p) =
          Some (Booking.with_payment_status PaymentStatus.REFUNDED b)) /\
     seats db' = seats db /\ trips db' = trips db /\
     promo_codes db' = promo_codes db /\
     forall amount',
       serve (request_refund uid pid amount') db' =
         (Error 400 "Only successful payments can be refunded", db')) /\
  (forall p,
     get_payment db pid = Some p ->
     Payment.user_id p = uid ->
     Payment.status p <> TransactionStatus.SUCCESS ->
     serve (request_refund uid pid amount) db =
       (Error 400 "Only successful payments can be refunded", db)) /\
  fst (serve (request_refund uid pid amount) db) <>
    Error 400 "Payment already refunded".
Proof.
  split; [| split].
  - intros code msg bk db' H.
    destruct (served_reply _ _ _ _ _ _ (request_refund_errs uid pid amount) H)
      as (s & Hs & <-).
    clear H. rename Hs into H. unfold request_refund in H.
    repeat (step_in H). apply ret_inr in H. destruct H as [_ ->].
    cbn [committed working].
    match goal with
    | Hp : get_payment db pid = Some ?p,
      Hb : get_booking db (Payment.booking_id ?p) = Some ?b,
      Hu : (Payment.user_id ?p =? uid) = true |- _ =>
        pose proof (get_payment_id _ _ _ Hp) as Hid;
        pose proof (get_booking_id _ _ _ Hb) as Hbid;
        assert (Hst : Payment.status p = TransactionStatus.SUCCESS)
          by (destruct (Payment.status p); try discriminate; reflexivity);
        assert (Hp' : get_payment
                  (with_bookings
                     (update_where (fun x => Booking.id x =? Booking.id b)
                        (Booking.with_payment_status PaymentStatus.REFUNDED))
                     (with_payments
                        (update_where (fun x => Payment.id x =? Payment.id p)
                           (Payment.with_status TransactionStatus.REFUNDED))
                        db)) pid =
                Some (Payment.with_status TransactionStatus.REFUNDED p))
    end.
    { unfold get_payment in *. cbn [payments with_payments with_bookings].
      rewrite find_update_where by reflexivity.
      match goal with
      | Hp : find _ (payments db) = Some _ |- _ => rewrite Hp
      end.
      cbn [option_map]. rewrite Z.eqb_refl. reflexivity. }
    split; [| repeat split].
    + do 2 eexists. split; [eassumption |]. split; [exact Hst |].
      split; [eassumption |]. split; [exact Hp' |].
      unfold get_booking in *. cbn [bookings with_payments with_bookings].
      rewrite find_update_where by reflexivity.
      match goal with
      | Hb : find _ (bookings db) = Some _ |- _ => rewrite Hb
      end.
      cbn [option_map]. rewrite Z.eqb_refl. reflexivity.
    + intros amount'.
      unfold serve, request_refund, bind, query, found, require, ret, reply.
      cbn [working committed]. rewrite Hp'.
      cbn [Payment.user_id Payment.status Payment.with_status].
      match goal with
      | Hu : (Payment.user_id _ =? uid) = true |- _ => rewrite Hu
      end.
      reflexivity.
  - intros p Hp Hu Hst.
    unfold serve, request_refund, bind, query, found, require, ret, reply.
    cbn [working committed]. rewrite Hp.
    apply Z.eqb_eq in Hu. rewrite Hu.
    destruct (Payment.status p); try reflexivity. contradiction.
  - unfold serve, request_refund, bind, query, found, require, write, commit,
      ret, reply.
    cbn [working committed].
    destruct (get_payment db pid) as [p |]; [| discriminate].
    destruct (Payment.user_id p =? uid); [| discriminate].
    destruct (Payment.status p); try discriminate.
    cbn [fst].
    destruct (negb _); [| discriminate].
    cbn [working committed].
    destruct (get_booking db (Payment.booking_id p)); discriminate.
Qed.

Lemma request_refund_effect_witness :
  seats (snd (serve (request_refund 1 1 None) paid_db)) = seats paid_db /\
  serve (request_refund 1 1 None) (snd (serve (request_refund 1 1 None) paid_db))
  = (Error 400 "Only successful payments can be refunded",
     snd (serve (request_refund 1 1 None) paid_db)).
Proof.
  destruct (request_refund_effect paid_db 1 1 None) as (H & _ & _).
  destruct (H 200 "✅ Refund processed successfully (DEMO)"
              (get_booking (snd (serve (request_refund 1 1 None) paid_db)) 1)
              (snd (serve (request_refund 1 1 None) paid_db)))
    as (_ & Hs & _ & _ & Hagain).
  - vm_compute. reflexivity.
  - split; [exact Hs | apply Hagain].
Defined.

(** ** The booking report *)

Import BookingReport.

Lemma zlength_cons {A} (x : A) l : zlength (x :: l) = 1 + zlength l.
Proof. unfold zlength. cbn [List.length]. lia. Qed.

Lemma zlength_filter_le {A} (p : A -> bool) l :
  zlength (filter p l) <= zlength l.
Proof.
  induction l as [| x l IH]; [simpl; lia |].
  rewrite zlength_filter_cons, zlength_cons. destruct (p x); lia.
Qed.

(** The report is consistent with itself: the counts by booking status add
    up to the total number of bookings, so do the counts by payment status,
    and the bookings with a promo code are at most the total. *)
Theorem report_counts_add_up (query : list Booking.t) :
  fold_right Z.add 0 (map snd (bookings_by_status query)) =
    total_bookings query /\
  fold_right Z.add 0 (map snd (bookings_by_payment query)) =
    total_bookings query /\
  0 <= bookings_with_promo query <= total_bookings query /\
  map fst (bookings_by_status query) =
    ["pending"; "confirmed"; "cancelled"; "completed"] /\
  map fst (bookings_by_payment query) =
    ["unpaid"; "paid"; "refunded"; "failed"].
Proof.
  unfold bookings_by_status, bookings_by_payment, booking_statuses,
    payment_statuses, total_bookings, bookings_with_promo.
  cbn [map fst snd fold_right].
  split; [| split; [| split; [| split; reflexivity]]].
  - induction query as [| b l IH]; [reflexivity |].
    rewrite !zlength_filter_cons, zlength_cons.
    destruct (Booking.booking_status b); cbn [BookingStatus.eqb]; lia.
  - induction query as [| b l IH]; [reflexivity |].
    rewrite !zlength_filter_cons, zlength_cons.
    destruct (Booking.payment_status b); cbn [PaymentStatus.eqb]; lia.
  - split; [apply zlength_nonneg | apply zlength_filter_le].
Qed.

(** ** A paid booking takes no new payment *)

(** After the gateway's success the booking of the reply has payment status
    paid and is the booking stored.  For as long as its payment status is
    paid, no new payment can be started for it: in every database where the
    booking is paid, [initiate_payment] answers 400 "Booking is already
    paid" (403 for another caller) and writes nothing.  The check belongs
    to the start of a payment; nothing is said of payments started
    before. *)
Theorem paid_booking_takes_no_new_payment db uid pid code msg b db' :
  serve (Payments.process_payment uid pid true) db
    = (Reply code msg (Some b), db') ->
  Booking.payment_status b = PaymentStatus.PAID /\
  get_booking db' (Booking.id b) = Some b /\
  forall d b' uid',
    get_booking d (Booking.id b) = Some b' ->
    Booking.payment_status b' = PaymentStatus.PAID ->
    exists code' e,
      (code' = 400 \/ code' = 403) /\
      serve (Payments.initiate_payment uid' (Booking.id b)) d
        = (Error code' e, d).
Proof.
  intros H.
  destruct (served_reply _ _ _ _ _ _ (process_payment_errs uid pid true) H)
    as (s & Hs & <-).
  clear H. rename Hs into H. unfold Payments.process_payment in H.
  repeat (step_in H). apply ret_inr in H. destruct H as [H ->].
  injection H as -> -> Hbk.
  cbn [committed working] in *.
  match goal with
  | Hb : get_booking db (Payment.booking_id ?p) = Some ?b0 |- _ =>
      rename p into a, b0 into a5;
      pose proof (get_booking_id _ _ _ Hb) as Hid;
      assert (Hget : forall d,
        bookings d = update_where (fun x => Booking.id x =? Booking.id b0)
                       (Booking.with_payment_status PaymentStatus.PAID)
                       (bookings db) ->
        get_booking d (Payment.booking_id p) =
        Some (Booking.with_payment_status PaymentStatus.PAID b0))
  end.
  { intros d Hd. unfold get_booking in *. rewrite Hd.
    rewrite find_update_where by reflexivity.
    match goal with
    | Hb : find _ (bookings db) = Some _ |- _ => rewrite Hb
    end.
    cbn [option_map]. rewrite Z.eqb_refl. reflexivity. }
  match goal with
  | |- context [get_booking ?d _] =>
      let dd := fresh "d" in
      set (dd := d) in *;
      assert (Hd : get_booking dd (Payment.booking_id a) =
                   Some (Booking.with_payment_status PaymentStatus.PAID a5))
        by (apply Hget; reflexivity);
      clearbody dd
  end.
  rewrite Hd in Hbk. injection Hbk as Hbk. subst b.
  cbn [Booking.payment_status Booking.with_payment_status Booking.id].
  rewrite Hid.
  split; [reflexivity |]. split; [exact Hd |].
  intros d' b' uid' Hb' Hpaid.
  unfold serve, Payments.initiate_payment, bind, query, found, require, ret,
    reply.
  cbn [working committed]. rewrite Hb'.
  destruct (_ =? uid'); [| eauto 6].
  rewrite Hpaid. cbn [PaymentStatus.eqb negb]. eauto 6.
Qed.

Lemma paid_booking_takes_no_new_payment_witness :
  exists code' e,
    serve (Payments.initiate_payment 1 1) paid_db = (Error code' e, paid_db).
Proof.
  destruct (paid_booking_takes_no_new_payment paying_db 1 1 200
              "✅ Payment processed successfully (DEMO)"
              (Booking.make 1 1 1 None (of_Z 150) (S754_zero false)
                 (of_Z 150) BookingStatus.CONFIRMED PaymentStatus.PAID 3)
              paid_db) as (_ & Hb & Hno).
  - vm_compute. reflexivity.
  - destruct (Hno paid_db _ 1 Hb eq_refl) as (c & e & _ & E).
    exists c, e. exact E.
Defined.

(** ** The admin's cancel and the user's cancel *)

(** Where the user could cancel a booking, the admin's update to
    [cancelled] does the same to the seats, the trips and the bookings; it
    differs in leaving the promo codes alone. *)
Theorem admin_cancel_matches_user_cancel db now uid bid code msg bk db1 :
  serve (cancel_booking now uid bid) db = (Reply code msg bk, db1) ->
  seats (snd (serve (AdminBookings.update_booking_status bid
                       (Some "cancelled")) db)) = seats db1 /\
  trips (snd (serve (AdminBookings.update_booking_status bid
                       (Some "cancelled")) db)) = trips db1 /\
  bookings (snd (serve (AdminBookings.update_booking_status bid
                          (Some "cancelled")) db)) = bookings db1 /\
  promo_codes (snd (serve (AdminBookings.update_booking_status bid
                             (Some "cancelled")) db)) = promo_codes db.
Proof.
  intros H.
  destruct (cancel_booking_served db now uid bid)
    as [(Hc & b & t & Hb & Ht & E) | (_ & c & e & E)];
    rewrite E in H; [| discriminate H].
  injection H as _ _ _ <-.
  unfold can_cancel in Hc. rewrite Hb, Ht in Hc.
  rewrite !andb_true_iff in Hc. destruct Hc as (((_ & Hlive) & _) & _).
  unfold is_cancelled in Hlive.
  rewrite seats_after_cancel, trips_after_cancel, bookings_after_cancel.
  unfold serve, AdminBookings.update_booking_status, bind, query, found,
    require, write, commit, ret, reply.
  cbn [working committed]. rewrite Hb.
  change (BookingStatus.of_value (lower "cancelled"))
    with (Some BookingStatus.CANCELLED).
  cbn [BookingStatus.eqb andb]. rewrite Hlive, Ht.
  cbn [working committed].
  destruct (PaymentStatus.eqb (Booking.payment_status b) PaymentStatus.PAID)
    eqn:Ep; cbn [working committed snd seats trips bookings promo_codes
                 with_seats with_trips with_bookings];
    (repeat split);
    unfold update_where, cancelled_row, this_booking;
    rewrite ?map_map; apply map_ext; intros x; rewrite ?Ep;
    destruct (Booking.id x =? Booking.id b) eqn:Ex;
    cbn [Booking.id Booking.with_payment_status]; rewrite ?Ex;
    destruct x; reflexivity.
Qed.

Lemma admin_cancel_matches_user_cancel_witness :
  seats (snd (serve (AdminBookings.update_booking_status 1
                       (Some "cancelled")) booked_db)) = seats cancelled_db /\
  trips (snd (serve (AdminBookings.update_booking_status 1
                       (Some "cancelled")) booked_db)) = trips cancelled_db.
Proof.
  destruct (admin_cancel_matches_user_cancel booked_db 20 1 1 200
              "Booking cancelled successfully"
              (get_booking cancelled_db 1) cancelled_db) as (Hs & Ht & _).
  - vm_compute. reflexivity.
  - split; [exact Hs | exact Ht].
Defined.

(** ** The promo code as typed *)

Lemma is_space_upper c : is_space (upper_char c) = is_space c.
Proof. destruct c as [[] [] [] [] [] [] [] []]; vm_compute; reflexivity. Qed.

Lemma upper_char_twice c : upper_char (upper_char c) = upper_char c.
Proof. destruct c as [[] [] [] [] [] [] [] []]; vm_compute; reflexivity. Qed.

Lemma upper_twice s : upper (upper s) = upper s.
Proof.
  unfold upper. induction s as [| c s IH]; simpl; [reflexivity |].
  rewrite upper_char_twice, IH. reflexivity.
Qed.

Lemma lstrip_upper s : lstrip (upper s) = upper (lstrip s).
Proof.
  unfold upper. induction s as [| c s IH]; simpl; [reflexivity |].
  rewrite is_space_upper. destruct (is_space c); [exact IH | reflexivity].
Qed.

Lemma rstrip_upper s : rstrip (upper s) = upper (rstrip s).
Proof.
  unfold upper. induction s as [| c s IH]; simpl; [reflexivity |].
  rewrite IH, is_space_upper.
  destruct (rstrip s); simpl; [destruct (is_space c) |]; reflexivity.
Qed.

Lemma strip_upper s : strip (upper s) = upper (strip s).
Proof. unfold strip. rewrite lstrip_upper, rstrip_upper. reflexivity. Qed.

Lemma rstrip_twice s : rstrip (rstrip s) = rstrip s.
Proof.
  induction s as [| c s IH]; simpl; [reflexivity |].
  destruct (rstrip s) as [| d r] eqn:E.
  - destruct (is_space c) eqn:Ec; simpl; [| rewrite Ec]; reflexivity.
  - simpl in *. rewrite IH. reflexivity.
Qed.

(** What [lstrip] returns is empty or starts with a character that is not
    white space, and [rstrip] keeps such a start. *)
Lemma lstrip_rstrip_lstrip s : lstrip (rstrip (lstrip s)) = rstrip (lstrip s).
Proof.
  induction s as [| c s IH]; simpl; [reflexivity |].
  destruct (is_space c) eqn:Ec; [exact IH |].
  simpl. destruct (rstrip s); rewrite ?Ec; simpl; rewrite Ec; reflexivity.
Qed.

Lemma strip_twice s : strip (strip s) = strip s.
Proof.
  unfold strip. rewrite lstrip_rstrip_lstrip. apply rstrip_twice.
Qed.

Lemma promo_code_str_normal code :
  upper (strip (upper (strip code))) = upper (strip code).
Proof. rewrite strip_upper, strip_twice, upper_twice. reflexivity. Qed.

(** A promo code counts as typed in capitals and without the white space
    around it: a booking request and a fare request with the code as typed
    are served exactly as with the normalised code. *)
Theorem promo_code_as_typed now uid tid ids name email phone code db :
  serve (create_booking now uid
           (mkBookingData tid ids name email phone code)) db =
  serve (create_booking now uid
           (mkBookingData tid ids name email phone (upper (strip code)))) db /\
  Trips.calculate_fare db now (Trips.mkFareData tid ids code) =
  Trips.calculate_fare db now (Trips.mkFareData tid ids (upper (strip code))).
Proof.
  split.
  - unfold create_booking, validate_required_fields.
    cbn [trip_id seat_ids passenger_name passenger_email passenger_phone
         promo_code].
    rewrite promo_code_str_normal. reflexivity.
  - unfold Trips.calculate_fare.
    cbn [Trips.trip_id Trips.seat_ids Trips.promo_code].
    rewrite promo_code_str_normal. reflexivity.
Qed.

(** ** Seats on offer *)

Lemma NoDup_selected_ids db ids tid :
  NoDup (map Seat.id (seats db)) ->
  NoDup (map Seat.id (filter (selected ids tid) (seats db))).
Proof.
  intros Hu. induction (seats db) as [| s l IH]; simpl; [constructor |].
  inversion Hu as [| ? ? Hn Hl]; subst.
  destruct (selected ids tid s); simpl; [| auto].
  constructor; [| auto].
  intros Hin. apply Hn. apply in_map_iff in Hin.
  destruct Hin as (s' & E & Hs'). apply filter_In in Hs'.
  apply in_map_iff. exists s'. tauto.
Qed.

(** The seats offered are the seats that can be booked: for a trip that
    exists and a list of ids without repetition, [create_booking]'s seat
    checks pass exactly when every id is the id of a seat that
    [get_available_seats] lists for the trip. *)
Theorem listed_seats_are_bookable db tid ids trip :
  seat_ids_unique db = true ->
  get_trip db tid = Some trip ->
  NoDup ids ->
  exists listed,
    Trips.get_available_seats db tid "" = Trips.Seats listed /\
    (seat_checks db tid ids = true <->
     forall i, In i ids -> In i (map Seat.id listed)).
Proof.
  intros Hu Ht Hnd.
  assert (Hu' : NoDup (map Seat.id (seats db)))
    by (apply has_duplicates_NoDup; apply negb_true_iff; exact Hu).
  unfold Trips.get_available_seats. rewrite Ht. cbn [lower smap is_empty].
  eexists. split; [reflexivity |].
  unfold seat_checks. rewrite andb_true_iff, forallb_forall. split.
  - intros [Hcount Hav] i Hi.
    destruct (requested_seats_cover db (mkBookingData tid ids "" "" "" ""))
      with (i := i) as (s & Hs & Hid & Hsel); auto.
    { apply Z.eqb_eq. exact Hcount. }
    cbn [trip_id seat_ids] in Hsel.
    apply in_map_iff. exists s. split; [exact Hid |].
    apply filter_In. split; [exact Hs |].
    rewrite (Hav s) by (apply filter_In; auto).
    unfold selected in Hsel. apply andb_true_iff in Hsel.
    destruct Hsel as [_ ->]. reflexivity.
  - intros Hall.
    assert (Hrow : forall s, In s (filter (selected ids tid) (seats db)) ->
                             is_available s = true).
    { intros s Hs. apply filter_In in Hs. destruct Hs as [Hs Hsel].
      unfold selected in Hsel. apply andb_true_iff in Hsel.
      destruct Hsel as [Hin _]. apply existsb_exists in Hin.
      destruct Hin as (i & Hi & E). apply Z.eqb_eq in E.
      specialize (Hall i Hi). apply in_map_iff in Hall.
      destruct Hall as (s' & Hid & Hs'). apply filter_In in Hs'.
      destruct Hs' as [Hs' Hok]. apply andb_true_iff in Hok.
      assert (s = s'); [| subst; tauto].
      apply (key_determines_row Seat.id (seats db)); auto. congruence. }
    split; [| exact Hrow].
    apply Z.eqb_eq. unfold zlength. f_equal.
    rewrite <- (length_map Seat.id).
    apply Nat.le_antisymm.
    + apply NoDup_incl_length; [apply NoDup_selected_ids; exact Hu' |].
      intros j Hj. apply in_map_iff in Hj. destruct Hj as (s & <- & Hs).
      apply filter_In in Hs. destruct Hs as [_ Hsel].
      unfold selected in Hsel. apply andb_true_iff in Hsel.
      destruct Hsel as [Hin _]. apply existsb_exists in Hin.
      destruct Hin as (i & Hi & E). apply Z.eqb_eq in E. congruence.
    + apply NoDup_incl_length; [exact Hnd |].
      intros i Hi. specialize (Hall i Hi). apply in_map_iff in Hall.
      destruct Hall as (s & Hid & Hs). apply filter_In in Hs.
      destruct Hs as [Hs Hok]. apply andb_true_iff in Hok.
      destruct Hok as [Htid _].
      apply in_map_iff. exists s. split; [exact Hid |].
      apply filter_In. split; [exact Hs |].
      unfold selected. rewrite Htid, andb_true_r.
      apply existsb_exists. exists i. split; [exact Hi |].
      apply Z.eqb_eq. exact Hid.
Qed.

Lemma listed_seats_are_bookable_witness :
  exists listed,
    Trips.get_available_seats booked_db 1 "" = Trips.Seats listed /\
    map Seat.id listed = [1; 4; 6; 7; 8; 9; 10] /\
    seat_checks booked_db 1 [4; 9] = true.
Proof.
  destruct (listed_seats_are_bookable booked_db 1 [4; 9]
              (Trip.make 1 1000 5000 10 7 TripStatus.SCHEDULED))
    as (listed & Hl & Hiff).
  - vm_compute. reflexivity.
  - vm_compute. reflexivity.
  - repeat constructor; simpl; intuition lia.
  - exists listed. split; [exact Hl |].
    assert (E : map Seat.id listed = [1; 4; 6; 7; 8; 9; 10]).
    { vm_compute in Hl. injection Hl as <-. reflexivity. }
    split; [exact E |]. apply Hiff. rewrite E. simpl. intuition lia.
Defined.

(** ** The usage limit *)

Lemma update_promo_code_clean pid data : clean (update_promo_code pid data).
Proof.
  unfold update_promo_code.
  destruct (usage_limit data) as [[l |] |],
           (usage_per_user data) as [[k |] |],
           (is_active data) as [a |]; clean_tac.
Qed.

Lemma update_promo_code_errs pid data : errs (update_promo_code pid data).
Proof.
  unfold update_promo_code.
  destruct (usage_limit data) as [[l |] |],
           (usage_per_user data) as [[k |] |],
           (is_active data) as [a |]; errs_tac.
Qed.

Lemma promo_limits_ok_iff db :
  promo_limits_ok db = true <->
  ((forall x, In x (promo_codes db) -> promo_limit_ok x = true) /\
   NoDup (map PromoCode.id (promo_codes db))).
Proof.
  unfold promo_limits_ok, promo_ids_unique.
  rewrite andb_true_iff, forallb_forall, negb_true_iff. split.
  - intros [H1 H2]. split; [exact H1 | apply has_duplicates_NoDup; exact H2].
  - intros [H1 H2]. split; [exact H1 | apply NoDup_has_duplicates; exact H2].
Qed.

(** Rows of a promo table after an update of the rows of one id, when the
    update keeps ids and use counts and keeps the limit of a row with the
    use count [used] respected. *)
Lemma promo_rows_updated pid used (f : PromoCode.t -> PromoCode.t) l :
  (forall x, PromoCode.id (f x) = PromoCode.id x) ->
  (forall x, PromoCode.used_count (f x) = PromoCode.used_count x) ->
  (forall x, PromoCode.used_count x = used -> promo_limit_ok x = true ->
             promo_limit_ok (f x) = true) ->
  (forall x, In x l ->
     promo_limit_ok x = true /\
     (PromoCode.id x = pid -> PromoCode.used_count x = used)) ->
  forall y, In y (update_where (fun q => PromoCode.id q =? pid) f l) ->
    promo_limit_ok y = true /\
    (PromoCode.id y = pid -> PromoCode.used_count y = used).
Proof.
  intros Hid Hused Hok Hl y Hy.
  apply In_update_where in Hy. destruct Hy as (x & Hx & ->).
  destruct (Hl x Hx) as [H1 H2].
  destruct (PromoCode.id x =? pid) eqn:E; [| auto].
  apply Z.eqb_eq in E. rewrite Hid, Hused. auto.
Qed.

Lemma promo_limit_ok_limit x limit :
  negb (limit <? PromoCode.used_count x) = true ->
  promo_limit_ok x = true ->
  promo_limit_ok (with_usage_limit (Some limit) x) = true.
Proof.
  unfold promo_limit_ok. cbn. rewrite !andb_true_iff.
  intros Hl [H0 _]. apply negb_true_iff, Z.ltb_ge in Hl.
  split; [exact H0 | apply Z.leb_le; exact Hl].
Qed.

Lemma promo_limit_ok_no_limit x :
  promo_limit_ok x = true -> promo_limit_ok (with_usage_limit None x) = true.
Proof.
  unfold promo_limit_ok. cbn. rewrite !andb_true_iff. tauto.
Qed.

Ltac promo_rows :=
  repeat first
    [ assumption
    | apply promo_rows_updated;
      [ reflexivity | reflexivity
      | let x := fresh "x" in let Hu := fresh "Hu" in let Hx := fresh "Hx" in
        intros x Hu Hx;
        first [ exact Hx
              | apply promo_limit_ok_no_limit; exact Hx
              | apply promo_limit_ok_limit; [rewrite Hu; assumption | exact Hx] ]
      | ] ].

Lemma update_promo_code_limits db pid data :
  promo_limits_ok db = true ->
  promo_limits_ok (snd (serve (update_promo_code pid data) db)) = true.
Proof.
  intros Hok.
  destruct (serve (update_promo_code pid data) db) as [r db'] eqn:E.
  cbn [snd].
  destruct (served_cases _ _ _ _ (update_promo_code_clean pid data)
              (update_promo_code_errs pid data) E)
    as [(c & e & _ & ->) | (s & H & <-)]; [exact Hok |].
  clear E. apply promo_limits_ok_iff in Hok. destruct Hok as [Hrows Hnd].
  unfold update_promo_code in H.
  step_in H. step_in H.
  pose proof (get_promo_code_id _ _ _ Hm) as Hid.
  assert (Hstart : forall x, In x (promo_codes db) ->
            promo_limit_ok x = true /\
            (PromoCode.id x = PromoCode.id a ->
             PromoCode.used_count x = PromoCode.used_count a)).
  { intros x Hx. split; [auto |]. intros Hxa.
    assert (x = a); [| subst; reflexivity].
    apply (key_determines_row PromoCode.id (promo_codes db)); auto.
    unfold get_promo_code in Hm. apply find_some in Hm. tauto. }
  assert (Hend : (forall y, In y (promo_codes (committed s)) ->
                    promo_limit_ok y = true /\
                    (PromoCode.id y = PromoCode.id a ->
                     PromoCode.used_count y = PromoCode.used_count a)) /\
                 map PromoCode.id (promo_codes (committed s)) =
                 map PromoCode.id (promo_codes db)).
  { destruct (usage_limit data) as [[l |] |],
             (usage_per_user data) as [[k |] |],
             (is_active data) as [act |];
      repeat (step_in H); try (apply ret_inr in H; destruct H as [_ ->]);
      try discriminate;
      cbn [committed working promo_codes with_promo_codes];
      (split; [promo_rows | rewrite ?map_update_where by reflexivity;
                            reflexivity]). }
  destruct Hend as [Hrows' Hids].
  apply promo_limits_ok_iff. split.
  - intros y Hy. apply (Hrows' y Hy).
  - rewrite Hids. exact Hnd.
Qed.

Lemma promo_limit_ok_active x a :
  promo_limit_ok (with_is_active a x) = promo_limit_ok x.
Proof. reflexivity. Qed.

Lemma toggle_promo_code_limits db pid :
  promo_limits_ok db = true ->
  promo_limits_ok (snd (serve (toggle_promo_code pid) db)) = true.
Proof.
  intros Hok.
  destruct (serve (toggle_promo_code pid) db) as [r db'] eqn:E.
  cbn [snd].
  destruct (served_cases _ _ _ _ (toggle_promo_code_clean pid)
              (toggle_promo_code_errs pid) E)
    as [(c & e & _ & ->) | (s & H & <-)]; [exact Hok |].
  clear E. apply promo_limits_ok_iff in Hok. destruct Hok as [Hrows Hnd].
  unfold toggle_promo_code in H.
  repeat (step_in H). apply ret_inr in H. destruct H as [_ ->].
  cbn [committed working promo_codes with_promo_codes].
  apply promo_limits_ok_iff.
  cbn [promo_codes with_promo_codes]. split.
  - intros y Hy. apply In_update_where in Hy. destruct Hy as (x & Hx & ->).
    destruct (PromoCode.id x =? PromoCode.id a);
      [rewrite promo_limit_ok_active |]; auto.
  - rewrite map_update_where by reflexivity. exact Hnd.
Qed.

Lemma delete_promo_code_limits db pid :
  promo_limits_ok db = true ->
  promo_limits_ok (snd (serve (delete_promo_code pid) db)) = true.
Proof.
  intros Hok.
  destruct (serve (delete_promo_code pid) db) as [r db'] eqn:E.
  cbn [snd].
  destruct (served_cases _ _ _ _ (delete_promo_code_clean pid)
              (delete_promo_code_errs pid) E)
    as [(c & e & _ & ->) | (s & H & <-)]; [exact Hok |].
  clear E. apply promo_limits_ok_iff in Hok. destruct Hok as [Hrows Hnd].
  unfold delete_promo_code in H.
  repeat (step_in H). apply ret_inr in H. destruct H as [_ ->].
  cbn [committed working].
  apply promo_limits_ok_iff.
  cbn [promo_codes with_promo_codes]. split.
  - intros y Hy. apply filter_In in Hy. apply Hrows. tauto.
  - apply NoDup_map_filter. exact Hnd.
Qed.

Lemma create_booking_limits db now uid data :
  promo_limits_ok db = true ->
  promo_limits_ok (snd (serve (create_booking now uid data) db)) = true.
Proof.
  intros Hok.
  destruct (create_booking_served db now uid data)
    as [(Hp & trip & Ht & ->) | (_ & c & e & ->)]; [| exact Hok].
  cbn [snd].
  apply promo_limits_ok_iff in Hok. destruct Hok as [Hrows Hnd].
  apply promo_limits_ok_iff. rewrite promo_codes_after_create.
  destruct (applied_promo db data) as [p |] eqn:Ea; [| auto].
  assert (Hv : fst (PromoCode.is_valid p now) = true /\ In p (promo_codes db)).
  { unfold passes_validations in Hp. rewrite Ht in Hp.
    rewrite !andb_true_iff in Hp. destruct Hp as (_ & _ & Hp).
    unfold promo_checks in Hp. unfold applied_promo in Ea.
    destruct (is_empty (promo_code_str data)); [discriminate Ea |].
    rewrite Ea in Hp. rewrite !andb_true_iff in Hp.
    split; [tauto |].
    unfold promo_by_code in Ea. apply find_some in Ea. tauto. }
  destruct Hv as [Hv Hin]. split.
  - intros y Hy. apply In_update_where in Hy. destruct Hy as (x & Hx & ->).
    destruct (PromoCode.id x =? PromoCode.id p) eqn:Ex; [| auto].
    apply Z.eqb_eq in Ex.
    assert (x = p) by
      (apply (key_determines_row PromoCode.id (promo_codes db)); auto).
    subst x. specialize (Hrows p Hin).
    unfold promo_limit_ok in *. unfold PromoCode.is_valid in Hv.
    cbn [PromoCode.used_count PromoCode.usage_limit PromoCode.with_used_count].
    rewrite andb_true_iff in *. destruct Hrows as [H0 Hl].
    apply Z.leb_le in H0. split; [apply Z.leb_le; lia |].
    destruct (PromoCode.usage_limit p) as [limit |]; [| reflexivity].
    destruct (negb (PromoCode.is_active p)); [discriminate Hv |].
    destruct (now <? PromoCode.valid_from p); [discriminate Hv |].
    destruct (PromoCode.valid_until p <? now); [discriminate Hv |].
    destruct (limit <=? PromoCode.used_count p) eqn:El; [discriminate Hv |].
    apply Z.leb_gt in El. apply Z.leb_le. lia.
  - rewrite map_update_where by reflexivity. exact Hnd.
Qed.

Lemma cancel_booking_limits db now uid bid :
  promo_limits_ok db = true ->
  promo_limits_ok (snd (serve (cancel_booking now uid bid) db)) = true.
Proof.
  intros Hok.
  destruct (cancel_booking_served db now uid bid)
    as [(_ & b & t & _ & _ & ->) | (_ & c & e & ->)]; [| exact Hok].
  cbn [snd].
  apply promo_limits_ok_iff in Hok. destruct Hok as [Hrows Hnd].
  apply promo_limits_ok_iff. rewrite promo_codes_after_cancel.
  destruct (Booking.promo_code_id b) as [pid |]; [| auto].
  destruct (negb (pid =? 0)); [| auto].
  destruct (get_promo_code db pid) as [p |]; [| auto].
  split.
  - intros y Hy. apply In_update_where in Hy. destruct Hy as (x & Hx & ->).
    destruct (PromoCode.id x =? PromoCode.id p); [| auto].
    specialize (Hrows x Hx). unfold promo_limit_ok in *.
    cbn [PromoCode.used_count PromoCode.usage_limit PromoCode.with_used_count].
    rewrite andb_true_iff in *. destruct Hrows as [H0 Hl].
    apply Z.leb_le in H0. split; [apply Z.leb_le; lia |].
    destruct (PromoCode.usage_limit x) as [limit |]; [| reflexivity].
    apply Z.leb_le in Hl. apply Z.leb_le. lia.
  - rewrite map_update_where by reflexivity. exact Hnd.
Qed.

(** A promo code is never used more often than its usage limit allows: when
    every code's use count is between zero and its limit (if it has one) and
    the codes' ids are distinct, the same holds after a booking request, a
    cancellation, and the admin's update (of the usage limit, the per-user
    limit and the active flag), toggle and delete of a promo code, whatever
    they answer. *)
Theorem usage_limit_respected db :
  promo_limits_ok db = true ->
  (forall now uid data,
     promo_limits_ok (snd (serve (create_booking now uid data) db)) = true) /\
  (forall now uid bid,
     promo_limits_ok (snd (serve (cancel_booking now uid bid) db)) = true) /\
  (forall pid data,
     promo_limits_ok (snd (serve (update_promo_code pid data) db)) = true) /\
  (forall pid,
     promo_limits_ok (snd (serve (toggle_promo_code pid) db)) = true) /\
  (forall pid,
     promo_limits_ok (snd (serve (delete_promo_code pid) db)) = true).
Proof.
  intros Hok. repeat split; intros.
  - apply create_booking_limits; exact Hok.
  - apply cancel_booking_limits; exact Hok.
  - apply update_promo_code_limits; exact Hok.
  - apply toggle_promo_code_limits; exact Hok.
  - apply delete_promo_code_limits; exact Hok.
Qed.

Lemma usage_limit_respected_witness :
  promo_limits_ok sample_db = true /\
  promo_limits_ok
    (snd (serve (update_promo_code 1 (mkPromoUpdate (Some (Some 5)) None None))
            sample_db)) = true.
Proof.
  split; [vm_compute; reflexivity |].
  apply (usage_limit_respected sample_db). vm_compute. reflexivity.
Defined.
